(** * A shallow embedding of the Discord assistant relay bot (bot.py)

    The bot keeps one remote conversation ("thread") per Discord user in the
    global dictionary [user_threads], mirrors that dictionary in a JSON file,
    and for every inbound message runs one assistant cycle: resolve the
    thread, post the text, start a run, poll it, and relay the answer.

    The embedding follows bot.py function by function.  The process state
    (dictionary, file, clock, trace of effects) is threaded explicitly; what
    the outside world answers (the remote assistant API, the disk) is read
    from an [environment], indexed by the number of requests made so far.

    One call of [on_message] is run from its first statement to its last:
    other handlers that the event loop could run at an [await] are left out.
    [message.channel.send] is taken to deliver; the remote API and the disk
    may fail at every request.  Time is counted in milliseconds: 1.5 s is
    1500, the 120 s deadline is 120000; a request takes the time the
    environment gives it, and a sleep lasts as long as asked for plus the
    overrun the environment gives it.  Strings are held in UTF-8; lengths
    and slices count characters (code points), as [len] and slicing do.
    The log keeps the records of level INFO and above (line 54), with their
    format strings as they stand.

    The start of the script, lines 57-66 and 442-477, is embedded in
    [Main.main]: the three environment variables are optional strings, the
    services met before and during [discord_client.run] answer as a
    [Main.services] says, and the events the client dispatches go to
    [on_ready] and [on_message] one after the other. *)

From Stdlib Require Import ZArith String Ascii List Lia.
From Stdlib Require Import DecimalString DecimalPos DecimalZ.
From stdpp Require Import gmap strings list fin_maps.

Local Open Scope Z_scope.
Local Open Scope string_scope.

(** ** Python strings and integers *)

Module Py.

(** A Python string is a sequence of Unicode characters.  It is held here in
    its UTF-8 encoding, the one string literals are written in: a character
    is a byte that starts it together with the continuation bytes (of the
    form 10xxxxxx) that follow.  Comparing, concatenating and searching go
    byte by byte, which for encoded strings is character by character;
    lengths, slices and the classes of characters go by [chars]. *)
Definition is_continuation (b : ascii) : bool :=
  (128 <=? N_of_ascii b)%N && (N_of_ascii b <? 192)%N.

Definition continues (s : string) : bool :=
  match s with
  | String b _ => is_continuation b
  | EmptyString => false
  end.

(** The characters of a string, in order. *)
Fixpoint chars (s : string) : list string :=
  match s with
  | EmptyString => []
  | String b r =>
      match chars r with
      | c :: cs => if continues r then String b c :: cs
                   else String b EmptyString :: c :: cs
      | [] => [String b EmptyString]
      end
  end.

(** [len(s)] *)
Definition len (s : string) : nat := length (chars s).

(** [ord(c)] for one character: the code point its bytes encode. *)
Definition ord (c : string) : option N :=
  match N_of_ascii <$> list_ascii_of_string c with
  | [b0] => if (b0 <? 128)%N then Some b0 else None
  | [b0; b1] =>
      if (192 <=? b0)%N && (b0 <? 224)%N
      then Some ((b0 - 192) * 64 + (b1 - 128))%N else None
  | [b0; b1; b2] =>
      if (224 <=? b0)%N && (b0 <? 240)%N
      then Some ((b0 - 224) * 4096 + (b1 - 128) * 64 + (b2 - 128))%N
      else None
  | [b0; b1; b2; b3] =>
      if (240 <=? b0)%N && (b0 <? 248)%N
      then Some ((b0 - 240) * 262144 + (b1 - 128) * 4096
                 + (b2 - 128) * 64 + (b3 - 128))%N
      else None
  | _ => None
  end.

(** [c.isspace()], by code point: the characters [str.strip()] removes.
    U+0009-000D, U+001C-0020, U+0085, U+00A0, U+1680, U+2000-200A, U+2028,
    U+2029, U+202F, U+205F, U+3000. *)
Definition is_whitespace (n : N) : bool :=
  ((9 <=? n) && (n <=? 13) || (28 <=? n) && (n <=? 32)
   || (n =? 133) || (n =? 160) || (n =? 5760)
   || (8192 <=? n) && (n <=? 8202)
   || (n =? 8232) || (n =? 8233) || (n =? 8239) || (n =? 8287)
   || (n =? 12288))%N.

Definition is_space (c : string) : bool :=
  match ord c with
  | Some n => is_whitespace n
  | None => false
  end.

Fixpoint lstrip_chars (cs : list string) : list string :=
  match cs with
  | c :: r => if is_space c then lstrip_chars r else cs
  | [] => []
  end.

Definition rstrip_chars (cs : list string) : list string :=
  rev (lstrip_chars (rev cs)).

(** [s.strip()] *)
Definition strip (s : string) : string :=
  String.concat "" (rstrip_chars (lstrip_chars (chars s))).

(** [s.replace(pat, '')] for a non-empty pattern: every occurrence of [pat],
    found left to right and without overlap, is dropped.  [skip] counts the
    bytes of the occurrence in progress that are still to be dropped. *)
Fixpoint remove_from (skip : nat) (pat s : string) : string :=
  match s with
  | EmptyString => EmptyString
  | String c r =>
      match skip with
      | S k => remove_from k pat r
      | O =>
          if String.prefix pat s
          then remove_from (String.length pat - 1) pat r
          else String c (remove_from 0 pat r)
      end
  end.

Definition remove_all (pat s : string) : string :=
  match pat with
  | EmptyString => s
  | _ => remove_from 0 pat s
  end.

(** [sep.join(l)] *)
Fixpoint join (sep : string) (l : list string) : string :=
  match l with
  | [] => EmptyString
  | [x] => x
  | x :: r => x +:+ sep +:+ join sep r
  end.

(** [s[i:i+n]] for [0 <= i]: [n] characters from the [i]-th one on, fewer
    at the end of the string. *)
Definition slice (i n : nat) (s : string) : string :=
  String.concat "" (take n (drop i (chars s))).

(** [range(0, n, step)] *)
Definition range_step (n step : nat) : list nat :=
  map (fun k => (k * step)%nat) (seq 0 (Nat.div (n + (step - 1)) step)).

(** [str(k)] for an integer: decimal digits, a leading minus sign when
    negative. *)
Definition str (k : Z) : string := NilZero.string_of_int (Z.to_int k).

(** [int(s)] for a string, base 10.  The characters beyond ASCII are first
    brought to ASCII: a white space becomes a blank, a decimal digit of any
    script the ASCII digit of its value, anything else makes the conversion
    fail.  Then the white space of C (U+0009-000D and the blank, not
    U+001C-001F) is dropped at both ends, one sign is allowed, and single
    underscores may separate digits.  [None] stands for [ValueError].  The
    limit on the number of digits (4300 unless configured otherwise) is
    left out, for [int] and for [str]: the keys are Discord identifiers, of
    at most 20 digits. *)
Definition is_c_space (c : ascii) : bool :=
  match nat_of_ascii c with
  | 9%nat | 10%nat | 11%nat | 12%nat | 13%nat | 32%nat => true
  | _ => false
  end.

Fixpoint c_lstrip (s : string) : string :=
  match s with
  | String c r => if is_c_space c then c_lstrip r else s
  | EmptyString => EmptyString
  end.

Fixpoint c_rstrip (s : string) : string :=
  match s with
  | String c r =>
      match c_rstrip r with
      | EmptyString => if is_c_space c then EmptyString else String c EmptyString
      | r' => String c r'
      end
  | EmptyString => EmptyString
  end.

(** The code points of value 0 of the decimal digits (Unicode 14.0, the
    tables of Python 3.11): each is followed by those of value 1 to 9. *)
Definition decimal_zeros : list N :=
  [48; 1632; 1776; 1984; 2406; 2534; 2662; 2790; 2918; 3046; 3174; 3302;
   3430; 3558; 3664; 3792; 3872; 4160; 4240; 6112; 6160; 6470; 6608; 6784;
   6800; 6992; 7088; 7232; 7248; 42528; 43216; 43264; 43472; 43504; 43600;
   44016; 65296; 66720; 68912; 69734; 69872; 69942; 70096; 70384; 70736;
   70864; 71248; 71360; 71472; 71904; 72016; 72784; 73040; 73120; 92768;
   92864; 93008; 120782; 120792; 120802; 120812; 120822; 123200; 123632;
   125264; 130032]%N.

(** [unicodedata.decimal(c)] *)
Definition decimal (n : N) : option N :=
  (fun zero => (n - zero)%N)
  <$> List.find (fun zero => (zero <=? n)%N && (n <? zero + 10)%N)
                decimal_zeros.

Definition to_ascii (c : string) : option ascii :=
  n ← ord c;
  if (n <? 128)%N then Some (ascii_of_N n)
  else if is_whitespace n then Some " "%char
  else d ← decimal n; Some (ascii_of_N (48 + d)).

Definition transform (s : string) : option string :=
  string_of_list_ascii <$> mapM to_ascii (chars s).

Definition split_sign (s : string) : bool * string :=
  match s with
  | String "-" r => (true, r)
  | String "+" r => (false, r)
  | _ => (false, s)
  end.

Definition is_digit (c : ascii) : bool :=
  (48 <=? nat_of_ascii c)%nat && (nat_of_ascii c <=? 57)%nat.

Fixpoint drop_underscores (after_digit : bool) (s : string) : option string :=
  match s with
  | EmptyString => if after_digit then Some EmptyString else None
  | String c r =>
      if is_digit c
      then String c <$> drop_underscores true r
      else if Ascii.eqb c "_" && after_digit
           then drop_underscores false r
           else None
  end.

Definition int (s : string) : option Z :=
  t ← transform s;
  let '(neg, body) := split_sign (c_rstrip (c_lstrip t)) in
  digits ← drop_underscores false body;
  d ← NilZero.uint_of_string digits;
  Some (if neg : bool then - Z.of_uint d else Z.of_uint d).

End Py.

(** ** Data *)

(** Exceptions the program can meet.  [FileNotFoundError] is an [OSError];
    [JSONDecodeError] is a [ValueError]; [RateLimitError] and [NotFoundError]
    are [openai.APIError]s; all of them are [Exception]s. *)
Inductive exn :=
  | FileNotFoundError | OSError
  | JSONDecodeError | ValueError | AttributeError
  | RateLimitError | NotFoundError | APIError
  | OtherException.

(** [isinstance(e, openai.APIError)] *)
Definition is_api_error (e : exn) : bool :=
  match e with
  | RateLimitError | NotFoundError | APIError => true
  | _ => false
  end.

(** What [json.load] finds in THREAD_DATA_FILE.  The values of the top-level
    object are thread identifiers, written as JSON strings. *)
Inductive json :=
  | JObject (members : list (string * string))
  | JOther.                        (* a list, a number, a string, null *)

Inductive file_content :=
  | NoFile                         (* [open] raises FileNotFoundError *)
  | Unreadable                     (* [open] or [read] raises another OSError *)
  | BadJson                        (* [json.load] raises JSONDecodeError *)
  | Json (doc : json).

Inductive write_result :=
  | WriteOk                        (* the file now holds the dumped document *)
  | OpenFails                      (* [open(.., 'w')] raises: file untouched *)
  | DumpFails.                     (* the write breaks off: file truncated *)

(** A run of the assistant, as the remote API reports it. *)
Record run := mkRun {
  run_id : string;
  status : string;
  last_error : option string       (* [run.last_error.code], when present *)
}.

Record content_block := mkBlock {
  block_type : string;
  text_value : string              (* [block.text.value], for type 'text' *)
}.

Record message := mkMessage {
  role : string;
  msg_run_id : option string;
  content : list content_block
}.

(** What a remote call does: return a value or raise. *)
Inductive reply (A : Type) :=
  | Returns (a : A)
  | Raises (e : exn).
Arguments Returns {A} a.
Arguments Raises {A} e.

(** The world outside the process.  The [n]-th request to the remote API
    (counting all end points together, from 0) is answered by the field of
    its end point at index [n] and takes [latency n] milliseconds; a sleep
    that starts when the trace holds [n] events lasts [oversleep n]
    milliseconds longer than asked for ([asyncio.sleep] returns no sooner
    than asked, and later when the event loop is busy: the calls of the
    OpenAI client are synchronous, and those of another handler hold the
    loop up); the
    [n]-th rewrite of the file ends as [disk_write n] says. *)
Record environment := mkEnv {
  threads_create : nat -> reply string;          (* thread.id *)
  messages_create : nat -> reply unit;
  runs_create : nat -> reply run;
  runs_retrieve : nat -> reply run;
  runs_cancel : nat -> reply unit;
  messages_list : nat -> reply (list message);   (* messages_response.data *)
  threads_delete : nat -> reply bool;            (* delete_status.deleted *)
  latency : nat -> N;
  oversleep : nat -> N;
  disk_write : nat -> write_result
}.

Inductive level := INFO | WARNING | ERROR.

(** Effects, in the order the process performs them. *)
Inductive event :=
  | EvLog (lvl : level) (text : string)
  | EvTyping
  | EvSend (text : string)
  | EvSleep (ms : Z)
  | EvWriteFile
  | EvThreadsCreate
  | EvMessagesCreate (thread_id content : string)
  | EvRunsCreate (thread_id assistant_id : string)
  | EvRunsRetrieve (thread_id run_id : string)
  | EvRunsCancel (thread_id run_id : string)
  | EvMessagesList (thread_id : string)
  | EvThreadsDelete (thread_id : string).

(** The process: the global [user_threads], the file, the wall clock in
    milliseconds, the two request counters and the effects so far. *)
Record state := mkState {
  user_threads : gmap Z string;
  disk : file_content;
  clock : Z;
  calls : nat;
  saves : nat;
  trace : list event
}.

Definition set_threads (m : gmap Z string) (s : state) : state :=
  mkState m (disk s) (clock s) (calls s) (saves s) (trace s).
Definition emit (e : event) (s : state) : state :=
  mkState (user_threads s) (disk s) (clock s) (calls s) (saves s)
          (trace s ++ [e])%list.
Definition advance (ms : Z) (s : state) : state :=
  mkState (user_threads s) (disk s) (clock s + ms) (calls s) (saves s)
          (trace s).

(** How one handler invocation ended, after the taxonomy of the replies it
    sends. *)
Inductive outcome :=
  | Ignored | Prompted | SessionCreationFailed
  | Replied | Timeout | RequiresAction | RunFailed | RunUnhandledStatus
  | EmptyReply
  | RateLimited | ApiFailure | Unexpected.

(** ** Control flow: values, exceptions, [return] *)

Inductive res (A : Type) :=
  | Val (a : A)                    (* the statement completed *)
  | Exc (e : exn)                  (* an exception is propagating *)
  | Done (o : outcome)             (* [return] from the handler *)
  | Hang.                          (* the loop fuel ran out *)
Arguments Val {A} a.
Arguments Exc {A} e.
Arguments Done {A} o.
Arguments Hang {A}.

Definition M (A : Type) : Type := state -> res A * state.

Definition ret {A} (a : A) : M A := fun s => (Val a, s).
Definition bind {A B} (m : M A) (k : A -> M B) : M B :=
  fun s =>
    match m s with
    | (Val a, s') => k a s'
    | (Exc e, s') => (Exc e, s')
    | (Done o, s') => (Done o, s')
    | (Hang, s') => (Hang, s')
    end.
Definition raise {A} (e : exn) : M A := fun s => (Exc e, s).
Definition done {A} (o : outcome) : M A := fun s => (Done o, s).
Definition hang {A} : M A := fun s => (Hang, s).

(** [try: body  except ...: handler e] where the clauses catch every
    [Exception]. *)
Definition try_except {A} (body : M A) (handler : exn -> M A) : M A :=
  fun s =>
    match body s with
    | (Exc e, s') => handler e s'
    | r => r
    end.

#[global] Instance M_ret : MRet M := @ret.
#[global] Instance M_bind : MBind M := fun A B k m => bind m k.

Definition get : M state := fun s => (Val s, s).
Definition modify (f : state -> state) : M unit := fun s => (Val tt, f s).
Definition log (lvl : level) (text : string) : M unit :=
  modify (emit (EvLog lvl text)).
(** [await message.channel.send(text)] *)
Definition send (text : string) : M unit := modify (emit (EvSend text)).
(** [await asyncio.sleep(ms / 1000)]: at least [ms] milliseconds pass. *)
Definition sleep (E : environment) (ms : Z) : M unit :=
  modify (fun s => advance (ms + Z.of_N (oversleep E (length (trace s))))
                     (emit (EvSleep ms) s)).
(** [time.time()], in milliseconds *)
Definition time : M Z := fun s => (Val (clock s), s).

(** ** The program *)

(** An inbound Discord message, as far as [on_message] looks at it. *)
Record inbound := mkInbound {
  from_self : bool;                (* message.author == discord_client.user *)
  author_id : Z;                   (* message.author.id *)
  author_mention : string;         (* message.author.mention *)
  in_guild : bool;                 (* message.guild is not None *)
  mentions_bot : bool;             (* discord_client.user.mentioned_in(message) *)
  mention_everyone : bool;         (* message.mention_everyone *)
  msg_content : string             (* message.content *)
}.

(** The two call sites of the assistant logic. *)
Inductive context := DM | Guild.

Definition newline : string := String (ascii_of_nat 10) EmptyString.

(** Truth value of [user_threads.get(user_id)]: [None] and [''] are false. *)
Definition truthy (v : option string) : bool :=
  match v with
  | Some (String _ _) => true
  | _ => false
  end.

Definition in_flight (st : string) : bool :=
  String.eqb st "queued" || String.eqb st "in_progress"
  || String.eqb st "cancelling".

(** The text blocks of one message, lines 165-167. *)
Definition text_blocks (msg : message) : list string :=
  text_value <$> List.filter (fun b => String.eqb (block_type b) "text")
                             (content msg).

Definition same_run (msg : message) (rid : string) : bool :=
  match msg_run_id msg with
  | Some r => String.eqb r rid
  | None => false
  end.

(** The [for msg in reversed(messages_response.data)] loop, lines 163-171:
    [msgs] is newest first, [assistant_responses] what was appended so far. *)
Fixpoint scan (rid : string) (msgs : list message)
    (assistant_responses : list string) : list string :=
  match msgs with
  | [] => assistant_responses
  | msg :: older =>
      let found :=
        if same_run msg rid && String.eqb (role msg) "assistant"
        then (assistant_responses ++ text_blocks msg)%list
        else assistant_responses in
      if String.eqb (role msg) "user" && negb (same_run msg rid)
      then found
      else scan rid older found
  end.

Definition collect (rid : string) (data : list message) : list string :=
  scan rid (rev data) [].

(** Line 176: ["\n".join(reversed(assistant_responses))] *)
Definition full_response_of (assistant_responses : list string) : string :=
  Py.join newline (rev assistant_responses).

(** Line 183: [[full_response[i:i+1990] for i in range(0, len(full_response), 1990)]] *)
Definition parts_of (size : nat) (full_response : string) : list string :=
  (fun i => Py.slice i size full_response)
  <$> Py.range_step (Py.len full_response) size.

Definition parts : string -> list string := parts_of 1990.

(** Line 46: [{str(k): v for k, v in user_threads.items()}] *)
Definition dump (m : gmap Z string) : json :=
  JObject ((fun kv => (Py.str kv.1, kv.2)) <$> map_to_list m).

(** Line 28: [{int(k): v for k, v in data_from_file.items()}] *)
Fixpoint int_keys (members : list (string * string)) (acc : gmap Z string)
    : exn + gmap Z string :=
  match members with
  | [] => inr acc
  | (k, v) :: rest =>
      match Py.int k with
      | Some z => int_keys rest (<[z := v]> acc)
      | None => inl ValueError
      end
  end.

(** Lines 25-28: [open], [json.load], [.items()], the comprehension. *)
Definition read_threads (f : file_content) : exn + gmap Z string :=
  match f with
  | NoFile => inl FileNotFoundError
  | Unreadable => inl OSError
  | BadJson => inl JSONDecodeError
  | Json JOther => inl AttributeError
  | Json (JObject members) => int_keys members ∅
  end.

(** [load_threads()], lines 21-38. *)
Definition load_threads : M unit :=
  try_except
    (s ← get;
     match read_threads (disk s) with
     | inr m =>
         modify (set_threads m);;
         log INFO "Loaded {len(user_threads)} user threads from {THREAD_DATA_FILE}"
     | inl e => raise e
     end)
    (fun e =>
       match e with
       | FileNotFoundError =>
           log WARNING "{THREAD_DATA_FILE} not found. Starting with empty threads.";;
           modify (set_threads ∅)
       | JSONDecodeError =>
           log ERROR "Error decoding JSON from {THREAD_DATA_FILE}. Starting with empty threads.";;
           modify (set_threads ∅)
       | _ =>
           log ERROR "An unexpected error occurred loading threads: {e}";;
           modify (set_threads ∅)
       end).

Section Bot.

Variable E : environment.
Variable ASSISTANT_ID : string.
Variable bot_id : Z.               (* discord_client.user.id *)

(** One request to the remote API: it is recorded, takes its time, and
    returns or raises as the environment says. *)
Definition charge (ev : event) (s : state) : state :=
  mkState (user_threads s) (disk s)
    (clock s + Z.of_N (latency E (calls s))) (S (calls s)) (saves s)
    (trace s ++ [ev])%list.

Definition request {A} (ev : event) (answer : nat -> reply A) : M A :=
  fun s =>
    match answer (calls s) with
    | Returns a => (Val a, charge ev s)
    | Raises e => (Exc e, charge ev s)
    end.

(** Lines 44-47: [open(.., 'w')] then [json.dump]. *)
Definition write_file (doc : json) : M unit :=
  fun s =>
    let s' d := mkState (user_threads s) d (clock s) (calls s) (S (saves s))
                  (trace s ++ [EvWriteFile])%list in
    match disk_write E (saves s) with
    | WriteOk => (Val tt, s' (Json doc))
    | OpenFails => (Exc OSError, s' (disk s))
    | DumpFails => (Exc OSError, s' BadJson)
    end.

(** [save_threads()], lines 40-50. *)
Definition save_threads : M unit :=
  try_except
    (s ← get; write_file (dump (user_threads s)))
    (fun _ => log ERROR "Error saving threads to {THREAD_DATA_FILE}: {e}").

(** What a reply in a server channel starts with, nothing in a DM. *)
Definition prefix (ctx : context) (m : inbound) : string :=
  match ctx with
  | DM => ""
  | Guild => author_mention m +:+ " "
  end.

(** Step 1, lines 102-116 and 293-307: get or create the user's thread. *)
Definition resolve (ctx : context) (m : inbound) : M string :=
  let user_id := author_id m in
  s ← get;
  let thread_id := user_threads s !! user_id in
  if truthy thread_id then ret (default "" thread_id)
  else
    log INFO (match ctx with
              | DM => "Creating new thread for user {user_id} (triggered by DM)"
              | Guild => "Creating new thread for user {user_id} (triggered by server mention)"
              end);;
    try_except
      (thread_id ← request EvThreadsCreate (threads_create E);
       modify (fun s => set_threads (<[user_id := thread_id]> (user_threads s)) s);;
       save_threads;;
       log INFO "Thread created with ID: {thread_id} and saved.";;
       ret thread_id)
      (fun _ =>
         log ERROR (match ctx with
                    | DM => "Failed to create OpenAI thread for DM user {user_id}: {api_error}"
                    | Guild => "Failed to create OpenAI thread for user {user_id} (server mention): {api_error}"
                    end);;
         send (prefix ctx m +:+ "Sorry, I couldn't initiate our conversation context. Please try again later.");;
         done SessionCreationFailed).

(** Lines 144-152 and 335-342: the deadline has passed. *)
Definition timed_out (ctx : context) (m : inbound) (thread_id : string)
    (r : run) : M run :=
  log WARNING (match ctx with
               | DM => "Run {run.id} timed out waiting for completion."
               | Guild => "Run {run.id} timed out waiting for completion (server mention)."
               end);;
  try_except
    (request (EvRunsCancel thread_id (run_id r)) (runs_cancel E);;
     log INFO "Attempted to cancel timed-out run {run.id}")
    (fun _ => log ERROR "Failed to cancel timed-out run {run.id}: {cancel_err}");;
  send (prefix ctx m +:+ "Sorry, the request took too long to process. Please try again.");;
  done Timeout.

(** Step 4, lines 139-152 and 330-342: the polling loop.  [fuel] bounds the
    number of iterations of the [while]; the loop itself has no such bound. *)
Fixpoint poll (fuel : nat) (ctx : context) (m : inbound) (thread_id : string)
    (start_time : Z) (r : run) : M run :=
  if in_flight (status r) then
    match fuel with
    | O => hang
    | S fuel' =>
        sleep E 1500;;
        r ← request (EvRunsRetrieve thread_id (run_id r)) (runs_retrieve E);
        now ← time;
        if (120000 <? now - start_time)%Z
        then timed_out ctx m thread_id r
        else poll fuel' ctx m thread_id start_time r
    end
  else ret r.

(** Lines 184-186 and 374-376. *)
Fixpoint send_parts (ps : list string) : M unit :=
  match ps with
  | [] => ret tt
  | part :: rest => send part;; sleep E 500;; send_parts rest
  end.

(** Lines 180-186 (DM) and 367-376 (server channel). *)
Definition send_response (ctx : context) (m : inbound)
    (full_response : string) : M unit :=
  match ctx with
  | DM =>
      if (Py.len full_response <=? 2000)%nat
      then send full_response
      else send_parts (parts full_response)
  | Guild =>
      let response_prefix := author_mention m +:+ " " in
      if (Py.len (response_prefix +:+ full_response) <=? 2000)%nat
      then send (response_prefix +:+ full_response)
      else send response_prefix;; send_parts (parts full_response)
  end.

Definition reset_text : string :=
  "I seemed to have trouble retrieving the last response, so I've reset our conversation context. Please try sending your message again!".

(** Lines 191-223 and 381-412: no response text found, reset the thread. *)
Definition reset_thread (ctx : context) (m : inbound) : M unit :=
  let user_id := author_id m in
  log WARNING (match ctx with
               | DM => "No response text found from assistant for run {run.id}. Resetting thread for user {user_id} in DM."
               | Guild => "No response text found from assistant for run {run.id}. Resetting thread for user {user_id} in server channel {channel_id}."
               end);;
  s ← get;
  let problematic_thread_id := user_threads s !! user_id in
  match user_threads s !! user_id with
  | Some _ =>
      modify (fun s => set_threads (delete user_id (user_threads s)) s);;
      save_threads;;
      log INFO "Removed thread mapping for user {user_id} from persistence."
  | None =>
      log WARNING "Attempted to reset thread for user {user_id}, but they weren't in the user_threads dict."
  end;;
  (if truthy problematic_thread_id then
     let tid := default "" problematic_thread_id in
     log INFO "Attempting to delete problematic OpenAI thread: {problematic_thread_id}";;
     try_except
       (deleted ← request (EvThreadsDelete tid) (threads_delete E);
        if deleted : bool
        then log INFO "Successfully deleted OpenAI thread {problematic_thread_id}."
        else log WARNING "OpenAI API attempt to delete thread {problematic_thread_id} completed (Status: {delete_status}). Deletion might still occur.")
       (fun e =>
          match e with
          | NotFoundError =>
              log WARNING "OpenAI thread {problematic_thread_id} was already deleted or not found."
          | _ =>
              log ERROR "Failed to delete OpenAI thread {problematic_thread_id}: {delete_error}"
          end)
   else
     log WARNING "Could not attempt OpenAI thread deletion because thread ID was missing for user {user_id} during reset.");;
  send (match ctx with
        | DM => reset_text
        | Guild => Py.strip (author_mention m +:+ " " +:+ reset_text)
        end).

(** Step 5, lines 155-239 and 345-427: what is done with the run the
    polling loop ended on. *)
Definition deliver (ctx : context) (m : inbound) (thread_id : string)
    (r : run) : M outcome :=
  if String.eqb (status r) "completed" then
    data ← request (EvMessagesList thread_id) (messages_list E);
    let assistant_responses := collect (run_id r) data in
    match assistant_responses with
    | _ :: _ =>
        let full_response := full_response_of assistant_responses in
        log INFO (match ctx with
                  | DM => "Sending Assistant Response to DM user {user_id}"
                  | Guild => "Sending Assistant Response to {message.author.name} in channel {message.channel.name}"
                  end);;
        send_response ctx m full_response;;
        ret Replied
    | [] => reset_thread ctx m;; ret EmptyReply
    end
  else if String.eqb (status r) "requires_action" then
    log WARNING "Run {run.id} requires action (not supported): {run.required_action}";;
    send (prefix ctx m +:+ "Sorry, I need to perform an action I can't do right now.");;
    ret RequiresAction
  else if String.eqb (status r) "failed" then
    log ERROR "Run {run.id} failed. Last Error: {run.last_error}";;
    send (prefix ctx m +:+ "Sorry, something went wrong while processing."
          +:+ match last_error r with
              | Some code => " (Error code: " +:+ code +:+ ")"
              | None => ""
              end);;
    ret RunFailed
  else
    log ERROR "Run {run.id} ended with unhandled status: {run.status}";;
    send (prefix ctx m +:+ "Sorry, the processing ended unexpectedly. (Status: "
          +:+ status r +:+ ")");;
    ret RunUnhandledStatus.

(** Steps 2 to 4, lines 119-152 and 310-342: post the text, start a run,
    poll it. *)
Definition start_run (fuel : nat) (ctx : context) (m : inbound)
    (thread_id text : string) : M run :=
  request (EvMessagesCreate thread_id text) (messages_create E);;
  r ← request (EvRunsCreate thread_id ASSISTANT_ID) (runs_create E);
  start_time ← time;
  poll fuel ctx m thread_id start_time r.

(** Steps 2 to 5, lines 119-239 and 310-427: one run cycle on a thread. *)
Definition execute (fuel : nat) (ctx : context) (m : inbound)
    (thread_id text : string) : M outcome :=
  r ← start_run fuel ctx m thread_id text;
  deliver ctx m thread_id r.

(** The [except] clauses of lines 241-249 and 429-437. *)
Definition report_error (ctx : context) (m : inbound) (e : exn) : M outcome :=
  match e with
  | RateLimitError =>
      log WARNING (match ctx with
                   | DM => "OpenAI Rate Limit hit for user {user_id} in DM."
                   | Guild => "OpenAI Rate Limit hit for user {user_id} in server {guild_id}."
                   end);;
      send (prefix ctx m +:+ "I'm experiencing high demand right now. Please wait a moment and try again.");;
      ret RateLimited
  | _ =>
      if is_api_error e then
        log ERROR (match ctx with
                   | DM => "OpenAI API Error processing DM for {user_id}: {api_err}"
                   | Guild => "OpenAI API Error processing server mention for {user_id} in {guild_id}: {api_err}"
                   end);;
        send (prefix ctx m +:+ "There was an issue communicating with the AI service. Please try again later.");;
        ret ApiFailure
      else
        log ERROR (match ctx with
                   | DM => "Unexpected error processing DM from {user_id}: {e}"
                   | Guild => "Unexpected error processing server mention from {user_id} in {guild_id}: {e}"
                   end);;
        send (prefix ctx m +:+
              match ctx with
              | DM => "Sorry, I encountered an unexpected error trying to process your DM."
              | Guild => "Sorry, I encountered an unexpected error trying to process that."
              end);;
        ret Unexpected
  end.

(** The [async with message.channel.typing(): try: ...] block, lines 97-249
    and 290-437. *)
Definition assist (fuel : nat) (ctx : context) (m : inbound) (text : string)
    : M outcome :=
  modify (emit EvTyping);;
  try_except
    (thread_id ← resolve ctx m;
     execute fuel ctx m thread_id text)
    (report_error ctx m).

(** Lines 270-274: the text of a server message without the bot's mention. *)
Definition actual_content_of (m : inbound) : string :=
  Py.strip
    (Py.remove_all ("<@" +:+ Py.str bot_id +:+ ">")
       (Py.remove_all ("<@!" +:+ Py.str bot_id +:+ ">") (msg_content m))).

(** The body of [on_message], lines 84-439. *)
Definition handler (fuel : nat) (m : inbound) : M outcome :=
  if from_self m then done Ignored
  else if negb (in_guild m) then
    log INFO "Received DM from {message.author} ({user_id}): {message.content[:50]}...";;
    assist fuel DM m (msg_content m)
  else if mentions_bot m then
    if mention_everyone m then done Ignored
    else
      log INFO "Received mention in Server '{message.guild.name}', Channel '{message.channel.name}' from {message.author}";;
      let actual_content := actual_content_of m in
      if String.eqb actual_content "" then
        send ("Hi " +:+ author_mention m +:+ ", did you need something?");;
        done Prompted
      else assist fuel Guild m actual_content
  else ret Ignored.

(** [on_message(message)]: a [return] anywhere in the body ends the call. *)
Definition on_message (fuel : nat) (m : inbound) : M outcome :=
  fun s =>
    match handler fuel m s with
    | (Done o, s') => (Val o, s')
    | r => r
    end.

End Bot.

(** * Vocabulary of the properties *)

(** Strings without the white space of C, strings of decimal digits,
    strings of ASCII characters. *)
Fixpoint no_space (s : string) : bool :=
  match s with
  | EmptyString => true
  | String c r => negb (Py.is_c_space c) && no_space r
  end.

Fixpoint ascii_only (s : string) : bool :=
  match s with
  | EmptyString => true
  | String c r => (N_of_ascii c <? 128)%N && ascii_only r
  end.

(** A character: one byte and the continuation bytes that follow it.  A
    list of characters: from the second on they start with a byte that is
    no continuation byte. *)
Fixpoint all_continuation (s : string) : bool :=
  match s with
  | EmptyString => true
  | String b r => Py.is_continuation b && all_continuation r
  end.

Definition character (c : string) : Prop :=
  match c with
  | String _ r => all_continuation r = true
  | EmptyString => False
  end.

Definition characters (cs : list string) : Prop :=
  Forall character cs /\ Forall (fun c => Py.continues c = false) (tail cs).

Fixpoint digits_only (s : string) : bool :=
  match s with
  | EmptyString => true
  | String c r => Py.is_digit c && digits_only r
  end.

(** The texts handed to [message.channel.send], in order. *)
Definition sent (t : list event) : list string :=
  omap (fun e => match e with EvSend text => Some text | _ => None end) t.

(** [s'] holds the same Session Store as [s], in memory and on disk. *)
Definition same_store (s s' : state) : Prop :=
  user_threads s' = user_threads s /\ disk s' = disk s /\ saves s' = saves s.

(** How many events of a kind a trace holds. *)
Definition count (p : event -> bool) (t : list event) : nat :=
  length (List.filter p t).

(** The requests the properties count. *)
Definition is_create (e : event) : bool :=
  match e with EvThreadsCreate => true | _ => false end.
Definition is_delete (e : event) : bool :=
  match e with EvThreadsDelete _ => true | _ => false end.
Definition is_retrieve (e : event) : bool :=
  match e with EvRunsRetrieve _ _ => true | _ => false end.
Definition is_cancel (e : event) : bool :=
  match e with EvRunsCancel _ _ => true | _ => false end.

(** Iterations the loop can still make when [e] milliseconds have passed
    since [start_time]: each one takes at least 1500 ms. *)
Definition needed (e : Z) : nat := S (Z.to_nat ((120000 - e) / 1500)).

(** The message and the warning of lines 144 and 151 (335 and 341). *)
Definition took_too_long (ctx : context) (m : inbound) : string :=
  prefix ctx m +:+ "Sorry, the request took too long to process. Please try again.".

Definition timed_out_warning (ctx : context) : event :=
  EvLog WARNING (match ctx with
                 | DM => "Run {run.id} timed out waiting for completion."
                 | Guild => "Run {run.id} timed out waiting for completion (server mention)."
                 end).

(** What is logged after the cancel request: its failure is only logged. *)
Definition cancel_log (answer : reply unit) : event :=
  match answer with
  | Returns _ => EvLog INFO "Attempted to cancel timed-out run {run.id}"
  | Raises _ => EvLog ERROR "Failed to cancel timed-out run {run.id}: {cancel_err}"
  end.

(** The state after one [sleep] and one status request. *)
Definition polled (E : environment) (thread_id : string) (r : run)
    (s : state) : state :=
  charge E (EvRunsRetrieve thread_id (run_id r))
    (advance (1500 + Z.of_N (oversleep E (length (trace s))))
       (emit (EvSleep 1500) s)).

(** What the loop guarantees, from any point of its execution. *)
Definition poll_post (E : environment) (ctx : context) (m : inbound)
    (thread_id : string) (start_time : Z) (s : state) (res : res run)
    (s' : state) : Prop :=
  same_store s s' /\
  (count is_retrieve (trace s')
   <= count is_retrieve (trace s) + needed (clock s - start_time))%nat /\
  match res with
  | Val r' =>
      in_flight (status r') = false /\
      count is_cancel (trace s') = count is_cancel (trace s) /\
      clock s' - start_time <= 120000
  | Exc _ =>
      count is_cancel (trace s') = count is_cancel (trace s) /\
      exists t fetched,
        trace s' = (t ++ [EvSleep 1500;
                          EvRunsRetrieve thread_id fetched])%list /\
        clock s' - start_time
        <= 120000 + 1500 + Z.of_N (oversleep E (length t))
           + Z.of_N (latency E (Nat.pred (calls s')))
  | Done o =>
      o = Timeout /\
      count is_cancel (trace s') = S (count is_cancel (trace s)) /\
      exists t fetched cancelled,
        trace s' = (t ++ [EvSleep 1500;
                          EvRunsRetrieve thread_id fetched;
                          timed_out_warning ctx;
                          EvRunsCancel thread_id cancelled;
                          cancel_log (runs_cancel E (Nat.pred (calls s')));
                          EvSend (took_too_long ctx m)])%list /\
        120000 < clock s' - Z.of_N (latency E (Nat.pred (calls s')))
                 - start_time /\
        clock s' - Z.of_N (latency E (Nat.pred (calls s'))) - start_time
        <= 120000 + 1500 + Z.of_N (oversleep E (length t))
           + Z.of_N (latency E (Nat.pred (Nat.pred (calls s'))))
  | Hang => False
  end.

(** The outcome a computation ended with, by falling off its end or by
    [return]. *)
Definition ended (r : res outcome) : option outcome :=
  match r with
  | Val o | Done o => Some o
  | _ => None
  end.

(** The reset message, as each call site sends it. *)
Definition reset_message (ctx : context) (m : inbound) : string :=
  match ctx with
  | DM => reset_text
  | Guild => Py.strip (author_mention m +:+ " " +:+ reset_text)
  end.

(** What is logged after the delete request: no answer to it is fatal. *)
Definition delete_log (answer : reply bool) : event :=
  match answer with
  | Returns true =>
      EvLog INFO "Successfully deleted OpenAI thread {problematic_thread_id}."
  | Returns false =>
      EvLog WARNING "OpenAI API attempt to delete thread {problematic_thread_id} completed (Status: {delete_status}). Deletion might still occur."
  | Raises NotFoundError =>
      EvLog WARNING "OpenAI thread {problematic_thread_id} was already deleted or not found."
  | Raises _ =>
      EvLog ERROR "Failed to delete OpenAI thread {problematic_thread_id}: {delete_error}"
  end.

(** What resetting does before it asks the remote side to delete the
    thread: it logs, rewrites the file, logs the outcome. *)
Definition reset_prelude (ctx : context) (w : write_result) : list event :=
  [EvLog WARNING
     (match ctx with
      | DM => "No response text found from assistant for run {run.id}. Resetting thread for user {user_id} in DM."
      | Guild => "No response text found from assistant for run {run.id}. Resetting thread for user {user_id} in server channel {channel_id}."
      end);
   EvWriteFile]
  ++ match w with
     | WriteOk => []
     | _ => [EvLog ERROR "Error saving threads to {THREAD_DATA_FILE}: {e}"]
     end
  ++ [EvLog INFO "Removed thread mapping for user {user_id} from persistence.";
      EvLog INFO "Attempting to delete problematic OpenAI thread: {problematic_thread_id}"].

(** The two tests of the scan, lines 164 and 170. *)
Definition matching (rid : string) (msg : message) : bool :=
  same_run msg rid && String.eqb (role msg) "assistant".

Definition boundary (rid : string) (msg : message) : bool :=
  String.eqb (role msg) "user" && negb (same_run msg rid).

(** The messages the scan looks at: from the newest one down to the first
    user message that is not of this run. *)
Fixpoint scanned (rid : string) (msgs : list message) : list message :=
  match msgs with
  | [] => []
  | msg :: older =>
      if boundary rid msg then [msg] else msg :: scanned rid older
  end.

(** The reply as the specification words it: the text segments of the
    assistant messages of this run among the scanned ones, in chronological
    order, joined by newlines. *)
Definition chronological_reply (rid : string) (data : list message) : string :=
  Py.join newline
    (flat_map text_blocks
       (rev (List.filter (matching rid) (scanned rid (rev data))))).

(** The log record of line 266. *)
Definition received_mention : event :=
  EvLog INFO "Received mention in Server '{message.guild.name}', Channel '{message.channel.name}' from {message.author}".

(** The computation came to an end within its fuel. *)
Definition finished {A} (r : res A) : Prop :=
  match r with
  | Hang => False
  | _ => True
  end.

(** * Scenarios *)

(** Every request succeeds at once, the run completes at the first poll, the
    thread holds no message, and the disk takes every write. *)
Definition healthy : environment :=
  mkEnv (fun _ => Returns "thread_new") (fun _ => Returns tt)
        (fun _ => Returns (mkRun "run_1" "queued" None))
        (fun _ => Returns (mkRun "run_1" "completed" None))
        (fun _ => Returns tt) (fun _ => Returns [])
        (fun _ => Returns true) (fun _ => 0%N) (fun _ => 0%N)
        (fun _ => WriteOk).

(** A process that knows two users and has no file yet. *)
Definition two_users : state :=
  mkState (<[ 1085 := "thread_a" ]> (<[ 42 := "thread_b" ]> ∅))
          NoFile 0 0 0 [].

(** A text of [n] characters. *)
Fixpoint text_of_length (n : nat) : string :=
  match n with
  | O => EmptyString
  | S k => String "a" (text_of_length k)
  end.

(** [n] times the letter e with an acute accent, U+00E9, two bytes each;
    a no-break space, U+00A0; the control character U+001C. *)
Fixpoint accented (n : nat) : string :=
  match n with
  | O => EmptyString
  | S k => "é" +:+ accented k
  end.

Definition no_break_space : string :=
  String (ascii_of_nat 194) (String (ascii_of_nat 160) EmptyString).

Definition file_separator : string := String (ascii_of_nat 28) EmptyString.

(** A process that has just started, without any thread or file. *)
Definition idle : state := mkState ∅ NoFile 0 0 0 [].

(** A direct message, and further down a mention in a server channel. *)
Definition dm_from (user : Z) (text : string) : inbound :=
  mkInbound false user ("<@" +:+ Py.str user +:+ ">") false false false text.

(** The remote API answers every create request with the empty string. *)
Definition issues_empty : environment :=
  mkEnv (fun _ => Returns "") (fun _ => Returns tt)
        (fun _ => Returns (mkRun "run_1" "queued" None))
        (fun _ => Returns (mkRun "run_1" "completed" None))
        (fun _ => Returns tt) (fun _ => Returns [])
        (fun _ => Returns true) (fun _ => 0%N) (fun _ => 0%N)
        (fun _ => WriteOk).

(** The entry of user 7 holds the empty string. *)
Definition holds_empty_entry : state :=
  mkState (<[ 7 := "" ]> ∅) NoFile 0 0 0 [].

(** The run stays queued for ever and every remote call takes 100 ms. *)
Definition slow : environment :=
  mkEnv (fun _ => Returns "thread_1") (fun _ => Returns tt)
        (fun _ => Returns (mkRun "run_1" "queued" None))
        (fun _ => Returns (mkRun "run_1" "queued" None))
        (fun _ => Returns tt) (fun _ => Returns [])
        (fun _ => Returns true) (fun _ => 100%N) (fun _ => 0%N)
        (fun _ => WriteOk).


(** The run completes at the first poll, the thread holds only the user's
    own message, and the thread is already gone when its deletion is asked
    for. *)
Definition silent : environment :=
  mkEnv (fun _ => Returns "thread_1") (fun _ => Returns tt)
        (fun _ => Returns (mkRun "run_1" "queued" None))
        (fun _ => Returns (mkRun "run_1" "completed" None))
        (fun _ => Returns tt)
        (fun _ => Returns [mkMessage "user" None [mkBlock "text" "hi"]])
        (fun _ => Raises NotFoundError) (fun _ => 0%N) (fun _ => 0%N)
        (fun _ => WriteOk).

(** The states of that cycle after step 1 and after step 4. *)
Definition silent_resolved : state :=
  (resolve silent DM (dm_from 7 "hi") idle).2.
Definition silent_polled : state :=
  (start_run silent "asst_1" 81 DM (dm_from 7 "hi") "thread_1" "hi"
     silent_resolved).2.

(** User 7 has the thread "thread_1", in memory and on disk. *)
Definition has_thread : state :=
  mkState (<[ 7 := "thread_1" ]> ∅)
          (Json (JObject [("7", "thread_1")])) 0 0 0 [].

(** The run completes at the first poll and the assistant has answered
    "hello". *)
Definition answers_hello : environment :=
  mkEnv (fun _ => Returns "thread_1") (fun _ => Returns tt)
        (fun _ => Returns (mkRun "run_1" "queued" None))
        (fun _ => Returns (mkRun "run_1" "completed" None))
        (fun _ => Returns tt)
        (fun _ => Returns
           [mkMessage "user" None [mkBlock "text" "earlier question"];
            mkMessage "assistant" (Some "run_0") [mkBlock "text" "earlier answer"];
            mkMessage "user" None [mkBlock "text" "hi"];
            mkMessage "assistant" (Some "run_1") [mkBlock "text" "hello"]])
        (fun _ => Returns true) (fun _ => 0%N) (fun _ => 0%N)
        (fun _ => WriteOk).

(** The assistant has answered in one message of two text segments. *)
Definition answers_in_two_blocks : environment :=
  mkEnv (fun _ => Returns "thread_1") (fun _ => Returns tt)
        (fun _ => Returns (mkRun "run_1" "queued" None))
        (fun _ => Returns (mkRun "run_1" "completed" None))
        (fun _ => Returns tt)
        (fun _ => Returns
           [mkMessage "user" None [mkBlock "text" "hi"];
            mkMessage "assistant" (Some "run_1")
              [mkBlock "text" "first"; mkBlock "text" "second"]])
        (fun _ => Returns true) (fun _ => 0%N) (fun _ => 0%N)
        (fun _ => WriteOk).

Definition mention_from (user : Z) (text : string) : inbound :=
  mkInbound false user ("<@" +:+ Py.str user +:+ ">") true true false text.

(** ** Vocabulary of the further properties *)

(** Every entry but the one of user [U] is the same in [s'] as in [s]. *)
Definition others_kept (U : Z) (s s' : state) : Prop :=
  forall u, u <> U -> user_threads s' !! u = user_threads s !! u.

(** The dictionary [load_threads] builds from a file. *)
Definition recovered (f : file_content) : gmap Z string :=
  match read_threads f with
  | inr m => m
  | inl _ => ∅
  end.

(** A restart would find in the file what memory holds now. *)
Definition in_sync (s : state) : Prop := recovered (disk s) = user_threads s.

(** [s'] has sent at least as many messages as [s]; at least one more. *)
Definition grows (s s' : state) : Prop :=
  (length (sent (trace s)) <= length (sent (trace s')))%nat.
Definition answered (s s' : state) : Prop :=
  (length (sent (trace s)) < length (sent (trace s')))%nat.

(** The messages of the handler that are left without any answer, lines 86,
    256 and 258. *)
Definition ignorable (m : inbound) : bool :=
  from_self m
  || (in_guild m && (negb (mentions_bot m) || mention_everyone m)).

(** The event loop hands the inbound messages to [on_message] one after the
    other; [serve] is the state they leave behind. *)
Definition serve (E : environment) (ASSISTANT_ID : string) (bot_id : Z)
    (fuel : nat) (inbox : list inbound) (s : state) : state :=
  foldl (fun s m => (on_message E ASSISTANT_ID bot_id fuel m s).2) s inbox.

(** The remote API refuses every request with a rate-limit error. *)
Definition unreachable : environment :=
  mkEnv (fun _ => Raises RateLimitError) (fun _ => Raises RateLimitError)
        (fun _ => Raises RateLimitError) (fun _ => Raises RateLimitError)
        (fun _ => Raises RateLimitError) (fun _ => Raises RateLimitError)
        (fun _ => Raises RateLimitError) (fun _ => 0%N) (fun _ => 0%N)
        (fun _ => WriteOk).

(** The call site a message is handled at, the text it hands to the
    assistant, and the log record it starts with (lines 95 and 266). *)
Definition context_of (m : inbound) : context :=
  if in_guild m then Guild else DM.

Definition text_of (bot_id : Z) (m : inbound) : string :=
  if in_guild m then actual_content_of bot_id m else msg_content m.

Definition received (m : inbound) : event :=
  if in_guild m then received_mention
  else EvLog INFO "Received DM from {message.author} ({user_id}): {message.content[:50]}...".

(** The messages that reach the assistant logic: not ignored, and with some
    text left when they come from a server channel. *)
Definition processed (bot_id : Z) (m : inbound) : bool :=
  negb (ignorable m)
  && negb (in_guild m && String.eqb (actual_content_of bot_id m) "").

(** The apology of lines 113 and 304. *)
Definition no_session (ctx : context) (m : inbound) : string :=
  prefix ctx m +:+ "Sorry, I couldn't initiate our conversation context. Please try again later.".

(** The run is in progress at the first [n] requests and completed from
    then on; every request takes 100 ms and every sleep lasts 20 ms longer
    than asked for. *)
Definition completes_at (n : nat) : environment :=
  mkEnv (fun _ => Returns "thread_1") (fun _ => Returns tt)
        (fun _ => Returns (mkRun "run_1" "queued" None))
        (fun i => Returns (mkRun "run_1"
                    (if (i <? n)%nat then "in_progress" else "completed")
                    None))
        (fun _ => Returns tt) (fun _ => Returns [])
        (fun _ => Returns true) (fun _ => 100%N) (fun _ => 20%N)
        (fun _ => WriteOk).

(** The loop has been waiting for 119 seconds. *)
Definition waiting_long : state :=
  mkState (<[ 7 := "thread_1" ]> ∅) NoFile 119000 0 0 [].

(** Strings without the character [<]. *)
Fixpoint no_angle (s : string) : bool :=
  match s with
  | EmptyString => true
  | String c r => negb (Ascii.eqb c "<") && no_angle r
  end.

(** The two ways a mention of the user [id] is written in the content of a
    message, the second one for a user with a nickname (line 270). *)
Definition mention (nick : bool) (id : Z) : string :=
  (if nick then "<@!" else "<@") +:+ Py.str id +:+ ">".

(** ** Starting the process *)

(** [on_ready()], lines 77-81. *)
Definition on_ready : M unit :=
  log INFO "Logged in as {discord_client.user.name} ({discord_client.user.id})";;
  log INFO "Assistant bot ready for DMs and Server Mentions.";;
  log INFO "------".

Module Main.

(** The three variables read by [os.getenv], lines 13-15: [None] when the
    variable is not set. *)
Record config := mkConfig {
  DISCORD_BOT_TOKEN : option string;
  OPENAI_API_KEY : option string;
  ASSISTANT_ID : option string
}.

(** The exceptions the start of the process tells apart; all of them are
    [Exception]s. *)
Inductive error :=
  | AttributeError | AuthenticationError | NotFoundError
  | LoginFailure | PrivilegedIntentsRequired | OtherException.

(** What the Discord client hands to the two handlers while it runs. *)
Inductive incoming :=
  | Ready
  | Message (m : inbound).

(** The services met at the start: building the OpenAI client, fetching the
    assistant, and [discord_client.run], which dispatches the incoming
    events and then returns or raises. *)
Record services := mkServices {
  openai_client : option error;          (* [openai.OpenAI(api_key=..)] raises *)
  assistants_retrieve : option error;    (* [client.beta.assistants.retrieve] raises *)
  bot_user : Z;                          (* discord_client.user.id *)
  incoming_events : list incoming;
  client_run : option error              (* [discord_client.run] raises *)
}.

(** Records of [logger.critical], [logger.info] and [logger.exception]. *)
Inductive record :=
  | Critical (text : string)
  | Info (text : string)
  | Traceback (text : string).

(** How the script ends: [exit()], an exception nothing catches, or its
    last line. *)
Inductive ending :=
  | SystemExit
  | Uncaught (e : error)
  | EndOfScript.

Definition key_message : string :=
  "OpenAI API key appears invalid or not configured. Please check the OPENAI_API_KEY variable.".
Definition token_message : string :=
  "Discord Bot Token appears invalid or not configured. Please check the DISCORD_BOT_TOKEN variable.".
Definition assistant_message : string :=
  "OpenAI Assistant ID appears invalid (must start with 'asst_'). Please check the ASSISTANT_ID variable.".
Definition starting_message : string := "Starting Discord client...".

(** One event: the handler registered for it runs to its end. *)
Definition dispatch (E : environment) (assistant : string) (bot_id : Z)
    (fuel : nat) (ev : incoming) (s : state) : state :=
  match ev with
  | Ready => (on_ready s).2
  | Message m => (on_message E assistant bot_id fuel m s).2
  end.

(** The events of [discord_client.run(..)], one handler at a time. *)
Definition run (E : environment) (assistant : string) (bot_id : Z)
    (fuel : nat) (events : list incoming) (s : state) : state :=
  foldl (fun s ev => dispatch E assistant bot_id fuel ev s) s events.

(** The script from line 19 on: lines 57-66 and 442-477. *)
Definition main (E : environment) (fuel : nat) (c : config) (w : services)
    (s0 : state) : ending * list record * state :=
  let s := set_threads ∅ s0 in                                   (* line 19 *)
  match OPENAI_API_KEY c with
  | None => (Uncaught AttributeError, [], s)                      (* line 59 *)
  | Some key =>
  if negb (String.prefix "sk-proj-" key) || String.eqb key "" then
    (SystemExit, [Critical key_message], s)
  else
  match openai_client w with
  | Some _ =>
      (SystemExit, [Critical "Failed to initialize OpenAI client: {e}"], s)
  | None =>
  match DISCORD_BOT_TOKEN c with
  | None => (Uncaught AttributeError, [], s)                      (* line 444 *)
  | Some token =>
  if negb (String.prefix "M" token) || String.eqb token ""
     || (Py.len token <? 50)%nat then
    (SystemExit, [Critical token_message], s)
  else
  match ASSISTANT_ID c with
  | None => (Uncaught AttributeError, [], s)                      (* line 447 *)
  | Some assistant =>
  if negb (String.prefix "asst_" assistant) then
    (SystemExit, [Critical assistant_message], s)
  else
  match assistants_retrieve w with
  | Some AuthenticationError =>
      (SystemExit,
       [Critical "ERROR: OpenAI Authentication Error. Is the API key ({OPENAI_API_KEY[:6]}...) correct and valid?"],
       s)
  | Some NotFoundError =>
      (SystemExit,
       [Critical "ERROR: Could not find Assistant {ASSISTANT_ID}. Is the ID correct?"],
       s)
  | Some _ =>
      (SystemExit,
       [Critical "ERROR: Could not retrieve Assistant {ASSISTANT_ID}. Unexpected error: {e}"],
       s)
  | None =>
      let retrieved := Info "Successfully retrieved Assistant {ASSISTANT_ID}" in
      match load_threads s with
      | (Val _, s1) =>
          let s2 := run E assistant (bot_user w) fuel (incoming_events w) s1 in
          let records := [retrieved; Info starting_message] in
          match client_run w with
          | None => (EndOfScript, records, s2)
          | Some LoginFailure =>
              (EndOfScript,
               (records ++ [Critical "ERROR: Invalid Discord Token. Please check your DISCORD_BOT_TOKEN."])%list,
               s2)
          | Some PrivilegedIntentsRequired =>
              (EndOfScript,
               (records ++ [Critical "ERROR: Required Discord Intents (Messages, Message Content, DMs) are not enabled for the bot in the Discord Developer Portal."])%list,
               s2)
          | Some _ =>
              (EndOfScript,
               (records ++ [Traceback "A critical error occurred preventing the bot from running: {e}"])%list,
               s2)
          end
      | (_, s1) =>
          (EndOfScript,
           [retrieved;
            Traceback "A critical error occurred preventing the bot from running: {e}"],
           s1)
      end
  end
  end
  end
  end
  end.

(** The configuration and the services pass every test of the start. *)
Definition well_configured (c : config) : bool :=
  match OPENAI_API_KEY c, DISCORD_BOT_TOKEN c, ASSISTANT_ID c with
  | Some key, Some token, Some assistant =>
      String.prefix "sk-proj-" key && String.prefix "M" token
      && (50 <=? Py.len token)%nat && String.prefix "asst_" assistant
  | _, _, _ => false
  end.

Definition checks_pass (c : config) (w : services) : bool :=
  well_configured c
  && bool_decide (openai_client w = None)
  && bool_decide (assistants_retrieve w = None).

End Main.

(** A configuration that passes the tests of the start, one without any
    variable set, and services that answer. *)
Definition configured : Main.config :=
  Main.mkConfig
    (Some "MTA4NTk3NjQzMjE5ODc2NTQzMg.GaBcDe.abcdefghijklmnopqrstuvwxyz0123456789AB")
    (Some "sk-proj-0123456789") (Some "asst_1").

Definition unset : Main.config := Main.mkConfig None None None.

Definition online (events : list Main.incoming) : Main.services :=
  Main.mkServices None None 99 events None.

(** Every write of the file breaks off after [open]. *)
Definition broken_disk : environment :=
  mkEnv (fun _ => Returns "thread_1") (fun _ => Returns tt)
        (fun _ => Returns (mkRun "run_1" "queued" None))
        (fun _ => Returns (mkRun "run_1" "completed" None))
        (fun _ => Returns tt) (fun _ => Returns [])
        (fun _ => Returns true) (fun _ => 0%N) (fun _ => 0%N)
        (fun _ => DumpFails).

(** How the [except] clauses of lines 241-249 and 429-437 sort an exception,
    and the apology that goes with it. *)
Definition classify (e : exn) : outcome :=
  match e with
  | RateLimitError => RateLimited
  | _ => if is_api_error e then ApiFailure else Unexpected
  end.

Definition apology (ctx : context) (e : exn) : string :=
  match e with
  | RateLimitError =>
      "I'm experiencing high demand right now. Please wait a moment and try again."
  | _ =>
      if is_api_error e
      then "There was an issue communicating with the AI service. Please try again later."
      else match ctx with
           | DM => "Sorry, I encountered an unexpected error trying to process your DM."
           | Guild => "Sorry, I encountered an unexpected error trying to process that."
           end
  end.

(** Posting a message to a thread is refused for excess of requests. *)
Definition rate_limited : environment :=
  mkEnv (fun _ => Returns "thread_1") (fun _ => Raises RateLimitError)
        (fun _ => Returns (mkRun "run_1" "queued" None))
        (fun _ => Returns (mkRun "run_1" "completed" None))
        (fun _ => Returns tt) (fun _ => Returns [])
        (fun _ => Returns true) (fun _ => 0%N) (fun _ => 0%N)
        (fun _ => WriteOk).

(** * Properties *)

Example str_examples :
  Py.str 0 = "0" /\ Py.str 42 = "42" /\ Py.str (-7) = "-7".
Proof. repeat split. Qed.

Example int_examples :
  Py.int " 12_3 " = Some 123 /\ Py.int "-0042" = Some (-42) /\
  Py.int "+5" = Some 5 /\ Py.int "1__2" = None /\ Py.int "" = None /\
  Py.int "12a" = None /\ Py.int "_1" = None /\ Py.int "1_" = None.
Proof. repeat split. Qed.

Example strip_examples :
  Py.strip "  a b  " = "a b" /\ Py.strip "   " = "" /\
  Py.remove_all "<@7>" "<@7> hi <@7>" = " hi " /\
  Py.remove_all "aa" "aaa" = "a" /\
  Py.join "," ["a"; "b"; "c"] = "a,b,c" /\
  Py.range_step 5 2 = [0; 2; 4]%nat /\ Py.range_step 4 2 = [0; 2]%nat /\
  Py.slice 2 3 "abcdefg" = "cde" /\ Py.slice 5 3 "abcdefg" = "fg".
Proof. repeat split. Qed.

(** Characters beyond ASCII: one character each for [len], slices and
    [strip]; [int] takes the white space and the digits of Unicode, and
    not the separators U+001C-001F that [strip] removes. *)
Example unicode_examples :
  String.length "héllo" = 6%nat /\ Py.len "héllo" = 5%nat /\
  Py.len "€𝟎" = 2%nat /\ Py.slice 1 2 "héllo" = "él" /\
  Py.strip (no_break_space +:+ " é " +:+ file_separator) = "é" /\
  Py.int (no_break_space +:+ "7") = Some 7 /\
  Py.int (file_separator +:+ "7") = None /\
  Py.int "٣_٤" = Some 34 /\ Py.int "𝟎7" = Some 7 /\ Py.int "¾" = None.
Proof. vm_compute. repeat split. Qed.

(** ** Decimal conversion: [int(str(k)) == k] *)

Module PyFacts.

Lemma digit_not_space c : Py.is_digit c = true -> Py.is_c_space c = false.
Proof.
  destruct c as [[|] [|] [|] [|] [|] [|] [|] [|]]; vm_compute; congruence.
Qed.

Lemma digit_not_sign c :
  Py.is_digit c = true -> c <> "-"%char /\ c <> "+"%char /\ c <> "_"%char.
Proof.
  destruct c as [[|] [|] [|] [|] [|] [|] [|] [|]]; vm_compute;
    intros H; try discriminate H; repeat split; discriminate.
Qed.

Lemma digit_ascii c : Py.is_digit c = true -> (N_of_ascii c <? 128)%N = true.
Proof.
  destruct c as [[|] [|] [|] [|] [|] [|] [|] [|]]; vm_compute; congruence.
Qed.

Lemma digits_no_space s : digits_only s = true -> no_space s = true.
Proof.
  induction s as [|c r IH]; simpl; [done|].
  intros [Hc Hr]%andb_prop. rewrite (digit_not_space c Hc). simpl. auto.
Qed.

Lemma digits_ascii s : digits_only s = true -> ascii_only s = true.
Proof.
  induction s as [|c r IH]; simpl; [done|].
  intros [Hc Hr]%andb_prop. rewrite (digit_ascii c Hc). simpl. auto.
Qed.

Lemma lstrip_no_space s : no_space s = true -> Py.c_lstrip s = s.
Proof.
  destruct s as [|c r]; simpl; [done|].
  intros [Hc _]%andb_prop. apply negb_true_iff in Hc. by rewrite Hc.
Qed.

Lemma rstrip_no_space s : no_space s = true -> Py.c_rstrip s = s.
Proof.
  induction s as [|c r IH]; simpl; [done|].
  intros [Hc Hr]%andb_prop. apply negb_true_iff in Hc.
  rewrite (IH Hr), Hc. by destruct r.
Qed.

Lemma strip_no_space s :
  no_space s = true -> Py.c_rstrip (Py.c_lstrip s) = s.
Proof.
  intros H. rewrite (lstrip_no_space s H). by apply rstrip_no_space.
Qed.

(** In an ASCII string every byte is a character, and bringing it to ASCII
    changes nothing. *)
Lemma chars_ascii s :
  ascii_only s = true ->
  Py.chars s = (fun c => String c "") <$> list_ascii_of_string s.
Proof.
  induction s as [|b r IH]; [done|]. simpl ascii_only.
  intros [Hb Hr]%andb_prop. cbn [Py.chars list_ascii_of_string fmap list_fmap].
  rewrite (IH Hr). destruct r as [|c r]; [done|].
  simpl in Hr. apply andb_prop in Hr as [Hc _].
  cbn [list_ascii_of_string fmap list_fmap Py.continues].
  unfold Py.is_continuation.
  apply N.ltb_lt in Hc.
  destruct (N.leb_spec 128 (N_of_ascii c)); [lia|done].
Qed.

Lemma to_ascii_ascii c :
  (N_of_ascii c <? 128)%N = true -> Py.to_ascii (String c "") = Some c.
Proof.
  intros Hc. unfold Py.to_ascii, Py.ord. simpl. rewrite Hc. simpl.
  rewrite Hc. by rewrite ascii_N_embedding.
Qed.

Lemma transform_ascii s : ascii_only s = true -> Py.transform s = Some s.
Proof.
  intros Hs. unfold Py.transform. rewrite (chars_ascii s Hs).
  assert (H : mapM Py.to_ascii
                ((fun c => String c "") <$> list_ascii_of_string s)
              = Some (list_ascii_of_string s)).
  { induction s as [|b r IH]; [done|]. simpl in Hs.
    apply andb_prop in Hs as [Hb Hr].
    cbn [list_ascii_of_string fmap list_fmap mapM].
    rewrite (to_ascii_ascii b Hb). simpl. by rewrite (IH Hr). }
  rewrite H. simpl. by rewrite string_of_list_ascii_of_string.
Qed.

Lemma drop_underscores_digits s b :
  digits_only s = true -> (b = true \/ s <> EmptyString) ->
  Py.drop_underscores b s = Some s.
Proof.
  revert b. induction s as [|c r IH]; simpl; intros b Hd Hb.
  - destruct Hb as [->|Hb]; [done|]. by destruct Hb.
  - apply andb_prop in Hd as [Hc Hr]. rewrite Hc.
    rewrite (IH true Hr); [done|]. by left.
Qed.

Lemma string_of_uint_digits d :
  digits_only (NilEmpty.string_of_uint d) = true.
Proof. induction d; simpl; auto. Qed.

Lemma string_of_uint_nonempty d :
  d <> Decimal.Nil -> NilEmpty.string_of_uint d <> EmptyString.
Proof. destruct d; simpl; congruence. Qed.

Lemma split_sign_digits s :
  digits_only s = true -> Py.split_sign s = (false, s).
Proof.
  destruct s as [|c r]; simpl; [done|].
  intros [Hc _]%andb_prop.
  destruct (digit_not_sign c Hc) as (Hm & Hp & _).
  destruct c as [[|] [|] [|] [|] [|] [|] [|] [|]]; try done.
Qed.

(** The digits of a positive number parse back to it. *)
Lemma int_digits p :
  let s := NilEmpty.string_of_uint (Pos.to_uint p) in
  Py.drop_underscores false s = Some s /\
  NilZero.uint_of_string s = Some (Pos.to_uint p) /\
  Z.of_uint (Pos.to_uint p) = Z.pos p.
Proof.
  pose proof (Unsigned.to_uint_nonnil p) as Hnil.
  split; [|split].
  - apply drop_underscores_digits; [apply string_of_uint_digits|].
    right. by apply string_of_uint_nonempty.
  - pose proof (NilZero.usu (Pos.to_uint p) Hnil) as H.
    unfold NilZero.string_of_uint in H.
    by destruct (Pos.to_uint p).
  - unfold Z.of_uint. by rewrite Unsigned.of_to.
Qed.

Lemma str_pos p :
  Py.str (Z.pos p) = NilEmpty.string_of_uint (Pos.to_uint p).
Proof.
  pose proof (Unsigned.to_uint_nonnil p) as Hnil.
  unfold Py.str. simpl. unfold NilZero.string_of_uint.
  by destruct (Pos.to_uint p).
Qed.

Lemma str_neg p :
  Py.str (Z.neg p) = String "-" (NilEmpty.string_of_uint (Pos.to_uint p)).
Proof.
  pose proof (Unsigned.to_uint_nonnil p) as Hnil.
  unfold Py.str. simpl. unfold NilZero.string_of_uint.
  by destruct (Pos.to_uint p).
Qed.

(** [int(str(k)) == k] for every integer [k]. *)
Lemma int_str (k : Z) : Py.int (Py.str k) = Some k.
Proof.
  destruct k as [|p|p].
  - reflexivity.
  - rewrite str_pos. destruct (int_digits p) as (Hu & Hd & Hz).
    pose proof (string_of_uint_digits (Pos.to_uint p)) as Hdig.
    unfold Py.int. rewrite (transform_ascii _ (digits_ascii _ Hdig)).
    cbn [mbind option_bind].
    rewrite (strip_no_space _ (digits_no_space _ Hdig)).
    rewrite (split_sign_digits _ Hdig).
    rewrite Hu. simpl. rewrite Hd. simpl. by rewrite Hz.
  - rewrite str_neg. destruct (int_digits p) as (Hu & Hd & Hz).
    pose proof (string_of_uint_digits (Pos.to_uint p)) as Hdig.
    unfold Py.int. rewrite transform_ascii.
    2:{ simpl. by apply digits_ascii. }
    cbn [mbind option_bind]. rewrite strip_no_space.
    + simpl Py.split_sign. cbv iota beta.
      rewrite Hu. simpl. rewrite Hd. simpl. by rewrite Hz.
    + simpl. by apply digits_no_space.
Qed.

End PyFacts.

(** Unfolds the control-flow combinators, so that a program applied to a
    state reduces to its result. *)
Ltac unfold_prog :=
  unfold mbind, M_bind, bind, ret, get, log, send, sleep, time,
    raise, done, hang, try_except, modify in *.

(** ** The Session Store on disk *)

Section Store.

Variable E : environment.

Lemma int_keys_dump (l : list (Z * string)) (acc : gmap Z string) :
  NoDup l.*1 ->
  int_keys ((fun kv => (Py.str kv.1, kv.2)) <$> l) acc
  = inr (list_to_map l ∪ acc).
Proof.
  revert acc. induction l as [|[k v] l IH]; intros acc Hnd; simpl.
  - by rewrite (left_id_L ∅ (∪)).
  - rewrite PyFacts.int_str. inversion Hnd as [|? ? Hk Hl]; subst.
    rewrite (IH _ Hl). f_equal.
    rewrite <- insert_union_l.
    symmetry. apply insert_union_r. by apply not_elem_of_list_to_map_1.
Qed.

Lemma read_dump (m : gmap Z string) : read_threads (Json (dump m)) = inr m.
Proof.
  unfold dump. simpl. rewrite int_keys_dump.
  - by rewrite list_to_map_to_list, (right_id_L ∅ (∪)).
  - apply NoDup_fst_map_to_list.
Qed.

(** What [save_threads] leaves behind. *)
Lemma save_threads_spec (s : state) :
  exists s', save_threads E s = (Val tt, s') /\
    user_threads s' = user_threads s /\
    clock s' = clock s /\ calls s' = calls s /\ saves s' = S (saves s) /\
    disk s' = match disk_write E (saves s) with
              | WriteOk => Json (dump (user_threads s))
              | OpenFails => disk s
              | DumpFails => BadJson
              end.
Proof.
  unfold save_threads, write_file. unfold_prog.
  destruct (disk_write E (saves s)); eexists; (split; [reflexivity|]); done.
Qed.

Lemma load_threads_spec (s : state) :
  exists s', load_threads s = (Val tt, s') /\
    user_threads s' = match read_threads (disk s) with
                      | inr m => m
                      | inl _ => ∅
                      end /\
    disk s' = disk s /\ clock s' = clock s /\ calls s' = calls s /\
    saves s' = saves s.
Proof.
  unfold load_threads. unfold_prog.
  destruct (read_threads (disk s)) as [e|m]; [destruct e|];
    eexists; (split; [reflexivity|]); done.
Qed.

(** C8. [load_threads] returns normally whatever the file holds: no
    exception leaves it.  A missing file gives the empty dictionary and one
    warning in the log; undecodable content gives the empty dictionary and
    one error in the log; every other unusable content also ends in the empty
    dictionary.  The file itself is left as it was. *)
Theorem load_threads_never_fails (s : state) :
  exists s', load_threads s = (Val tt, s') /\ disk s' = disk s /\
    user_threads s' = match read_threads (disk s) with
                      | inr m => m
                      | inl _ => ∅
                      end /\
    match disk s with
    | NoFile =>
        user_threads s' = ∅ /\
        trace s' = (trace s ++ [EvLog WARNING "{THREAD_DATA_FILE} not found. Starting with empty threads."])%list
    | BadJson =>
        user_threads s' = ∅ /\
        trace s' = (trace s ++ [EvLog ERROR "Error decoding JSON from {THREAD_DATA_FILE}. Starting with empty threads."])%list
    | _ => True
    end.
Proof.
  unfold load_threads. unfold_prog.
  destruct (disk s) as [| | |[l|]] eqn:Hd; simpl;
    try (eexists; repeat split; reflexivity || (simpl; done)).
  destruct (int_keys l ∅) as [e|m]; [destruct e|];
    eexists; (split; [reflexivity|]); simpl; done.
Qed.

(** C4. Saving the dictionary and loading the file back gives the same
    dictionary, for every dictionary with integer keys, whenever the write
    goes through; [m0] is whatever [user_threads] holds when the file is
    loaded (the empty dictionary after a restart). *)
Theorem save_load_round_trip (s : state) (m0 : gmap Z string) :
  disk_write E (saves s) = WriteOk ->
  exists s1 s2,
    save_threads E s = (Val tt, s1) /\
    load_threads (set_threads m0 s1) = (Val tt, s2) /\
    user_threads s2 = user_threads s.
Proof.
  intros Hw.
  destruct (save_threads_spec s) as (s1 & Hs & Hu & _ & _ & _ & Hd).
  destruct (load_threads_spec (set_threads m0 s1)) as (s2 & Hl & Hu2 & _).
  exists s1, s2. split; [done|]. split; [done|].
  rewrite Hu2. simpl. rewrite Hd, Hw, read_dump. done.
Qed.

End Store.

(** Two users, saved on a disk that takes the write, loaded after a
    restart. *)
Lemma save_load_round_trip_witness :
  exists s1 s2,
    save_threads healthy two_users = (Val tt, s1) /\
    load_threads (set_threads ∅ s1) = (Val tt, s2) /\
    user_threads s2 = user_threads two_users.
Proof. apply (save_load_round_trip healthy two_users ∅). reflexivity. Defined.

(** ** Splitting a long reply *)

Lemma sent_app t1 t2 : sent (t1 ++ t2) = (sent t1 ++ sent t2)%list.
Proof. apply omap_app. Qed.

Module Chunks.

Lemma append_cons (a : ascii) (s t : string) :
  String a s +:+ t = String a (s +:+ t).
Proof. reflexivity. Qed.

Lemma append_nil_r (s : string) : s +:+ "" = s.
Proof.
  induction s as [|a s IH]; [done|]. by rewrite append_cons, IH.
Qed.

Lemma append_assoc (s1 s2 s3 : string) :
  (s1 +:+ s2) +:+ s3 = s1 +:+ (s2 +:+ s3).
Proof.
  induction s1 as [|a s1 IH]; [done|]. by rewrite !append_cons, IH.
Qed.

Lemma concat_cons (x : string) (l : list string) :
  String.concat "" (x :: l) = x +:+ String.concat "" l.
Proof.
  destruct l as [|y l]; simpl; [by rewrite append_nil_r|done].
Qed.

Lemma concat_snoc (l : list string) (x : string) :
  String.concat "" (l ++ [x]) = String.concat "" l +:+ x.
Proof.
  induction l as [|y l IH]; [done|].
  change ((y :: l) ++ [x])%list with (y :: (l ++ [x]))%list.
  by rewrite !concat_cons, IH, append_assoc.
Qed.

Lemma concat_app (l1 l2 : list string) :
  String.concat "" (l1 ++ l2)
  = String.concat "" l1 +:+ String.concat "" l2.
Proof.
  induction l1 as [|y l1 IH]; [done|].
  change ((y :: l1) ++ l2)%list with (y :: (l1 ++ l2))%list.
  by rewrite !concat_cons, IH, append_assoc.
Qed.

(** The characters of a string, put together, are the string. *)
Lemma concat_chars (s : string) : String.concat "" (Py.chars s) = s.
Proof.
  induction s as [|b s IH]; [done|]. cbn [Py.chars].
  destruct (Py.chars s) as [|c cs].
  - simpl in IH. by subst s.
  - destruct (Py.continues s); rewrite !concat_cons in *.
    + by rewrite append_cons, IH.
    + by rewrite IH.
Qed.

Lemma chars_head (s c : string) (cs : list string) :
  Py.chars s = c :: cs -> Py.continues c = Py.continues s.
Proof.
  destruct s as [|b s]; [done|]. cbn [Py.chars].
  destruct (Py.chars s) as [|c' cs'].
  - by intros [= <- <-].
  - destruct (Py.continues s); by intros [= <- <-].
Qed.

(** What [chars] gives is a list of characters. *)
Lemma characters_chars (s : string) : characters (Py.chars s).
Proof.
  induction s as [|b s IH]; [by split|]. cbn [Py.chars].
  destruct (Py.chars s) as [|c cs] eqn:Hs.
  - split; [|done]. by repeat constructor.
  - pose proof (chars_head s c cs Hs) as Hhead.
    destruct IH as [Hall Hfresh]. apply Forall_cons in Hall as [Hc Hall].
    destruct (Py.continues s) eqn:Hcont.
    + split; [|exact Hfresh]. apply Forall_cons. split; [|exact Hall].
      destruct c as [|b' r]; [done|]. simpl in *. by rewrite Hhead.
    + split.
      * apply Forall_cons. split; [done|]. by apply Forall_cons.
      * simpl. by apply Forall_cons.
Qed.

Lemma characters_tail (c : string) (cs : list string) :
  characters (c :: cs) -> characters cs.
Proof.
  intros [Hall Hfresh]. apply Forall_cons in Hall as [_ Hall].
  split; [exact Hall|]. simpl in Hfresh. destruct cs as [|c' cs']; [done|].
  by apply Forall_cons in Hfresh as [_ ?].
Qed.

Lemma characters_drop (i : nat) (cs : list string) :
  characters cs -> characters (drop i cs).
Proof.
  revert cs. induction i as [|i IH]; intros cs Hcs; [done|].
  destruct cs as [|c cs]; [done|]. simpl. apply IH.
  by eapply characters_tail.
Qed.

Lemma characters_take (n : nat) (cs : list string) :
  characters cs -> characters (take n cs).
Proof.
  intros [Hall Hfresh]. split; [by apply Forall_take|].
  destruct n as [|n]; [done|]. destruct cs as [|c cs]; [done|].
  simpl in *. by apply Forall_take.
Qed.

Lemma continues_append (c t : string) :
  c <> "" -> Py.continues (c +:+ t) = Py.continues c.
Proof. by destruct c. Qed.

Lemma chars_cons (b : ascii) (r : string) :
  Py.chars (String b r)
  = match Py.chars r with
    | c :: cs => if Py.continues r then String b c :: cs
                 else String b "" :: c :: cs
    | [] => [String b ""]
    end.
Proof. reflexivity. Qed.

(** One character followed by a string that starts a character. *)
Lemma chars_group (b : ascii) (r rest : string) :
  all_continuation r = true -> Py.continues rest = false ->
  Py.chars (String b (r +:+ rest)) = String b r :: Py.chars rest.
Proof.
  revert b. induction r as [|c r IH]; intros b Hr Hrest.
  - change ("" +:+ rest) with rest. rewrite chars_cons.
    rewrite Hrest. by destruct (Py.chars rest).
  - simpl in Hr. apply andb_prop in Hr as [Hc Hr].
    rewrite append_cons, chars_cons, (IH c Hr Hrest).
    cbn [Py.continues]. by rewrite Hc.
Qed.

(** A list of characters, put together and taken apart, is itself. *)
Lemma chars_concat (cs : list string) :
  characters cs -> Py.chars (String.concat "" cs) = cs.
Proof.
  induction cs as [|c cs IH]; [done|]. intros Hcs.
  pose proof (characters_tail c cs Hcs) as Htail.
  destruct Hcs as [Hall Hfresh]. apply Forall_cons in Hall as [Hc _].
  destruct c as [|b r]; [done|]. simpl in Hc, Hfresh.
  rewrite concat_cons, append_cons, chars_group, (IH Htail); [done|done|].
  destruct cs as [|c' cs']; [done|].
  apply Forall_cons in Hfresh as [Hc' _].
  destruct Htail as [Hall' _]. apply Forall_cons in Hall' as [Hch _].
  rewrite concat_cons, continues_append; [done|]. by destruct c'.
Qed.

Lemma len_slice (i n : nat) (s : string) :
  Py.len (Py.slice i n s) = Nat.min n (Py.len s - i).
Proof.
  unfold Py.len, Py.slice. rewrite chars_concat.
  - by rewrite length_take, length_drop.
  - apply characters_take, characters_drop, characters_chars.
Qed.

Lemma concat_slices (c N : nat) (l : list string) :
  String.concat ""
    ((fun k => String.concat "" (take c (drop (k * c) l))) <$> seq 0 N)
  = String.concat "" (take (N * c) l).
Proof.
  induction N as [|N IH]; [done|].
  rewrite seq_S, fmap_app. simpl seq. simpl fmap.
  replace (S N * c)%nat with (N * c + c)%nat by lia.
  by rewrite concat_snoc, IH, <- concat_app, take_take_drop.
Qed.

Lemma parts_of_eq (c : nat) (s : string) :
  parts_of c s
  = (fun k => Py.slice (k * c) c s) <$> seq 0 ((Py.len s + (c - 1)) / c).
Proof.
  unfold parts_of, Py.range_step.
  by rewrite <- list_fmap_compose.
Qed.

(** The chunks, put together again, are the text. *)
Lemma concat_parts_of (c : nat) (s : string) :
  (0 < c)%nat -> String.concat "" (parts_of c s) = s.
Proof.
  intros Hc. rewrite parts_of_eq. unfold Py.slice.
  rewrite concat_slices, take_ge; [apply concat_chars|].
  fold (Py.len s).
  pose proof (Nat.div_mod (Py.len s + (c - 1)) c ltac:(lia)) as Hd.
  pose proof (Nat.mod_upper_bound (Py.len s + (c - 1)) c ltac:(lia)).
  nia.
Qed.

Lemma length_parts_of (c : nat) (s : string) :
  length (parts_of c s) = ((Py.len s + (c - 1)) / c)%nat.
Proof. by rewrite parts_of_eq, length_fmap, length_seq. Qed.

(** No chunk is longer than the chunk size. *)
Lemma parts_of_bounded (c : nat) (s : string) :
  Forall (fun p => (Py.len p <= c)%nat) (parts_of c s).
Proof.
  rewrite parts_of_eq. apply Forall_fmap, Forall_forall. intros k _. simpl.
  rewrite len_slice. lia.
Qed.

(** Every chunk but the last is full. *)
Lemma parts_of_full (c : nat) (s : string) (k : nat) (p : string) :
  (0 < c)%nat -> parts_of c s !! k = Some p ->
  (S k < length (parts_of c s))%nat -> Py.len p = c.
Proof.
  intros Hc Hk Hlast. rewrite length_parts_of in Hlast.
  rewrite parts_of_eq, list_lookup_fmap in Hk.
  destruct (seq 0 _ !! k) as [j|] eqn:Hj; [|done].
  apply lookup_seq in Hj as [-> _]. simpl in Hk.
  injection Hk as <-. rewrite len_slice.
  pose proof (Nat.div_mod (Py.len s + (c - 1)) c ltac:(lia)) as Hd.
  pose proof (Nat.mod_upper_bound (Py.len s + (c - 1)) c ltac:(lia)).
  nia.
Qed.

End Chunks.

Lemma same_store_refl s : same_store s s.
Proof. by repeat split. Qed.

Lemma same_store_trans s1 s2 s3 :
  same_store s1 s2 -> same_store s2 s3 -> same_store s1 s3.
Proof.
  intros (? & ? & ?) (? & ? & ?). repeat split; congruence.
Qed.

Lemma send_parts_spec E (ps : list string) (s : state) :
  exists s', send_parts E ps s = (Val tt, s') /\ same_store s s' /\
    calls s' = calls s /\
    trace s' = (trace s ++ flat_map (fun p => [EvSend p; EvSleep 500]) ps)%list.
Proof.
  revert s. induction ps as [|p ps IH]; intros s; simpl.
  - exists s. unfold_prog. rewrite app_nil_r.
    repeat split; done.
  - unfold_prog. simpl.
    match goal with
    | |- context [send_parts E ps ?st] =>
        destruct (IH st) as (s' & -> & Hst & Hc & Ht)
    end.
    exists s'. split; [done|]. split; [exact Hst|]. split; [exact Hc|].
    rewrite Ht. simpl. by rewrite <- !app_assoc.
Qed.

Lemma sent_parts (ps : list string) :
  sent (flat_map (fun p => [EvSend p; EvSleep 500]) ps) = ps.
Proof. induction ps as [|p ps IH]; simpl; [done|]. by rewrite IH. Qed.

(** C7. A reply too long for one Discord message (more than 2000
    characters, counting the mention that precedes it in a server channel)
    is cut into consecutive chunks of 1990 characters, the last one possibly
    shorter; the chunks are sent one message each, in order (after the
    mention, in a server channel), and put together they are the reply.  A
    reply of 5000 characters gives exactly 3 chunks.  Characters are counted
    as [len] counts them, one for each code point, whatever bytes it takes. *)
Theorem long_reply_is_chunked E (ctx : context) (m : inbound)
    (full_response : string) (s : state) :
  (2000 < Py.len (prefix ctx m +:+ full_response))%nat ->
  exists s',
    send_response E ctx m full_response s = (Val tt, s') /\
    same_store s s' /\
    sent (trace s')
    = (sent (trace s)
       ++ match ctx with DM => [] | Guild => [author_mention m +:+ " "] end
       ++ parts full_response)%list /\
    String.concat "" (parts full_response) = full_response /\
    Forall (fun p => (Py.len p <= 1990)%nat) (parts full_response) /\
    (forall k p, parts full_response !! k = Some p ->
       (S k < length (parts full_response))%nat ->
       Py.len p = 1990%nat) /\
    length (parts full_response)
    = ((Py.len full_response + 1989) / 1990)%nat /\
    (Py.len full_response = 5000%nat ->
     length (parts full_response) = 3%nat).
Proof.
  intros Hlong.
  assert (Hlen : length (parts full_response)
                 = ((Py.len full_response + 1989) / 1990)%nat)
    by apply (Chunks.length_parts_of 1990).
  assert (Hrest :
    String.concat "" (parts full_response) = full_response /\
    Forall (fun p => (Py.len p <= 1990)%nat) (parts full_response) /\
    (forall k p, parts full_response !! k = Some p ->
       (S k < length (parts full_response))%nat ->
       Py.len p = 1990%nat) /\
    length (parts full_response)
    = ((Py.len full_response + 1989) / 1990)%nat /\
    (Py.len full_response = 5000%nat ->
     length (parts full_response) = 3%nat)).
  { split; [apply Chunks.concat_parts_of; lia|].
    split; [apply Chunks.parts_of_bounded|].
    split; [intros k p; apply Chunks.parts_of_full; lia|].
    split; [exact Hlen|].
    intros H5. rewrite Hlen, H5. reflexivity. }
  destruct ctx; unfold send_response.
  - change (2000 < Py.len full_response)%nat in Hlong.
    destruct (Nat.leb_spec (Py.len full_response) 2000); [lia|].
    destruct (send_parts_spec E (parts full_response) s)
      as (s' & -> & Hst & _ & Ht).
    exists s'. split; [done|]. split; [exact Hst|]. split; [|exact Hrest].
    by rewrite Ht, sent_app, sent_parts.
  - unfold prefix in Hlong.
    destruct (Nat.leb_spec
                (Py.len ((author_mention m +:+ " ") +:+ full_response))
                2000); [lia|].
    unfold_prog. simpl.
    destruct (send_parts_spec E (parts full_response)
                (emit (EvSend (author_mention m +:+ " ")) s))
      as (s' & -> & Hst & _ & Ht).
    exists s'. split; [done|]. split; [exact Hst|]. split; [|exact Hrest].
    rewrite Ht. simpl. rewrite !sent_app, sent_parts. simpl.
    by rewrite <- app_assoc.
Qed.

(** A reply of 5000 characters in a direct message. *)
Lemma long_reply_is_chunked_witness :
  exists s',
    send_response healthy DM (dm_from 7 "hi") (text_of_length 5000) idle
    = (Val tt, s') /\
    sent (trace s') = parts (text_of_length 5000) /\
    String.concat "" (parts (text_of_length 5000)) = text_of_length 5000 /\
    length (parts (text_of_length 5000)) = 3%nat.
Proof.
  destruct (long_reply_is_chunked healthy DM (dm_from 7 "hi") (text_of_length 5000)
              idle) as (s' & Hrun & _ & Hsent & Hcat & _ & _ & _ & H3).
  { vm_compute. lia. }
  exists s'. split; [exact Hrun|]. split; [exact Hsent|].
  split; [exact Hcat|]. apply H3. vm_compute. reflexivity.
Defined.

(** Accented letters count once each, whatever bytes they take: 1500 of
    them go out in one message, and 5000 of them in three. *)
Example accented_replies :
  let '(_, s) :=
    send_response healthy DM (dm_from 7 "hi") (accented 1500) idle in
  String.length (accented 1500) = 3000%nat /\
  sent (trace s) = [accented 1500] /\
  Py.len <$> parts (accented 5000) = [1990; 1990; 1020]%nat.
Proof. vm_compute. repeat split. Qed.

(** ** Resolving the user's thread *)

Lemma count_app p t1 t2 : count p (t1 ++ t2) = (count p t1 + count p t2)%nat.
Proof. unfold count. by rewrite List.filter_app, length_app. Qed.

Lemma count_snoc p t e :
  count p (t ++ [e]) = (count p t + if p e then 1 else 0)%nat.
Proof. rewrite count_app. unfold count. simpl. by destruct (p e). Qed.

Lemma truthy_spec (v : option string) :
  truthy v = true <-> exists tid, v = Some tid /\ tid <> "".
Proof.
  split.
  - destruct v as [[|a t]|]; simpl; try done. intros _. by eexists.
  - intros (tid & -> & Hne). by destruct tid.
Qed.

Section Resolve.

Variable E : environment.

(** A thread on file is returned as it is: nothing happens. *)
Lemma resolve_truthy ctx m s tid :
  user_threads s !! author_id m = Some tid -> tid <> "" ->
  resolve E ctx m s = (Val tid, s).
Proof.
  intros Hl Hne. unfold resolve. unfold_prog.
  rewrite Hl. by destruct tid.
Qed.

(** No usable thread on file: one create request; on success the new
    identifier is stored and the file rewritten. *)
Lemma resolve_falsy ctx m s :
  truthy (user_threads s !! author_id m) = false ->
  exists s1,
    calls s1 = S (calls s) /\
    count is_create (trace s1) = S (count is_create (trace s)) /\
    count is_delete (trace s1) = count is_delete (trace s) /\
    match threads_create E (calls s) with
    | Returns tid =>
        resolve E ctx m s = (Val tid, s1) /\
        user_threads s1 = <[author_id m := tid]> (user_threads s) /\
        saves s1 = S (saves s) /\
        disk s1 = match disk_write E (saves s) with
                  | WriteOk => Json (dump (user_threads s1))
                  | OpenFails => disk s
                  | DumpFails => BadJson
                  end
    | Raises _ =>
        resolve E ctx m s = (Done SessionCreationFailed, s1) /\
        same_store s s1 /\
        last (trace s1)
        = Some (EvSend (prefix ctx m +:+ "Sorry, I couldn't initiate our conversation context. Please try again later."))
    end.
Proof.
  intros Hf. destruct (resolve E ctx m s) as [r s1] eqn:Hr. exists s1.
  revert Hr. unfold resolve, request, save_threads, write_file. unfold_prog.
  rewrite Hf. simpl.
  destruct (threads_create E (calls s)) as [tid|e]; simpl.
  - destruct (disk_write E (saves s)) eqn:Hw; simpl; intros [= <- <-]; simpl;
      rewrite ?count_snoc, ?Hw; simpl; repeat split; lia || done.
  - intros [= <- <-]. simpl. rewrite !count_snoc. simpl.
    repeat split; try lia. by rewrite last_snoc.
Qed.

(** C1. For a user with no entry in [user_threads], and a create request
    that returns an identifier as the API issues them (a non-empty string),
    resolving makes exactly one create request, adds the one entry
    user -> identifier, and runs [save_threads] on the new dictionary (the
    file then holds it, when the write goes through).  Resolving again right
    away returns the same identifier and does nothing else: no request, no
    effect at all. *)
Theorem resolve_creates_once ctx m s tid :
  user_threads s !! author_id m = None ->
  threads_create E (calls s) = Returns tid ->
  tid <> "" ->
  exists s1,
    resolve E ctx m s = (Val tid, s1) /\
    count is_create (trace s1) = S (count is_create (trace s)) /\
    calls s1 = S (calls s) /\
    user_threads s1 = <[author_id m := tid]> (user_threads s) /\
    size (user_threads s1) = S (size (user_threads s)) /\
    saves s1 = S (saves s) /\
    disk s1 = match disk_write E (saves s) with
              | WriteOk => Json (dump (user_threads s1))
              | OpenFails => disk s
              | DumpFails => BadJson
              end /\
    resolve E ctx m s1 = (Val tid, s1).
Proof.
  intros Hnone Hcreate Hne.
  destruct (resolve_falsy ctx m s) as (s1 & Hc & Hn & _ & H).
  { by rewrite Hnone. }
  rewrite Hcreate in H. destruct H as (Hr & Hu & Hs & Hd).
  exists s1. repeat split; try done.
  - rewrite Hu. by apply map_size_insert_None.
  - apply resolve_truthy; [|done]. rewrite Hu. apply lookup_insert_eq.
Qed.

(** C10. Presence is decided by truth value.  An entry holding the empty
    string counts as absent: a create request is made and, when it returns,
    the entry is overwritten with the new identifier.  And resolving goes
    without any request exactly when the entry holds a non-empty identifier,
    which is then returned with the state untouched. *)
Theorem resolve_by_truthiness ctx m s :
  (user_threads s !! author_id m = Some "" ->
   exists s1,
     calls s1 = S (calls s) /\
     count is_create (trace s1) = S (count is_create (trace s)) /\
     forall tid, threads_create E (calls s) = Returns tid ->
       resolve E ctx m s = (Val tid, s1) /\
       user_threads s1 = <[author_id m := tid]> (user_threads s)) /\
  (forall r s1, resolve E ctx m s = (r, s1) ->
     calls s1 = calls s <->
     exists tid, user_threads s !! author_id m = Some tid /\ tid <> "" /\
                 r = Val tid /\ s1 = s).
Proof.
  split.
  - intros Hempty.
    destruct (resolve_falsy ctx m s) as (s1 & Hc & Hn & _ & H).
    { by rewrite Hempty. }
    exists s1. split; [done|]. split; [done|].
    intros tid Ht. rewrite Ht in H. by destruct H as (? & ? & _).
  - intros r s1 Hr. split.
    + intros Hcalls.
      destruct (truthy (user_threads s !! author_id m)) eqn:Ht.
      * apply truthy_spec in Ht as (tid & Hl & Hne).
        rewrite (resolve_truthy ctx m s tid Hl Hne) in Hr.
        injection Hr as <- <-. by exists tid.
      * destruct (resolve_falsy ctx m s Ht) as (s2 & Hc & _ & _ & H).
        destruct (threads_create E (calls s)); destruct H as (H & _);
          rewrite H in Hr; injection Hr as <- <-; lia.
    + by intros (tid & _ & _ & _ & ->).
Qed.

End Resolve.

(** User 7 writes for the first time. *)
Lemma resolve_creates_once_witness :
  exists s1,
    resolve healthy DM (dm_from 7 "hi") idle = (Val "thread_new", s1) /\
    count is_create (trace s1) = 1%nat /\
    user_threads s1 = <[ 7 := "thread_new" ]> ∅ /\
    disk s1 = Json (JObject [("7", "thread_new")]) /\
    resolve healthy DM (dm_from 7 "hi") s1 = (Val "thread_new", s1).
Proof.
  destruct (resolve_creates_once healthy DM (dm_from 7 "hi") idle
              "thread_new") as (s1 & Hr & Hn & _ & Hu & _ & _ & Hd & Hagain);
    [reflexivity | reflexivity | discriminate |].
  exists s1. split; [exact Hr|]. split; [exact Hn|]. split; [exact Hu|].
  split; [|exact Hagain].
  rewrite Hd, Hu. reflexivity.
Defined.

(** User 7 has an entry, but it holds the empty string. *)
Lemma resolve_by_truthiness_witness :
  exists s1,
    resolve healthy DM (dm_from 7 "hi") holds_empty_entry
    = (Val "thread_new", s1) /\
    count is_create (trace s1) = 1%nat /\
    user_threads s1 !! 7 = Some "thread_new".
Proof.
  destruct (resolve_by_truthiness healthy DM (dm_from 7 "hi")
              holds_empty_entry) as [Hempty _].
  destruct (Hempty eq_refl) as (s1 & _ & Hn & H).
  destruct (H "thread_new" eq_refl) as [Hr Hu].
  exists s1. split; [exact Hr|]. split; [exact Hn|].
  rewrite Hu. reflexivity.
Defined.

(** Were the API to issue the empty string as an identifier, it would be
    stored and then, being false, taken for absent: the next message would
    create a thread again.  Hence the non-empty identifier in C1 and C2. *)
Example empty_identifier_is_recreated :
  let '(r1, s1) := resolve issues_empty DM (dm_from 7 "hi") idle in
  let '(r2, s2) := resolve issues_empty DM (dm_from 7 "hi") s1 in
  r1 = Val "" /\ user_threads s1 !! 7 = Some "" /\
  r2 = Val "" /\ count is_create (trace s2) = 2%nat.
Proof. vm_compute. repeat split. Qed.

(** ** The polling loop *)

Example needed_at_start : needed 0 = 81%nat.
Proof. reflexivity. Qed.

Lemma needed_step (e e1 : Z) :
  e + 1500 <= e1 -> e1 <= 120000 -> (S (needed e1) <= needed e)%nat.
Proof.
  intros H1 H2. unfold needed.
  assert (0 <= (120000 - e1) / 1500) by (apply Z.div_pos; lia).
  assert ((120000 - e1) / 1500 + 1 <= (120000 - e) / 1500).
  { replace ((120000 - e1) / 1500 + 1) with ((120000 - e1 + 1 * 1500) / 1500)
      by (rewrite Z.div_add; lia).
    apply Z.div_le_mono; lia. }
  lia.
Qed.

Section Poll.

Variable E : environment.
Variables (ctx : context) (m : inbound) (thread_id : string).

Lemma timed_out_spec (r : run) (s : state) :
  exists s',
    timed_out E ctx m thread_id r s = (Done Timeout, s') /\
    same_store s s' /\
    calls s' = S (calls s) /\
    clock s' = clock s + Z.of_N (latency E (calls s)) /\
    trace s' = (trace s ++ [timed_out_warning ctx;
                            EvRunsCancel thread_id (run_id r);
                            cancel_log (runs_cancel E (calls s));
                            EvSend (took_too_long ctx m)])%list.
Proof.
  unfold timed_out, request. unfold_prog. simpl.
  destruct (runs_cancel E (calls s)); simpl;
    eexists; (split; [reflexivity|]); simpl;
    rewrite <- ?app_assoc; repeat split; done.
Qed.

Lemma poll_step (fuel : nat) (start_time : Z) (r : run) (s : state) :
  poll E (S fuel) ctx m thread_id start_time r s
  = if in_flight (status r) then
      match runs_retrieve E (calls s) with
      | Returns r' =>
          if (120000 <? clock (polled E thread_id r s) - start_time)%Z
          then timed_out E ctx m thread_id r' (polled E thread_id r s)
          else poll E fuel ctx m thread_id start_time r' (polled E thread_id r s)
      | Raises e => (Exc e, polled E thread_id r s)
      end
    else (Val r, s).
Proof.
  simpl. destruct (in_flight (status r)); [|done].
  unfold request, polled. unfold_prog. simpl.
  destruct (runs_retrieve E (calls s)); simpl; [|done].
  by destruct (120000 <? _)%Z.
Qed.

Lemma poll_stop (fuel : nat) (start_time : Z) (r : run) (s : state) :
  in_flight (status r) = false ->
  poll E fuel ctx m thread_id start_time r s = (Val r, s).
Proof. intros H. destruct fuel; simpl; by rewrite H. Qed.

Lemma polled_facts (r : run) (s : state) :
  same_store s (polled E thread_id r s) /\
  calls (polled E thread_id r s) = S (calls s) /\
  clock (polled E thread_id r s)
  = clock s + 1500 + Z.of_N (oversleep E (length (trace s)))
    + Z.of_N (latency E (calls s)) /\
  trace (polled E thread_id r s)
  = ((trace s ++ [EvSleep 1500]) ++ [EvRunsRetrieve thread_id (run_id r)])%list.
Proof. repeat split. simpl. lia. Qed.

Lemma poll_spec (start_time : Z) (fuel : nat) :
  forall (r : run) (s : state),
    clock s - start_time <= 120000 ->
    (needed (clock s - start_time) <= fuel)%nat ->
    exists res s',
      poll E fuel ctx m thread_id start_time r s = (res, s') /\
      poll_post E ctx m thread_id start_time s res s'.
Proof.
  induction fuel as [|fuel IH]; intros r s Hle Hfuel.
  { unfold needed in Hfuel. lia. }
  rewrite poll_step.
  destruct (in_flight (status r)) eqn:Hfl.
  2:{ exists (Val r), s. split; [done|].
      split; [apply same_store_refl|]. split; [lia|]. by repeat split. }
  destruct (polled_facts r s) as (Hst & Hc & Hclk & Htr).
  assert (Hcr : count is_retrieve (trace (polled E thread_id r s))
                = S (count is_retrieve (trace s)))
    by (rewrite Htr, !count_snoc; simpl; lia).
  assert (Hcc : count is_cancel (trace (polled E thread_id r s))
                = count is_cancel (trace s))
    by (rewrite Htr, !count_snoc; simpl; lia).
  destruct (runs_retrieve E (calls s)) as [r'|e].
  2:{ exists (Exc e), (polled E thread_id r s). split; [done|].
      split; [exact Hst|]. unfold needed. split; [lia|]. split; [lia|].
      exists (trace s), (run_id r). split; [by rewrite Htr, <- app_assoc|].
      rewrite Hc, Hclk. simpl. lia. }
  destruct (Z.ltb_spec 120000 (clock (polled E thread_id r s) - start_time)) as [Hlate|Hok].
  - destruct (timed_out_spec r' (polled E thread_id r s))
      as (s' & Hrun & Hst' & Hc' & Hclk' & Htr').
    exists (Done Timeout), s'. split; [exact Hrun|].
    split; [by eapply same_store_trans|].
    assert (Hpred : Nat.pred (calls s') = calls (polled E thread_id r s))
      by (rewrite Hc'; done).
    split.
    { rewrite Htr', count_app, Hcr. unfold count at 2, needed. simpl.
      destruct (runs_cancel E _); simpl; lia. }
    split; [done|]. split.
    { rewrite Htr', count_app, Hcc. unfold count at 2. simpl.
      destruct (runs_cancel E _); simpl; lia. }
    exists (trace s), (run_id r), (run_id r'). split.
    { rewrite Htr', Htr, Hpred. by rewrite <- !app_assoc. }
    rewrite Hpred, Hclk', Hc. simpl. lia.
  - pose proof (needed_step (clock s - start_time)
                  (clock (polled E thread_id r s) - start_time)) as Hn.
    destruct (IH r' (polled E thread_id r s)) as (res & s' & Hrun & Hpost); [lia|lia|].
    exists res, s'. split; [exact Hrun|].
    destruct Hpost as (Hst' & Hret & Hres).
    split; [by eapply same_store_trans|].
    split; [lia|].
    destruct res as [r''|e|o|]; [| | |done].
    + destruct Hres as (? & Hcan & ?). repeat split; [done|lia|done].
    + destruct Hres as (Hcan & ?). split; [lia|done].
    + destruct Hres as (? & Hcan & ?). repeat split; [done|lia|done].
Qed.

(** More fuel does not change the result of a loop that ended. *)
Lemma poll_fuel (start_time : Z) (fuel : nat) :
  forall (r : run) (s : state) res s',
    poll E fuel ctx m thread_id start_time r s = (res, s') ->
    res <> Hang ->
    forall fuel', (fuel <= fuel')%nat ->
      poll E fuel' ctx m thread_id start_time r s = (res, s').
Proof.
  induction fuel as [|fuel IH]; intros r s res s' Hrun Hres fuel' Hle.
  - simpl in Hrun. destruct (in_flight (status r)) eqn:Hfl.
    + injection Hrun as <- <-. done.
    + by rewrite poll_stop.
  - destruct fuel' as [|fuel']; [lia|].
    rewrite poll_step in *.
    destruct (in_flight (status r)); [|done].
    destruct (runs_retrieve E (calls s)) as [r'|e]; [|done].
    destruct (120000 <? _)%Z; [done|].
    apply (IH _ _ _ _ Hrun Hres). lia.
Qed.

End Poll.

(** The loop never touches the Session Store, whatever the fuel. *)
Lemma poll_frame E ctx m thread_id start_time (fuel : nat) :
  forall r s res s',
    poll E fuel ctx m thread_id start_time r s = (res, s') ->
    same_store s s'.
Proof.
  induction fuel as [|fuel IH]; intros r s res s' Hrun.
  - simpl in Hrun. destruct (in_flight (status r));
      injection Hrun as <- <-; apply same_store_refl.
  - rewrite poll_step in Hrun.
    destruct (in_flight (status r)).
    2:{ injection Hrun as <- <-. apply same_store_refl. }
    destruct (runs_retrieve E (calls s)) as [r'|e].
    2:{ injection Hrun as <- <-. by repeat split. }
    destruct (120000 <? _)%Z.
    + destruct (timed_out_spec E ctx m thread_id r' (polled E thread_id r s))
        as (s2 & Hrun2 & Hst & _).
      rewrite Hrun2 in Hrun. injection Hrun as <- <-.
      eapply same_store_trans; [|exact Hst]. by repeat split.
    + eapply same_store_trans; [|exact (IH _ _ _ _ Hrun)]. by repeat split.
Qed.



(** ** One run cycle and the Session Store *)

Section Cycle.

Variable E : environment.
Variable ASSISTANT_ID : string.

Lemma same_store_charge ev s : same_store s (charge E ev s).
Proof. by repeat split. Qed.

Lemma request_cases {A} ev (answer : nat -> reply A) s :
  (exists a, answer (calls s) = Returns a /\
             request E ev answer s = (Val a, charge E ev s)) \/
  (exists e, answer (calls s) = Raises e /\
             request E ev answer s = (Exc e, charge E ev s)).
Proof.
  unfold request. destruct (answer (calls s)) as [a|e]; [left|right]; eauto.
Qed.

Lemma send_response_frame ctx m full s :
  exists s', send_response E ctx m full s = (Val tt, s') /\ same_store s s'.
Proof.
  unfold send_response. destruct ctx.
  - destruct (_ <=? _)%nat.
    + eexists. split; [reflexivity|]. by repeat split.
    + destruct (send_parts_spec E (parts full) s) as (s' & -> & Hst & _).
      by exists s'.
  - destruct (_ <=? _)%nat.
    + eexists. split; [reflexivity|]. by repeat split.
    + unfold_prog. simpl.
      destruct (send_parts_spec E (parts full)
                  (emit (EvSend (author_mention m +:+ " ")) s))
        as (s' & -> & Hst & _).
      exists s'. split; [done|]. destruct Hst as (? & ? & ?).
      by repeat split.
Qed.

Lemma reset_thread_total ctx m s :
  exists s', reset_thread E ctx m s = (Val tt, s').
Proof.
  unfold reset_thread, save_threads, write_file, request. unfold_prog. simpl.
  destruct (user_threads s !! author_id m) as [[|a t]|]; simpl;
    destruct (disk_write E (saves s)); simpl;
    destruct (threads_delete E (calls s)) as [[|]|[]]; simpl;
    eexists; reflexivity.
Qed.

Lemma reset_prelude_counts ctx w :
  count is_delete (reset_prelude ctx w) = 0%nat /\
  count is_create (reset_prelude ctx w) = 0%nat.
Proof. by destruct w. Qed.

(** Resetting the thread of a user whose entry holds [tid]. *)
Lemma reset_thread_spec ctx m s tid :
  user_threads s !! author_id m = Some tid -> tid <> "" ->
  exists s',
    reset_thread E ctx m s = (Val tt, s') /\
    user_threads s' = delete (author_id m) (user_threads s) /\
    saves s' = S (saves s) /\
    disk s' = match disk_write E (saves s) with
              | WriteOk => Json (dump (user_threads s'))
              | OpenFails => disk s
              | DumpFails => BadJson
              end /\
    calls s' = S (calls s) /\
    trace s' = (trace s ++ reset_prelude ctx (disk_write E (saves s))
                ++ [EvThreadsDelete tid;
                    delete_log (threads_delete E (calls s));
                    EvSend (reset_message ctx m)])%list.
Proof.
  intros Hl Hne. destruct tid as [|a t]; [done|].
  destruct (reset_thread E ctx m s) as [r s'] eqn:Hr. exists s'.
  revert Hr.
  unfold reset_thread, save_threads, write_file, request. unfold_prog.
  cbn -[lookup delete]. rewrite Hl. simpl.
  destruct (disk_write E (saves s)) eqn:Hw; simpl;
    destruct (threads_delete E (calls s)) as [[|]|[]] eqn:Hd; simpl;
    intros [= <- <-]; simpl; rewrite <- ?app_assoc; simpl;
    rewrite ?Hw; repeat split; reflexivity.
Qed.

End Cycle.

Section Frame.

Variable E : environment.
Variable ASSISTANT_ID : string.

(** Step 5 touches the Session Store only to reset the thread. *)
Lemma deliver_frame ctx m thread_id r s res s' :
  deliver E ctx m thread_id r s = (res, s') ->
  res <> Val EmptyReply ->
  same_store s s'.
Proof.
  unfold deliver. intros Hrun Hres.
  destruct (String.eqb (status r) "completed").
  - revert Hrun. unfold_prog.
    destruct (request_cases E (EvMessagesList thread_id) (messages_list E) s)
      as [(data & _ & ->)|(e & _ & ->)].
    2:{ intros [= <- <-]. apply same_store_charge. }
    destruct (collect (run_id r) data) as [|x l].
    + destruct (reset_thread_total E ctx m
                  (charge E (EvMessagesList thread_id) s)) as (s2 & ->).
      intros [= <- <-]. done.
    + simpl.
      match goal with
      | |- context [send_response E ctx m ?f ?st] =>
          destruct (send_response_frame E ctx m f st) as (s2 & -> & Hst)
      end.
      intros [= <- <-]. destruct Hst as (? & ? & ?). by repeat split.
  - destruct (String.eqb (status r) "requires_action").
    { revert Hrun. unfold_prog. simpl. intros [= <- <-]. by repeat split. }
    destruct (String.eqb (status r) "failed");
      revert Hrun; unfold_prog; simpl; intros [= <- <-]; by repeat split.
Qed.

Lemma start_run_frame fuel ctx m thread_id text s res s' :
  start_run E ASSISTANT_ID fuel ctx m thread_id text s = (res, s') ->
  same_store s s'.
Proof.
  unfold start_run. unfold_prog.
  destruct (request_cases E (EvMessagesCreate thread_id text)
              (messages_create E) s) as [(a & _ & ->)|(e & _ & ->)].
  2:{ intros [= <- <-]. apply same_store_charge. }
  destruct (request_cases E (EvRunsCreate thread_id ASSISTANT_ID)
              (runs_create E) (charge E (EvMessagesCreate thread_id text) s))
    as [(r & _ & ->)|(e & _ & ->)].
  2:{ intros [= <- <-]. by repeat split. }
  intros Hpoll. apply poll_frame in Hpoll.
  destruct Hpoll as (? & ? & ?). by repeat split.
Qed.

(** C6. A run cycle that ends with [Timeout], [RequiresAction],
    [RunFailed] or [RunUnhandledStatus] leaves [user_threads] and the file
    as they were and makes no attempt to rewrite the file; in particular the
    user's entry is what it was before the cycle. *)
Theorem failed_cycle_keeps_store fuel ctx m thread_id text s res s' o :
  execute E ASSISTANT_ID fuel ctx m thread_id text s = (res, s') ->
  ended res = Some o ->
  o = Timeout \/ o = RequiresAction \/ o = RunFailed
  \/ o = RunUnhandledStatus ->
  user_threads s' = user_threads s /\
  disk s' = disk s /\
  saves s' = saves s /\
  user_threads s' !! author_id m = user_threads s !! author_id m.
Proof.
  intros Hrun Hend Ho.
  assert (Hst : same_store s s').
  { revert Hrun. unfold execute. unfold mbind, M_bind, bind.
    destruct (start_run E ASSISTANT_ID fuel ctx m thread_id text s)
      as [r1 s1] eqn:Hstart.
    apply start_run_frame in Hstart.
    destruct r1 as [r|e|o1|]; try (intros [= <- <-]; exact Hstart).
    intros Hdel. eapply same_store_trans; [exact Hstart|].
    apply (deliver_frame _ _ _ _ _ _ _ Hdel).
    intros ->. simpl in Hend. injection Hend as <-.
    destruct Ho as [|[|[|]]]; discriminate. }
  destruct Hst as (Hu & Hd & Hs). rewrite Hu. done.
Qed.

End Frame.

(** ** An empty reply resets the thread *)

Section Reset.

Variable E : environment.
Variable ASSISTANT_ID : string.

(** After [resolve] the user's entry is the thread it returned. *)
Lemma resolve_post ctx m s tid s1 :
  resolve E ctx m s = (Val tid, s1) ->
  user_threads s1 !! author_id m = Some tid.
Proof.
  intros Hr.
  destruct (truthy (user_threads s !! author_id m)) eqn:Ht.
  - apply truthy_spec in Ht as (tid' & Hl & Hne).
    rewrite (resolve_truthy E ctx m s tid' Hl Hne) in Hr.
    by injection Hr as <- <-.
  - destruct (resolve_falsy E ctx m s Ht) as (s2 & _ & _ & _ & H).
    destruct (threads_create E (calls s)) as [tid'|e].
    + destruct H as (H & Hu & _). rewrite H in Hr. injection Hr as <- <-.
      rewrite Hu. apply lookup_insert_eq.
    + destruct H as (H & _). rewrite H in Hr. discriminate.
Qed.

(** C2. The handler resolved the user's thread [tid] (an identifier as the
    API issues them), posted the text and polled the run to [completed], and
    the message list holds no text of this run.  Then step 5 removes the
    user's entry, runs [save_threads] on the smaller dictionary (the file
    then holds it, when the write goes through), makes exactly one delete
    request, for [tid], whose answer (deleted or not, not found, any other
    error) is only logged, and ends with [EmptyReply] after sending the
    context-was-reset message.  The user's next message finds no entry: a
    create request is made and its identifier becomes the user's thread. *)
Theorem empty_reply_resets_thread fuel ctx m text s0 tid s1 r s2 data :
  resolve E ctx m s0 = (Val tid, s1) ->
  tid <> "" ->
  start_run E ASSISTANT_ID fuel ctx m tid text s1 = (Val r, s2) ->
  status r = "completed" ->
  messages_list E (calls s2) = Returns data ->
  collect (run_id r) data = [] ->
  exists s3,
    deliver E ctx m tid r s2 = (Val EmptyReply, s3) /\
    user_threads s3 = delete (author_id m) (user_threads s2) /\
    user_threads s3 !! author_id m = None /\
    saves s3 = S (saves s2) /\
    disk s3 = match disk_write E (saves s2) with
              | WriteOk => Json (dump (user_threads s3))
              | OpenFails => disk s2
              | DumpFails => BadJson
              end /\
    count is_delete (trace s3) = S (count is_delete (trace s2)) /\
    trace s3 = (trace s2 ++ [EvMessagesList tid]
                ++ reset_prelude ctx (disk_write E (saves s2))
                ++ [EvThreadsDelete tid;
                    delete_log (threads_delete E (S (calls s2)));
                    EvSend (reset_message ctx m)])%list /\
    (forall ctx' tid', threads_create E (calls s3) = Returns tid' ->
       exists s4,
         resolve E ctx' m s3 = (Val tid', s4) /\
         count is_create (trace s4) = S (count is_create (trace s3)) /\
         user_threads s4 !! author_id m = Some tid').
Proof.
  intros Hres Hne Hstart Hdone Hlist Hnone.
  pose proof (resolve_post ctx m s0 tid s1 Hres) as Hentry.
  destruct (start_run_frame E ASSISTANT_ID _ _ _ _ _ _ _ _ Hstart)
    as (Hu & _ & _).
  rewrite <- Hu in Hentry.
  destruct (reset_thread_spec E ctx m (charge E (EvMessagesList tid) s2) tid
              Hentry Hne) as (s3 & Hreset & Hu3 & Hs3 & Hd3 & Hc3 & Ht3).
  cbn [charge saves calls trace disk user_threads] in Hu3, Hs3, Hd3, Hc3, Ht3.
  exists s3.
  assert (Hfresh : user_threads s3 !! author_id m = None).
  { rewrite Hu3. apply lookup_delete_eq. }
  split.
  { unfold deliver. rewrite Hdone. simpl. unfold request.
    unfold mbind, M_bind, bind. rewrite Hlist, Hnone.
    unfold mbind, M_bind, bind. by rewrite Hreset. }
  split; [exact Hu3|]. split; [exact Hfresh|]. split; [exact Hs3|].
  split; [exact Hd3|]. split.
  { rewrite Ht3, !count_app.
    destruct (reset_prelude_counts ctx (disk_write E (saves s2))) as [-> _].
    unfold count at 2 3. simpl.
    destruct (threads_delete E (S (calls s2))) as [[|]|[]]; simpl; lia. }
  split.
  { rewrite Ht3. by rewrite <- !app_assoc. }
  intros ctx' tid' Hcreate.
  destruct (resolve_falsy E ctx' m s3) as (s4 & _ & Hn & _ & H).
  { by rewrite Hfresh. }
  rewrite Hcreate in H. destruct H as (Hr & Hu4 & _).
  exists s4. split; [exact Hr|]. split; [exact Hn|].
  rewrite Hu4. apply lookup_insert_eq.
Qed.

End Reset.

(** User 7 writes, the run completes, and the thread holds no answer. *)
Lemma empty_reply_resets_thread_witness :
  exists s3,
    deliver silent DM (dm_from 7 "hi") "thread_1"
      (mkRun "run_1" "completed" None) silent_polled
    = (Val EmptyReply, s3) /\
    user_threads s3 = ∅ /\
    disk s3 = Json (JObject []) /\
    count is_delete (trace s3) = 1%nat /\
    last (trace s3) = Some (EvSend reset_text).
Proof.
  destruct (empty_reply_resets_thread silent "asst_1" 81 DM (dm_from 7 "hi")
              "hi" idle "thread_1" silent_resolved
              (mkRun "run_1" "completed" None) silent_polled
              [mkMessage "user" None [mkBlock "text" "hi"]])
    as (s3 & Hrun & Hu & _ & _ & Hd & Hn & Ht & _);
    [vm_compute; reflexivity | discriminate | vm_compute; reflexivity
    | reflexivity | reflexivity | reflexivity |].
  exists s3. split; [exact Hrun|].
  split; [rewrite Hu; vm_compute; reflexivity|].
  split; [rewrite Hd, Hu; vm_compute; reflexivity|].
  split; [rewrite Hn; vm_compute; reflexivity|].
  rewrite Ht. vm_compute. reflexivity.
Defined.

(** The same cycle, seen from [on_message]. *)
Example empty_reply_on_message :
  let '(res, s) := on_message silent "asst_1" 99 81 (dm_from 7 "hi") idle in
  res = Val EmptyReply /\ user_threads s = ∅ /\ disk s = Json (JObject []) /\
  count is_create (trace s) = 1%nat /\ count is_delete (trace s) = 1%nat /\
  sent (trace s) = [reset_text].
Proof. vm_compute. repeat split. Qed.

(** A run that stays queued until the deadline. *)
Lemma failed_cycle_keeps_store_witness :
  exists s',
    execute slow "asst_1" 81 DM (dm_from 7 "hi") "thread_1" "hi" has_thread
    = (Done Timeout, s') /\
    user_threads s' = user_threads has_thread /\
    disk s' = disk has_thread /\
    user_threads s' !! 7 = Some "thread_1".
Proof.
  pose (s' := (execute slow "asst_1" 81 DM (dm_from 7 "hi") "thread_1" "hi"
                 has_thread).2).
  destruct (failed_cycle_keeps_store slow "asst_1" 81 DM (dm_from 7 "hi")
              "thread_1" "hi" has_thread (Done Timeout) s' Timeout)
    as (Hu & Hd & _ & Hl);
    [vm_compute; reflexivity | reflexivity | by left |].
  exists s'. split; [vm_compute; reflexivity|].
  split; [exact Hu|]. split; [exact Hd|]. exact Hl.
Defined.

(** ** Extracting the reply *)

(** queued -> completed with the one segment "hello": the reply is exactly
    "hello" and the Session Store is not touched. *)
Example hello_cycle :
  let '(res, s) :=
    execute answers_hello "asst_1" 81 DM (dm_from 7 "hi") "thread_1" "hi"
            has_thread in
  res = Val Replied /\ sent (trace s) = ["hello"] /\
  user_threads s = user_threads has_thread /\ disk s = disk has_thread /\
  saves s = saves has_thread.
Proof. vm_compute. repeat split. Qed.

Lemma scan_scanned (rid : string) (msgs : list message) (acc : list string) :
  scan rid msgs acc
  = (acc ++ flat_map text_blocks
              (List.filter (matching rid) (scanned rid msgs)))%list.
Proof.
  revert acc. induction msgs as [|msg older IH]; intros acc; simpl.
  - by rewrite app_nil_r.
  - fold (matching rid msg). fold (boundary rid msg).
    destruct (boundary rid msg) eqn:Hb; simpl.
    + destruct (matching rid msg); simpl; by rewrite ?app_nil_r.
    + rewrite IH. destruct (matching rid msg); simpl; [|done].
      by rewrite <- app_assoc.
Qed.

Lemma rev_flat_map {A B} (f : A -> list B) (l : list A) :
  rev (flat_map f l) = flat_map (fun x => rev (f x)) (rev l).
Proof.
  induction l as [|x l IH]; simpl; [done|].
  by rewrite rev_app_distr, IH, flat_map_app; simpl; rewrite app_nil_r.
Qed.

(** What the code computes: the right messages in the right order, but the
    segments of each message back to front. *)
Lemma full_response_spec (rid : string) (data : list message) :
  full_response_of (collect rid data)
  = Py.join newline
      (flat_map (fun msg => rev (text_blocks msg))
         (rev (List.filter (matching rid) (scanned rid (rev data))))).
Proof.
  unfold full_response_of, collect. rewrite scan_scanned. simpl.
  by rewrite rev_flat_map.
Qed.

(** With at most one text segment per message the code computes the reply
    of the specification. *)
Lemma full_response_chronological (rid : string) (data : list message) :
  Forall (fun msg => (length (text_blocks msg) <= 1)%nat) data ->
  full_response_of (collect rid data) = chronological_reply rid data.
Proof.
  intros Hone. rewrite full_response_spec. unfold chronological_reply.
  f_equal.
  assert (Hsub : Forall (fun msg => rev (text_blocks msg) = text_blocks msg)
                   (rev (List.filter (matching rid) (scanned rid (rev data))))).
  { apply Forall_forall. intros msg Hin.
    apply list_elem_of_In, in_rev, filter_In in Hin as [Hin _].
    assert (Hd : In msg (rev data)).
    { clear -Hin. induction (rev data) as [|x l IH]; simpl in *; [done|].
      destruct (boundary rid x); simpl in Hin; tauto. }
    apply in_rev in Hd.
    pose proof (proj1 (List.Forall_forall _ _) Hone msg Hd) as Hlen. simpl in Hlen.
    destruct (text_blocks msg) as [|a [|b l]]; simpl in *; [done|done|lia]. }
  induction Hsub as [|msg l Hmsg _ IH]; simpl; [done|].
  by rewrite Hmsg, IH.
Qed.

(** C3, where the code departs from it.  For one assistant message with the
    text segments "first" and "second", the reply of the specification is
    "first", newline, "second"; the code sends "second", newline,
    "first". *)
Theorem reply_segments_reversed :
  let data :=
    [mkMessage "user" None [mkBlock "text" "hi"];
     mkMessage "assistant" (Some "run_1")
       [mkBlock "text" "first"; mkBlock "text" "second"]] in
  let '(res, s) :=
    execute answers_in_two_blocks "asst_1" 81 DM (dm_from 7 "hi")
            "thread_1" "hi" has_thread in
  collect "run_1" data = ["first"; "second"] /\
  chronological_reply "run_1" data = "first" +:+ newline +:+ "second" /\
  full_response_of (collect "run_1" data)
  = "second" +:+ newline +:+ "first" /\
  res = Val Replied /\
  sent (trace s) = ["second" +:+ newline +:+ "first"] /\
  sent (trace s) <> [chronological_reply "run_1" data].
Proof. vm_compute. repeat split. discriminate. Qed.

(** ** Messages without text *)

(** A mention in a server channel with nothing but the mention: the bot asks
    what is needed and stops; no request goes out and the Session Store is
    not looked at. *)
Lemma empty_mention_prompts E ASSISTANT_ID bot_id fuel (m : inbound) s :
  from_self m = false -> in_guild m = true -> mentions_bot m = true ->
  mention_everyone m = false ->
  actual_content_of bot_id m = "" ->
  on_message E ASSISTANT_ID bot_id fuel m s
  = (Val Prompted,
     emit (EvSend ("Hi " +:+ author_mention m +:+ ", did you need something?"))
          (emit received_mention s)).
Proof.
  intros Hself Hguild Hmention Hevery Hempty.
  unfold on_message, handler.
  rewrite Hself, Hguild, Hmention, Hevery. simpl.
  unfold_prog. simpl. by rewrite Hempty.
Qed.

Example empty_mention_example :
  let '(res, s) :=
    on_message answers_hello "asst_1" 99 81 (mention_from 7 " <@99>  ") idle in
  res = Val Prompted /\ calls s = 0%nat /\ user_threads s = ∅ /\
  sent (trace s) = ["Hi <@7>, did you need something?"].
Proof. vm_compute. repeat split. Qed.

(** C9, where the code departs from it.  A direct message without text
    (an attachment alone, say) from a user with no thread is not answered
    with a prompt: a thread is created and stored, the empty text is posted
    to it, a run is started and polled, and its answer is relayed. *)
Theorem empty_dm_is_processed :
  let '(res, s) :=
    on_message answers_hello "asst_1" 99 81 (dm_from 7 "") idle in
  res = Val Replied /\
  count is_create (trace s) = 1%nat /\
  user_threads s !! 7 = Some "thread_1" /\
  In (EvMessagesCreate "thread_1" "") (trace s) /\
  In (EvRunsCreate "thread_1" "asst_1") (trace s) /\
  sent (trace s) = ["hello"].
Proof. vm_compute. repeat split; tauto. Qed.

(** ** The handler always ends *)

Section Totality.

Variable E : environment.
Variable ASSISTANT_ID : string.
Variable bot_id : Z.

Lemma start_run_terminates ctx m thread_id text s :
  exists res s', finished res /\
    forall fuel, (81 <= fuel)%nat ->
      start_run E ASSISTANT_ID fuel ctx m thread_id text s = (res, s').
Proof.
  unfold start_run. unfold_prog.
  destruct (request_cases E (EvMessagesCreate thread_id text)
              (messages_create E) s) as [(a & _ & ->)|(e & _ & ->)].
  2:{ by exists (Exc e), (charge E (EvMessagesCreate thread_id text) s). }
  destruct (request_cases E (EvRunsCreate thread_id ASSISTANT_ID)
              (runs_create E) (charge E (EvMessagesCreate thread_id text) s))
    as [(r & _ & ->)|(e & _ & ->)].
  2:{ by eexists (Exc e), _. }
  set (s2 := charge E (EvRunsCreate thread_id ASSISTANT_ID)
               (charge E (EvMessagesCreate thread_id text) s)).
  change (clock s + Z.of_N (latency E (calls s))
          + Z.of_N (latency E (S (calls s)))) with (clock s2).
  destruct (poll_spec E ctx m thread_id (clock s2) 81 r s2)
    as (res & s' & Hrun & _ & _ & Hres).
  { lia. }
  { replace (clock s2 - clock s2) with 0 by lia. done. }
  assert (Hfin : res <> Hang) by (by destruct res).
  exists res, s'. split; [by destruct res|].
  intros fuel Hfuel.
  by apply (poll_fuel E ctx m thread_id _ 81).
Qed.

Lemma deliver_finished ctx m thread_id r s :
  finished (deliver E ctx m thread_id r s).1.
Proof.
  unfold deliver.
  destruct (String.eqb (status r) "completed").
  - unfold_prog.
    destruct (request_cases E (EvMessagesList thread_id) (messages_list E) s)
      as [(data & _ & ->)|(e & _ & ->)]; [|done].
    destruct (collect (run_id r) data) as [|x l].
    + by destruct (reset_thread_total E ctx m
                     (charge E (EvMessagesList thread_id) s)) as (s2 & ->).
    + simpl.
      match goal with
      | |- context [send_response E ctx m ?f ?st] =>
          destruct (send_response_frame E ctx m f st) as (s2 & -> & _)
      end.
      done.
  - destruct (String.eqb (status r) "requires_action"); [done|].
    by destruct (String.eqb (status r) "failed").
Qed.

Lemma resolve_finished ctx m s : finished (resolve E ctx m s).1.
Proof.
  destruct (truthy (user_threads s !! author_id m)) eqn:Ht.
  - apply truthy_spec in Ht as (tid & Hl & Hne).
    by rewrite (resolve_truthy E ctx m s tid Hl Hne).
  - destruct (resolve_falsy E ctx m s Ht) as (s1 & _ & _ & _ & H).
    destruct (threads_create E (calls s)); destruct H as (-> & _); done.
Qed.

Lemma report_error_returns ctx m e s :
  exists o s', report_error ctx m e s = (Val o, s').
Proof.
  unfold report_error.
  destruct e; simpl; unfold_prog; simpl; by eexists _, _.
Qed.

(** Every call of [on_message] returns, whatever the outside world answers:
    no exception leaves it, and any fuel from 81 on gives the same outcome
    and the same state. *)
Theorem on_message_terminates (m : inbound) (s : state) :
  exists o s', forall fuel, (81 <= fuel)%nat ->
    on_message E ASSISTANT_ID bot_id fuel m s = (Val o, s').
Proof.
  assert (Hassist : forall ctx text s0,
            exists o s', forall fuel, (81 <= fuel)%nat ->
              assist E ASSISTANT_ID fuel ctx m text s0 = (Val o, s')
              \/ assist E ASSISTANT_ID fuel ctx m text s0 = (Done o, s')).
  { intros ctx text s0. unfold assist, execute.
    unfold mbind, M_bind, bind, try_except, modify.
    pose proof (resolve_finished ctx m (emit EvTyping s0)) as Hres.
    destruct (resolve E ctx m (emit EvTyping s0)) as [[tid|e|o|] s1];
      [| | |done].
    - destruct (start_run_terminates ctx m tid text s1)
        as (r & s2 & Hfin & Hfuel).
      destruct r as [r|e|o|]; [| | |done].
      + pose proof (deliver_finished ctx m tid r s2) as Hdel.
        destruct (deliver E ctx m tid r s2) as [[o|e|o|] s3] eqn:Hd;
          [| | |done].
        * exists o, s3. intros fuel Hf. rewrite (Hfuel fuel Hf), Hd. by left.
        * destruct (report_error_returns ctx m e s3) as (o & s4 & Hrep).
          exists o, s4. intros fuel Hf. rewrite (Hfuel fuel Hf), Hd. by left.
        * exists o, s3. intros fuel Hf. rewrite (Hfuel fuel Hf), Hd. by right.
      + destruct (report_error_returns ctx m e s2) as (o & s4 & Hrep).
        exists o, s4. intros fuel Hf. rewrite (Hfuel fuel Hf). by left.
      + exists o, s2. intros fuel Hf. rewrite (Hfuel fuel Hf). by right.
    - destruct (report_error_returns ctx m e s1) as (o & s4 & Hrep).
      exists o, s4. intros fuel Hf. by left.
    - exists o, s1. intros fuel Hf. by right. }
  unfold on_message, handler.
  destruct (from_self m); [by eexists _, _|].
  destruct (in_guild m); simpl.
  - destruct (mentions_bot m); [|by eexists _, _].
    destruct (mention_everyone m); [by eexists _, _|].
    unfold mbind, M_bind, bind, log, send, modify, done.
    destruct (String.eqb (actual_content_of bot_id m) ""); [by eexists _, _|].
    match goal with
    | |- context [assist _ _ _ Guild m (actual_content_of bot_id m) ?st] =>
        destruct (Hassist Guild (actual_content_of bot_id m) st)
          as (o & s' & H)
    end.
    exists o, s'. intros fuel Hf. by destruct (H fuel Hf) as [-> | ->].
  - unfold mbind, M_bind, bind, log, modify.
    match goal with
    | |- context [assist _ _ _ DM m (msg_content m) ?st] =>
        destruct (Hassist DM (msg_content m) st) as (o & s' & H)
    end.
    exists o, s'. intros fuel Hf. by destruct (H fuel Hf) as [-> | ->].
Qed.

End Totality.

(** * Further properties *)

(** ** What every step of the handler preserves *)

Section Steps.

Variable E : environment.
Variable ASSISTANT_ID : string.
Variable bot_id : Z.
Variable U : Z.
Variable R : state -> state -> Prop.

Hypothesis R_refl : forall s, R s s.
Hypothesis R_trans : forall s1 s2 s3, R s1 s2 -> R s2 s3 -> R s1 s3.
Hypothesis R_emit : forall e s, R s (emit e s).
Hypothesis R_sleep : forall ms s, 0 <= ms -> R s (advance ms s).
Hypothesis R_charge : forall ev s, R s (charge E ev s).
Hypothesis R_put : forall tid s,
  R s (save_threads E (set_threads (<[U := tid]> (user_threads s)) s)).2.
Hypothesis R_del : forall s,
  R s (save_threads E (set_threads (delete U (user_threads s)) s)).2.

Lemma save_threads_eq s :
  save_threads E s = (Val tt, (save_threads E s).2).
Proof. by destruct (save_threads_spec E s) as (s2 & -> & _). Qed.

Ltac peel_store :=
  repeat first
    [ apply R_refl
    | eapply R_trans; [|apply R_emit]
    | eapply R_trans; [|apply R_charge]
    | eapply R_trans; [|apply R_sleep; lia]
    | match goal with
      | |- R _ (save_threads E (set_threads (delete U _) ?x)).2 =>
          eapply R_trans; [|exact (R_del x)]
      | |- R _ (save_threads E (set_threads (<[U := ?t]> _) ?x)).2 =>
          eapply R_trans; [|exact (R_put t x)]
      end ].

Ltac peel := peel_store.

Lemma request_R {A} ev (answer : nat -> reply A) s r s' :
  request E ev answer s = (r, s') -> R s s'.
Proof.
  unfold request. destruct (answer (calls s)); intros [= <- <-]; peel.
Qed.

Lemma resolve_R ctx m s r s' :
  author_id m = U -> resolve E ctx m s = (r, s') -> R s s'.
Proof.
  intros HU. destruct (truthy (user_threads s !! author_id m)) eqn:Ht.
  - apply truthy_spec in Ht as (tid & Hl & Hne).
    rewrite (resolve_truthy E ctx m s tid Hl Hne). intros [= <- <-]. peel.
  - unfold resolve, request. unfold_prog. cbv beta iota zeta.
    rewrite Ht, HU.
    destruct (threads_create E _) as [tid|e]; cbv beta iota zeta;
      try rewrite save_threads_eq; cbv beta iota zeta;
      intros [= <- <-]; peel.
Qed.

Lemma timed_out_R ctx m thread_id r0 s r s' :
  timed_out E ctx m thread_id r0 s = (r, s') -> R s s'.
Proof.
  unfold timed_out, request. unfold_prog. cbv beta iota zeta.
  destruct (runs_cancel E _); cbv beta iota zeta; intros [= <- <-]; peel.
Qed.

Lemma poll_R ctx m thread_id start_time (fuel : nat) :
  forall r0 s r s',
    poll E fuel ctx m thread_id start_time r0 s = (r, s') -> R s s'.
Proof.
  induction fuel as [|fuel IH]; intros r0 s r s' Hrun.
  - simpl in Hrun. destruct (in_flight (status r0));
      injection Hrun as <- <-; peel.
  - rewrite poll_step in Hrun.
    destruct (in_flight (status r0)).
    2:{ injection Hrun as <- <-. peel. }
    assert (Hp : R s (polled E thread_id r0 s)) by (unfold polled; peel).
    destruct (runs_retrieve E (calls s)) as [r1|e].
    2:{ by injection Hrun as <- <-. }
    destruct (120000 <? _)%Z.
    + eapply R_trans; [exact Hp|]. by eapply timed_out_R.
    + eapply R_trans; [exact Hp|]. by eapply IH.
Qed.

Lemma start_run_R fuel ctx m thread_id text s r s' :
  start_run E ASSISTANT_ID fuel ctx m thread_id text s = (r, s') -> R s s'.
Proof.
  unfold start_run. unfold_prog.
  destruct (request_cases E (EvMessagesCreate thread_id text)
              (messages_create E) s) as [(a & _ & ->)|(e & _ & ->)].
  2:{ intros [= <- <-]. peel. }
  destruct (request_cases E (EvRunsCreate thread_id ASSISTANT_ID)
              (runs_create E) (charge E (EvMessagesCreate thread_id text) s))
    as [(r1 & _ & ->)|(e & _ & ->)].
  2:{ intros [= <- <-]. peel. }
  intros Hpoll. apply poll_R in Hpoll.
  eapply R_trans; [|exact Hpoll]. peel.
Qed.

Lemma send_parts_R (ps : list string) :
  forall s r s', send_parts E ps s = (r, s') -> R s s'.
Proof.
  induction ps as [|p ps IH]; intros s r s'; simpl.
  - intros [= <- <-]. peel.
  - unfold_prog. cbv beta iota zeta. intros Hrun. apply IH in Hrun.
    eapply R_trans; [|exact Hrun]. peel.
Qed.

Lemma send_response_R ctx m full s r s' :
  send_response E ctx m full s = (r, s') -> R s s'.
Proof.
  unfold send_response. destruct ctx.
  - destruct (_ <=? _)%nat.
    + unfold_prog. intros [= <- <-]. peel.
    + apply send_parts_R.
  - destruct (_ <=? _)%nat.
    + unfold_prog. intros [= <- <-]. peel.
    + unfold_prog. cbv beta iota zeta. intros Hrun.
      apply send_parts_R in Hrun. eapply R_trans; [|exact Hrun]. peel.
Qed.

Lemma reset_thread_R ctx m s r s' :
  author_id m = U -> reset_thread E ctx m s = (r, s') -> R s s'.
Proof.
  intros HU. unfold reset_thread, request. unfold_prog. cbv beta iota zeta.
  rewrite HU. set (s0 := emit _ s).
  destruct (user_threads s0 !! U) as [[|a t]|]; cbv beta iota zeta;
    try rewrite save_threads_eq; cbn [truthy]; cbv beta iota zeta;
    try (destruct (threads_delete E _) as [[|]|[]]; cbv beta iota zeta);
    intros [= <- <-]; unfold s0; peel_store.
Qed.


Lemma deliver_R ctx m thread_id r0 s r s' :
  author_id m = U -> deliver E ctx m thread_id r0 s = (r, s') -> R s s'.
Proof.
  intros HU. unfold deliver.
  destruct (String.eqb (status r0) "completed").
  - unfold_prog.
    destruct (request_cases E (EvMessagesList thread_id) (messages_list E) s)
      as [(data & _ & ->)|(e & _ & ->)].
    2:{ intros [= <- <-]. peel. }
    destruct (collect (run_id r0) data) as [|x l]; cbv beta iota zeta.
    + destruct (reset_thread E ctx m (charge E (EvMessagesList thread_id) s))
        as [r1 s1] eqn:Hreset.
      apply (reset_thread_R _ _ _ _ _ HU) in Hreset.
      assert (R s s1) by (eapply R_trans; [|exact Hreset]; peel).
      by destruct r1; intros [= <- <-].
    + match goal with
      | |- context [send_response E ctx m ?f ?st] =>
          destruct (send_response E ctx m f st) as [r1 s1] eqn:Hsend
      end.
      apply send_response_R in Hsend.
      assert (R s s1) by (eapply R_trans; [|exact Hsend]; peel).
      by destruct r1; intros [= <- <-].
  - destruct (String.eqb (status r0) "requires_action").
    { unfold_prog. cbv beta iota zeta. intros [= <- <-]. peel. }
    destruct (String.eqb (status r0) "failed");
      unfold_prog; cbv beta iota zeta; intros [= <- <-]; peel.
Qed.

Lemma execute_R fuel ctx m thread_id text s r s' :
  author_id m = U ->
  execute E ASSISTANT_ID fuel ctx m thread_id text s = (r, s') -> R s s'.
Proof.
  intros HU. unfold execute. unfold mbind, M_bind, bind.
  destruct (start_run E ASSISTANT_ID fuel ctx m thread_id text s)
    as [r1 s1] eqn:Hstart.
  apply start_run_R in Hstart.
  destruct r1 as [r1|e|o|]; try (intros [= <- <-]; exact Hstart).
  intros Hdel. apply (deliver_R _ _ _ _ _ _ _ HU) in Hdel.
  by eapply R_trans.
Qed.

Lemma report_error_R ctx m e s r s' :
  report_error ctx m e s = (r, s') -> R s s'.
Proof.
  unfold report_error.
  destruct e; cbn [is_api_error]; unfold_prog; cbv beta iota zeta;
    intros [= <- <-]; peel.
Qed.

Lemma assist_R fuel ctx m text s r s' :
  author_id m = U ->
  assist E ASSISTANT_ID fuel ctx m text s = (r, s') -> R s s'.
Proof.
  intros HU. unfold assist, try_except, modify.
  unfold mbind at 1. unfold M_bind at 1. unfold bind at 1.
  unfold mbind, M_bind, bind.
  destruct (resolve E ctx m (emit EvTyping s)) as [r1 s1] eqn:Hres.
  apply (resolve_R _ _ _ _ _ HU) in Hres.
  assert (H1 : R s s1) by (eapply R_trans; [|exact Hres]; peel).
  destruct r1 as [tid|e|o|].
  - destruct (execute E ASSISTANT_ID fuel ctx m tid text s1)
      as [r2 s2] eqn:Hexec.
    apply (execute_R _ _ _ _ _ _ _ _ HU) in Hexec.
    assert (H2 : R s s2) by (by eapply R_trans).
    destruct r2 as [o|e|o|]; try (by intros [= <- <-]).
    intros Hrep. apply report_error_R in Hrep. by eapply R_trans.
  - intros Hrep. apply report_error_R in Hrep. by eapply R_trans.
  - by intros [= <- <-].
  - by intros [= <- <-].
Qed.

(** Whatever holds of every step holds of a whole call of [on_message]. *)
Lemma on_message_R fuel m s r s' :
  author_id m = U ->
  on_message E ASSISTANT_ID bot_id fuel m s = (r, s') -> R s s'.
Proof.
  intros HU. unfold on_message.
  destruct (handler E ASSISTANT_ID bot_id fuel m s) as [r1 s1] eqn:Hh.
  assert (H1 : R s s1).
  { revert Hh. unfold handler.
    destruct (from_self m); [unfold done; intros [= <- <-]; peel|].
    destruct (in_guild m); cbn [negb].
    - destruct (mentions_bot m); [|unfold_prog; intros [= <- <-]; peel].
      destruct (mention_everyone m); [unfold done; intros [= <- <-]; peel|].
      unfold mbind, M_bind, bind, log, send, modify, done.
      cbv beta iota zeta.
      destruct (String.eqb (actual_content_of bot_id m) "").
      + intros [= <- <-]. peel.
      + intros Ha. apply (assist_R _ _ _ _ _ _ _ HU) in Ha.
        eapply R_trans; [|exact Ha]. peel.
    - unfold mbind, M_bind, bind, log, modify. cbv beta iota zeta.
      intros Ha. apply (assist_R _ _ _ _ _ _ _ HU) in Ha.
      eapply R_trans; [|exact Ha]. peel. }
  by destruct r1; intros [= <- <-].
Qed.

End Steps.

(** ** Sessions of other users, and the file as a mirror of memory *)

Lemma save_threads_trace E s :
  user_threads (save_threads E s).2 = user_threads s /\
  sent (trace (save_threads E s).2) = sent (trace s) /\
  disk (save_threads E s).2
  = match disk_write E (saves s) with
    | WriteOk => Json (dump (user_threads s))
    | OpenFails => disk s
    | DumpFails => BadJson
    end.
Proof.
  unfold save_threads, write_file. unfold_prog.
  destruct (disk_write E (saves s)); simpl; rewrite ?sent_app; simpl;
    rewrite ?app_nil_r; done.
Qed.

(** X2. A message never touches the session of anybody but its author:
    whatever happens in the call, every other user's entry in
    [user_threads] is what it was. *)
Theorem other_users_untouched E ASSISTANT_ID bot_id fuel (m : inbound)
    (s : state) (u : Z) :
  u <> author_id m ->
  user_threads (on_message E ASSISTANT_ID bot_id fuel m s).2 !! u
  = user_threads s !! u.
Proof.
  intros Hu.
  destruct (on_message E ASSISTANT_ID bot_id fuel m s) as [r s'] eqn:Hrun.
  revert u Hu. change (others_kept (author_id m) s s').
  refine (on_message_R E ASSISTANT_ID bot_id (author_id m)
            (others_kept (author_id m))
            _ _ _ _ _ _ _ fuel m s r s' eq_refl Hrun); unfold others_kept.
  - done.
  - intros s1 s2 s3 H12 H23 u Hu. by rewrite H23, H12.
  - done.
  - done.
  - done.
  - intros tid s0 u Hu.
    destruct (save_threads_trace E
                (set_threads (<[author_id m := tid]> (user_threads s0)) s0))
      as (-> & _). simpl. by rewrite lookup_insert_ne.
  - intros s0 u Hu.
    destruct (save_threads_trace E
                (set_threads (delete (author_id m) (user_threads s0)) s0))
      as (-> & _). simpl. by rewrite lookup_delete_ne.
Qed.

(** User 42 gets no answer and loses the thread; user 1085 keeps it. *)
Lemma other_users_untouched_witness :
  let s' := (on_message healthy "asst_1" 99 81 (dm_from 42 "hi") two_users).2 in
  user_threads s' !! 42 = None /\ user_threads s' !! 1085 = Some "thread_a".
Proof.
  split; [vm_compute; reflexivity|].
  rewrite (other_users_untouched healthy "asst_1" 99 81 (dm_from 42 "hi")
             two_users 1085); [vm_compute; reflexivity | discriminate].
Defined.

Lemma recovered_dump (m : gmap Z string) : recovered (Json (dump m)) = m.
Proof. unfold recovered. by rewrite read_dump. Qed.

Lemma in_sync_on_message E ASSISTANT_ID bot_id fuel (m : inbound) (s : state) :
  (forall n, disk_write E n = WriteOk) ->
  in_sync s -> in_sync (on_message E ASSISTANT_ID bot_id fuel m s).2.
Proof.
  intros Hdisk.
  destruct (on_message E ASSISTANT_ID bot_id fuel m s) as [r s'] eqn:Hrun.
  change (in_sync s -> in_sync s').
  refine (on_message_R E ASSISTANT_ID bot_id (author_id m)
            (fun s s' => in_sync s -> in_sync s')
            _ _ _ _ _ _ _ fuel m s r s' eq_refl Hrun); unfold in_sync.
  - done.
  - auto.
  - done.
  - done.
  - done.
  - intros tid s0 _.
    destruct (save_threads_trace E
                (set_threads (<[author_id m := tid]> (user_threads s0)) s0))
      as (-> & _ & ->). rewrite Hdisk. apply recovered_dump.
  - intros s0 _.
    destruct (save_threads_trace E
                (set_threads (delete (author_id m) (user_threads s0)) s0))
      as (-> & _ & ->). rewrite Hdisk. apply recovered_dump.
Qed.

(** X3. On a disk that takes every write the file mirrors memory all along:
    [load_threads] at start-up leaves the two equal, and every message
    handled afterwards keeps them equal.  So after any sequence of messages a
    restart ([load_threads] on whatever memory then holds) finds exactly the
    sessions the process had. *)
Theorem restart_recovers_sessions E ASSISTANT_ID bot_id fuel
    (inbox : list inbound) (s0 : state) (m0 : gmap Z string) :
  (forall n, disk_write E n = WriteOk) ->
  let s := serve E ASSISTANT_ID bot_id fuel inbox (load_threads s0).2 in
  in_sync s /\
  user_threads (load_threads (set_threads m0 s)).2 = user_threads s.
Proof.
  intros Hdisk s.
  assert (Hsync : in_sync s).
  { unfold s, serve.
    assert (Hstart : in_sync (load_threads s0).2).
    { destruct (load_threads_spec s0) as (s1 & -> & Hu & Hd & _).
      unfold in_sync, recovered. simpl. by rewrite Hd, Hu. }
    revert Hstart. generalize (load_threads s0).2.
    induction inbox as [|m inbox IH]; intros s1 Hs1; simpl; [done|].
    apply IH. by apply in_sync_on_message. }
  split; [exact Hsync|].
  destruct (load_threads_spec (set_threads m0 s)) as (s2 & -> & Hu & _).
  simpl in *. rewrite Hu. exact Hsync.
Qed.

(** Three messages of two users on an empty disk, then a restart. *)
Lemma restart_recovers_sessions_witness :
  let s := serve answers_hello "asst_1" 99 81
             [dm_from 7 "hi"; mention_from 8 "<@99> hello"; dm_from 7 "again"]
             (load_threads idle).2 in
  user_threads (load_threads (set_threads ∅ s)).2 = user_threads s /\
  user_threads s !! 7 = Some "thread_1" /\ user_threads s !! 8 = Some "thread_1".
Proof.
  split.
  - apply (restart_recovers_sessions answers_hello "asst_1" 99 81
             [dm_from 7 "hi"; mention_from 8 "<@99> hello"; dm_from 7 "again"]
             idle ∅).
    reflexivity.
  - vm_compute. split; reflexivity.
Defined.

(** ** Every message that is not ignored is answered *)

Section Answers.

Variable E : environment.
Variable ASSISTANT_ID : string.
Variable bot_id : Z.

Lemma grows_refl s : grows s s.
Proof. unfold grows. lia. Qed.

Lemma grows_trans s1 s2 s3 : grows s1 s2 -> grows s2 s3 -> grows s1 s3.
Proof. unfold grows. lia. Qed.

Lemma grows_emit e s : grows s (emit e s).
Proof. unfold grows. simpl. rewrite sent_app, length_app. lia. Qed.

Lemma grows_sleep (ms : Z) s : 0 <= ms -> grows s (advance ms s).
Proof. intros _. unfold grows. simpl. lia. Qed.

Lemma grows_charge ev s : grows s (charge E ev s).
Proof. unfold grows. simpl. rewrite sent_app, length_app. lia. Qed.

Lemma grows_put (U : Z) tid s :
  grows s (save_threads E (set_threads (<[U := tid]> (user_threads s)) s)).2.
Proof.
  unfold grows.
  by destruct (save_threads_trace E
                 (set_threads (<[U := tid]> (user_threads s)) s))
    as (_ & -> & _).
Qed.

Lemma grows_del (U : Z) s :
  grows s (save_threads E (set_threads (delete U (user_threads s)) s)).2.
Proof.
  unfold grows.
  by destruct (save_threads_trace E
                 (set_threads (delete U (user_threads s)) s))
    as (_ & -> & _).
Qed.

Ltac grow :=
  repeat first
    [ apply grows_refl
    | eapply grows_trans; [|apply grows_emit]
    | eapply grows_trans; [|apply grows_charge]
    | eapply grows_trans; [|apply grows_sleep; lia]
    | match goal with
      | |- grows _ (save_threads E (set_threads (delete ?U _) ?x)).2 =>
          eapply grows_trans; [|exact (grows_del U x)]
      | |- grows _ (save_threads E (set_threads (<[?U := ?t]> _) ?x)).2 =>
          eapply grows_trans; [|exact (grows_put U t x)]
      end ].

Lemma answered_send text s : answered s (emit (EvSend text) s).
Proof. unfold answered. simpl. rewrite sent_app, length_app. simpl. lia. Qed.

Lemma grows_answered s1 s2 s3 : grows s1 s2 -> answered s2 s3 -> answered s1 s3.
Proof. unfold grows, answered. lia. Qed.

Lemma answered_grows s1 s2 s3 : answered s1 s2 -> grows s2 s3 -> answered s1 s3.
Proof. unfold grows, answered. lia. Qed.

Lemma report_error_answers ctx m e s r s' :
  report_error ctx m e s = (r, s') ->
  exists o, r = Val o /\ o <> Ignored /\ answered s s'.
Proof.
  unfold report_error.
  destruct e; cbn [is_api_error]; unfold_prog; cbv beta iota zeta;
    intros [= <- <-]; eexists; (split; [reflexivity|]); (split; [done|]);
    (eapply grows_answered; [|apply answered_send]); apply grows_emit.
Qed.

Lemma resolve_answers ctx m s r s' :
  resolve E ctx m s = (r, s') ->
  match r with
  | Val _ => grows s s'
  | Done o => o <> Ignored /\ answered s s'
  | _ => False
  end.
Proof.
  intros Hrun.
  destruct (truthy (user_threads s !! author_id m)) eqn:Ht.
  - apply truthy_spec in Ht as (tid & Hl & Hne).
    rewrite (resolve_truthy E ctx m s tid Hl Hne) in Hrun.
    injection Hrun as <- <-. apply grows_refl.
  - revert Hrun. unfold resolve, request. unfold_prog. cbv beta iota zeta.
    rewrite Ht.
    destruct (threads_create E _) as [tid|e]; cbv beta iota zeta.
    + rewrite save_threads_eq. cbv beta iota zeta. intros [= <- <-]. grow.
    + intros [= <- <-]. split; [done|].
      eapply grows_answered; [|apply answered_send]. grow.
Qed.

Lemma timed_out_answers ctx m thread_id r0 s r s' :
  timed_out E ctx m thread_id r0 s = (r, s') ->
  r = Done Timeout /\ answered s s'.
Proof.
  destruct (timed_out_spec E ctx m thread_id r0 s)
    as (s2 & -> & _ & _ & _ & Ht).
  intros [= <- <-]. split; [done|].
  unfold answered. rewrite Ht, sent_app, length_app.
  destruct (runs_cancel E (calls s)); simpl; lia.
Qed.

Lemma poll_answers ctx m thread_id start_time (fuel : nat) :
  forall r0 s r s',
    poll E fuel ctx m thread_id start_time r0 s = (r, s') ->
    match r with
    | Done o => o <> Ignored /\ answered s s'
    | _ => grows s s'
    end.
Proof.
  induction fuel as [|fuel IH]; intros r0 s r s' Hrun.
  - simpl in Hrun. destruct (in_flight (status r0));
      injection Hrun as <- <-; apply grows_refl.
  - rewrite poll_step in Hrun.
    destruct (in_flight (status r0)).
    2:{ injection Hrun as <- <-. apply grows_refl. }
    assert (Hp : grows s (polled E thread_id r0 s)).
    { unfold polled. eapply grows_trans; [|apply grows_charge].
      eapply grows_trans; [|apply grows_sleep; lia]. apply grows_emit. }
    destruct (runs_retrieve E (calls s)) as [r1|e].
    2:{ by injection Hrun as <- <-. }
    destruct (120000 <? _)%Z.
    + apply timed_out_answers in Hrun as [-> Ha]. split; [done|].
      by eapply grows_answered.
    + apply IH in Hrun. destruct r; try (by eapply grows_trans).
      destruct Hrun as [? ?]. split; [done|]. by eapply grows_answered.
Qed.

Lemma start_run_answers fuel ctx m thread_id text s r s' :
  start_run E ASSISTANT_ID fuel ctx m thread_id text s = (r, s') ->
  match r with
  | Done o => o <> Ignored /\ answered s s'
  | _ => grows s s'
  end.
Proof.
  unfold start_run. unfold_prog.
  destruct (request_cases E (EvMessagesCreate thread_id text)
              (messages_create E) s) as [(a & _ & ->)|(e & _ & ->)].
  2:{ intros [= <- <-]. apply grows_charge. }
  destruct (request_cases E (EvRunsCreate thread_id ASSISTANT_ID)
              (runs_create E) (charge E (EvMessagesCreate thread_id text) s))
    as [(r1 & _ & ->)|(e & _ & ->)].
  2:{ intros [= <- <-]. eapply grows_trans; apply grows_charge. }
  intros Hpoll. apply poll_answers in Hpoll.
  assert (Hg : grows s (charge E (EvRunsCreate thread_id ASSISTANT_ID)
                          (charge E (EvMessagesCreate thread_id text) s)))
    by (eapply grows_trans; apply grows_charge).
  destruct r; try (by eapply grows_trans).
  destruct Hpoll as [? ?]. split; [done|]. by eapply grows_answered.
Qed.

Lemma send_response_answers ctx m full s :
  exists s', send_response E ctx m full s = (Val tt, s') /\ answered s s'.
Proof.
  unfold send_response. destruct ctx.
  - destruct (Nat.leb_spec (Py.len full) 2000) as [Hle|Hgt].
    + eexists. split; [reflexivity|]. apply answered_send.
    + destruct (send_parts_spec E (parts full) s) as (s' & -> & _ & _ & Ht).
      exists s'. split; [done|]. unfold answered.
      rewrite Ht, sent_app, length_app, sent_parts.
      unfold parts. rewrite Chunks.length_parts_of.
      assert (1 <= (Py.len full + (1990 - 1)) / 1990)%nat
        by (apply Nat.div_le_lower_bound; lia).
      lia.
  - destruct (_ <=? _)%nat.
    + eexists. split; [reflexivity|]. apply answered_send.
    + unfold_prog. cbv beta iota zeta.
      destruct (send_parts_spec E (parts full)
                  (emit (EvSend (author_mention m +:+ " ")) s))
        as (s' & -> & _ & _ & Ht).
      exists s'. split; [done|]. unfold answered.
      rewrite Ht. simpl. rewrite !sent_app, !length_app. simpl. lia.
Qed.

Lemma reset_thread_answers ctx m s :
  exists s', reset_thread E ctx m s = (Val tt, s') /\ answered s s'.
Proof.
  destruct (reset_thread E ctx m s) as [r s'] eqn:Hrun. exists s'.
  revert Hrun. unfold reset_thread, request. unfold_prog.
  cbv beta iota zeta. set (s0 := emit _ s).
  destruct (user_threads s0 !! author_id m) as [[|a t]|];
    cbv beta iota zeta;
    try rewrite save_threads_eq; cbn [truthy]; cbv beta iota zeta;
    try (destruct (threads_delete E _) as [[|]|[]]; cbv beta iota zeta);
    intros [= <- <-]; (split; [reflexivity|]);
    (eapply grows_answered; [|apply answered_send]);
    unfold s0; grow.
Qed.

Lemma deliver_answers ctx m thread_id r0 s r s' :
  deliver E ctx m thread_id r0 s = (r, s') ->
  match r with
  | Val o => o <> Ignored /\ answered s s'
  | Exc _ => grows s s'
  | _ => False
  end.
Proof.
  unfold deliver.
  destruct (String.eqb (status r0) "completed").
  - unfold_prog.
    destruct (request_cases E (EvMessagesList thread_id) (messages_list E) s)
      as [(data & _ & ->)|(e & _ & ->)].
    2:{ intros [= <- <-]. apply grows_charge. }
    destruct (collect (run_id r0) data) as [|x l]; cbv beta iota zeta.
    + destruct (reset_thread_answers ctx m
                  (charge E (EvMessagesList thread_id) s)) as (s1 & -> & Ha).
      intros [= <- <-]. split; [done|].
      eapply grows_answered; [apply grows_charge|exact Ha].
    + match goal with
      | |- context [send_response E ctx m ?f ?st] =>
          destruct (send_response_answers ctx m f st) as (s1 & -> & Ha)
      end.
      intros [= <- <-]. split; [done|].
      eapply grows_answered; [|exact Ha].
      eapply grows_trans; [apply grows_charge|apply grows_emit].
  - destruct (String.eqb (status r0) "requires_action").
    { unfold_prog. cbv beta iota zeta. intros [= <- <-]. split; [done|].
      eapply grows_answered; [apply grows_emit|apply answered_send]. }
    destruct (String.eqb (status r0) "failed");
      unfold_prog; cbv beta iota zeta; intros [= <- <-]; (split; [done|]);
      (eapply grows_answered; [apply grows_emit|apply answered_send]).
Qed.

Lemma execute_answers fuel ctx m thread_id text s r s' :
  execute E ASSISTANT_ID fuel ctx m thread_id text s = (r, s') ->
  match r with
  | Val o | Done o => o <> Ignored /\ answered s s'
  | Exc _ => grows s s'
  | Hang => True
  end.
Proof.
  unfold execute. unfold mbind, M_bind, bind.
  destruct (start_run E ASSISTANT_ID fuel ctx m thread_id text s)
    as [r1 s1] eqn:Hstart.
  apply start_run_answers in Hstart.
  destruct r1 as [r1|e|o|]; try (by intros [= <- <-]).
  intros Hdel. apply deliver_answers in Hdel.
  destruct r as [o|e|o|]; try done.
  - destruct Hdel as [? ?]. split; [done|]. by eapply grows_answered.
  - by eapply grows_trans.
Qed.

Lemma assist_answers fuel ctx m text s r s' :
  assist E ASSISTANT_ID fuel ctx m text s = (r, s') ->
  match r with
  | Val o | Done o => o <> Ignored /\ answered s s'
  | Exc _ => False
  | Hang => True
  end.
Proof.
  unfold assist, try_except, modify.
  unfold mbind at 1. unfold M_bind at 1. unfold bind at 1.
  unfold mbind, M_bind, bind.
  assert (H0 : grows s (emit EvTyping s)) by apply grows_emit.
  destruct (resolve E ctx m (emit EvTyping s)) as [r1 s1] eqn:Hres.
  apply resolve_answers in Hres.
  destruct r1 as [tid|e|o|]; try done.
  - assert (H1 : grows s s1) by (by eapply grows_trans).
    destruct (execute E ASSISTANT_ID fuel ctx m tid text s1)
      as [r2 s2] eqn:Hexec.
    apply execute_answers in Hexec.
    destruct r2 as [o|e|o|].
    + intros [= <- <-]. destruct Hexec. split; [done|].
      by eapply grows_answered.
    + intros Hrep. apply report_error_answers in Hrep as (o & -> & Ho & Ha).
      split; [done|]. eapply grows_answered; [|exact Ha].
      by eapply grows_trans.
    + intros [= <- <-]. destruct Hexec. split; [done|].
      by eapply grows_answered.
    + by intros [= <- <-].
  - intros [= <- <-]. destruct Hres. split; [done|].
    by eapply grows_answered.
Qed.

(** X4. The bot stays silent in three cases only: its own messages, server
    messages that do not mention it, and mentions of everyone; then nothing
    at all happens.  Every other message gets at least one message back,
    whatever the remote API and the disk do. *)
Theorem every_message_is_answered fuel (m : inbound) (s : state)
    (o : outcome) (s' : state) :
  on_message E ASSISTANT_ID bot_id fuel m s = (Val o, s') ->
  if ignorable m
  then o = Ignored /\ s' = s
  else o <> Ignored /\ answered s s'.
Proof.
  unfold on_message, handler, ignorable.
  destruct (from_self m); cbn [orb].
  { unfold done. by intros [= <- <-]. }
  destruct (in_guild m); cbn [andb negb].
  - destruct (mentions_bot m); cbn [negb orb].
    2:{ unfold_prog. by intros [= <- <-]. }
    destruct (mention_everyone m).
    { unfold done. by intros [= <- <-]. }
    unfold mbind, M_bind, bind, log, send, modify, done.
    cbv beta iota zeta.
    destruct (String.eqb (actual_content_of bot_id m) "").
    + intros [= <- <-]. split; [done|].
      eapply grows_answered; [apply grows_emit|apply answered_send].
    + match goal with
      | |- context [assist _ _ _ Guild m ?t ?st] =>
          destruct (assist E ASSISTANT_ID fuel Guild m t st)
            as [r1 s1] eqn:Ha
      end.
      apply assist_answers in Ha.
      destruct r1 as [o1|e|o1|]; try done; intros [= <- <-];
        destruct Ha; (split; [done|]);
        (eapply grows_answered; [apply grows_emit|done]).
  - unfold mbind, M_bind, bind, log, modify. cbv beta iota zeta.
    match goal with
    | |- context [assist _ _ _ DM m ?t ?st] =>
        destruct (assist E ASSISTANT_ID fuel DM m t st) as [r1 s1] eqn:Ha
    end.
    apply assist_answers in Ha.
    destruct r1 as [o1|e|o1|]; try done; intros [= <- <-];
      destruct Ha; (split; [done|]);
      (eapply grows_answered; [apply grows_emit|done]).
Qed.

End Answers.

(** A direct message that the remote API refuses at every step. *)
Lemma every_message_is_answered_witness :
  let '(r, s') := on_message unreachable "asst_1" 99 81 (dm_from 7 "hi") idle in
  r = Val SessionCreationFailed /\ answered idle s'.
Proof.
  destruct (on_message unreachable "asst_1" 99 81 (dm_from 7 "hi") idle)
    as [r s'] eqn:Hrun.
  assert (Hr : r = Val SessionCreationFailed)
    by (apply (f_equal fst) in Hrun; vm_compute in Hrun; congruence).
  subst r. split; [reflexivity|].
  exact (proj2 (every_message_is_answered unreachable "asst_1" 99 81
                  (dm_from 7 "hi") idle SessionCreationFailed s' Hrun)).
Defined.

(** ** When the Session Store is written *)

Section Writes.

Variable E : environment.
Variable ASSISTANT_ID : string.
Variable bot_id : Z.

(** A processed message goes through the assistant logic of its call site. *)
Lemma on_message_assist fuel (m : inbound) (s : state) :
  processed bot_id m = true ->
  on_message E ASSISTANT_ID bot_id fuel m s
  = match assist E ASSISTANT_ID fuel (context_of m) m (text_of bot_id m)
            (emit (received m) s) with
    | (Done o, s') => (Val o, s')
    | r => r
    end.
Proof.
  unfold processed, ignorable, on_message, handler, context_of, text_of,
    received.
  destruct (from_self m); [done|]. cbn [orb negb andb].
  destruct (in_guild m); cbn [andb negb orb].
  - destruct (mentions_bot m); [|done]. cbn [negb orb].
    destruct (mention_everyone m); [done|]. cbn [negb andb].
    destruct (String.eqb (actual_content_of bot_id m) ""); [done|].
    intros _. unfold mbind, M_bind, bind, log, modify. reflexivity.
  - intros _. unfold mbind, M_bind, bind, log, modify. reflexivity.
Qed.

Lemma report_error_frame ctx m e s :
  exists o s', report_error ctx m e s = (Val o, s') /\ same_store s s' /\
    o <> EmptyReply /\ calls s' = calls s.
Proof.
  unfold report_error.
  destruct e; cbn [is_api_error]; unfold_prog; cbv beta iota zeta;
    eexists _, _; (split; [reflexivity|]); repeat split; done.
Qed.

Lemma execute_frame fuel ctx m thread_id text s res s' :
  execute E ASSISTANT_ID fuel ctx m thread_id text s = (res, s') ->
  res <> Val EmptyReply -> same_store s s'.
Proof.
  unfold execute. unfold mbind, M_bind, bind.
  destruct (start_run E ASSISTANT_ID fuel ctx m thread_id text s)
    as [r1 s1] eqn:Hstart.
  apply start_run_frame in Hstart.
  destruct r1 as [r1|e|o|]; try (by intros [= <- <-]).
  intros Hdel Hne. eapply same_store_trans; [exact Hstart|].
  by eapply deliver_frame.
Qed.

(** X5. The handler writes the Session Store in two places only, where a
    thread is created and where one is reset: a message of a user who has a
    thread, ending in any other way than the reset, leaves the dictionary,
    the file and the number of file writes as they were. *)
Theorem store_written_only_on_create_or_reset fuel (m : inbound) (s : state)
    (o : outcome) (s' : state) :
  on_message E ASSISTANT_ID bot_id fuel m s = (Val o, s') ->
  truthy (user_threads s !! author_id m) = true ->
  o <> EmptyReply ->
  same_store s s'.
Proof.
  intros Hrun Ht Ho.
  destruct (processed bot_id m) eqn:Hp.
  2:{ revert Hrun Hp.
      unfold processed, ignorable, on_message, handler.
      destruct (from_self m); cbn [orb negb andb].
      { unfold done. intros [= <- <-] _. apply same_store_refl. }
      destruct (in_guild m); cbn [andb negb orb]; [|done].
      destruct (mentions_bot m); cbn [negb orb].
      2:{ unfold_prog. intros [= <- <-] _. apply same_store_refl. }
      destruct (mention_everyone m); cbn [negb andb].
      { unfold done. intros [= <- <-] _. apply same_store_refl. }
      destruct (String.eqb (actual_content_of bot_id m) ""); [|done].
      unfold_prog. cbv beta iota zeta. by intros [= <- <-] _. }
  rewrite (on_message_assist fuel m s Hp) in Hrun. revert Hrun.
  apply truthy_spec in Ht as (tid & Hl & Hne).
  unfold assist, try_except, modify.
  unfold mbind, M_bind, bind.
  rewrite (resolve_truthy E (context_of m) m
             (emit EvTyping (emit (received m) s)) tid Hl Hne).
  destruct (execute E ASSISTANT_ID fuel (context_of m) m tid
              (text_of bot_id m) (emit EvTyping (emit (received m) s)))
    as [r2 s2] eqn:Hexec.
  assert (Hframe : r2 <> Val EmptyReply -> same_store s s2).
  { intros Hr. by apply (execute_frame _ _ _ _ _ _ _ _ Hexec) in Hr. }
  destruct r2 as [o2|e|o2|].
  - intros [= <- <-]. apply Hframe. congruence.
  - destruct (report_error_frame (context_of m) m e s2)
      as (o3 & s3 & -> & Hs & _).
    intros [= <- <-]. eapply same_store_trans; [|exact Hs].
    by apply Hframe.
  - intros [= <- <-]. by apply Hframe.
  - done.
Qed.

End Writes.

(** User 7 has a thread and gets the answer "hello": nothing is written. *)
Lemma store_written_only_on_create_or_reset_witness :
  let '(r, s') :=
    on_message answers_hello "asst_1" 99 81 (dm_from 7 "hi") has_thread in
  r = Val Replied /\ same_store has_thread s'.
Proof.
  destruct (on_message answers_hello "asst_1" 99 81 (dm_from 7 "hi")
              has_thread) as [r s'] eqn:Hrun.
  assert (Hr : r = Val Replied)
    by (apply (f_equal fst) in Hrun; vm_compute in Hrun; congruence).
  subst r. split; [reflexivity|].
  apply (store_written_only_on_create_or_reset answers_hello "asst_1" 99 81
           (dm_from 7 "hi") has_thread Replied s' Hrun);
    [reflexivity | discriminate].
Defined.

(** ** A thread that cannot be created *)

Lemma resolve_fails E ctx m s e :
  truthy (user_threads s !! author_id m) = false ->
  threads_create E (calls s) = Raises e ->
  resolve E ctx m s
  = (Done SessionCreationFailed,
     emit (EvSend (no_session ctx m))
       (emit (EvLog ERROR
                (match ctx with
                 | DM => "Failed to create OpenAI thread for DM user {user_id}: {api_error}"
                 | Guild => "Failed to create OpenAI thread for user {user_id} (server mention): {api_error}"
                 end))
          (charge E EvThreadsCreate
             (emit (EvLog INFO
                      (match ctx with
                       | DM => "Creating new thread for user {user_id} (triggered by DM)"
                       | Guild => "Creating new thread for user {user_id} (triggered by server mention)"
                       end)) s)))).
Proof.
  intros Hf He. unfold resolve, request. unfold_prog.
  rewrite Hf. simpl. rewrite He. reflexivity.
Qed.

(** X6. When the user has no thread and the create request fails, whatever
    the error (a rate limit included: the inner handler of lines 111 and 302
    catches it before the outer ones see it), the handler sends the apology
    for the session, makes no further request, leaves the Session Store as
    it was and ends. *)
Theorem creation_failure_aborts E ASSISTANT_ID bot_id fuel (m : inbound)
    (s : state) (e : exn) :
  processed bot_id m = true ->
  truthy (user_threads s !! author_id m) = false ->
  threads_create E (calls s) = Raises e ->
  exists s',
    on_message E ASSISTANT_ID bot_id fuel m s
    = (Val SessionCreationFailed, s') /\
    same_store s s' /\
    calls s' = S (calls s) /\
    count is_create (trace s') = S (count is_create (trace s)) /\
    sent (trace s') = (sent (trace s) ++ [no_session (context_of m) m])%list.
Proof.
  intros Hp Ht He.
  rewrite (on_message_assist E ASSISTANT_ID bot_id fuel m s Hp).
  unfold assist, try_except, modify. unfold mbind, M_bind, bind.
  rewrite (resolve_fails E (context_of m) m
             (emit EvTyping (emit (received m) s)) e Ht He).
  eexists. split; [reflexivity|].
  unfold same_store, charge, emit, no_session.
  cbn [user_threads disk saves calls trace].
  rewrite !count_snoc, !sent_app.
  assert (Hrec : is_create (received m) = false /\ sent [received m] = [])
    by (unfold received; destruct (in_guild m); done).
  destruct Hrec as [-> ->]. unfold sent. cbn [is_create omap].
  rewrite !app_nil_r.
  repeat split; lia.
Qed.

(** A rate limit on the create request is answered with the apology for the
    session, not with the one for high demand. *)
Lemma creation_failure_aborts_witness :
  exists s',
    on_message unreachable "asst_1" 99 81 (dm_from 7 "hi") idle
    = (Val SessionCreationFailed, s') /\
    calls s' = 1%nat /\
    sent (trace s')
    = ["Sorry, I couldn't initiate our conversation context. Please try again later."].
Proof.
  destruct (creation_failure_aborts unreachable "asst_1" 99 81
              (dm_from 7 "hi") idle RateLimitError)
    as (s' & Hrun & _ & Hcalls & _ & Hsent);
    [reflexivity | reflexivity | reflexivity |].
  exists s'. split; [exact Hrun|]. split; [exact Hcalls|exact Hsent].
Defined.

(** ** The polling loop picks up the end of the run *)

Lemma poll_in_time E ctx m thread_id start_time fuel r r' s :
  in_flight (status r) = true ->
  runs_retrieve E (calls s) = Returns r' ->
  clock (polled E thread_id r s) - start_time <= 120000 ->
  poll E (S fuel) ctx m thread_id start_time r s
  = poll E fuel ctx m thread_id start_time r' (polled E thread_id r s).
Proof.
  intros Hr Hret Hclock. rewrite poll_step, Hr, Hret.
  by destruct (Z.ltb_spec 120000 (clock (polled E thread_id r s) - start_time));
    [lia|].
Qed.

(** X7. While the deadline is not reached the loop ends at the first poll
    that reports a state other than queued, in_progress or cancelling.  Let
    the first [k] polls report such a state and the next one not, let every
    sleep of these rounds overrun by at most [D] ms and every request of
    them take at most [L] ms, and let [k + 1] rounds of 1.5 s + [D] + [L]
    fit into the 120 s: then the loop returns that run after exactly
    [k + 1] status requests, without any cancel request, any message or
    any change to the Session Store. *)
Theorem poll_returns_first_final_status E ctx m thread_id start_time
    (D L : Z) (k : nat) :
  forall (fuel : nat) (r r' : run) (s : state),
    in_flight (status r) = true ->
    (forall i, (i < k)%nat ->
       exists ri, runs_retrieve E (calls s + i) = Returns ri /\
                  in_flight (status ri) = true) ->
    runs_retrieve E (calls s + k) = Returns r' ->
    in_flight (status r') = false ->
    (forall i, (i <= k)%nat ->
       Z.of_N (oversleep E (length (trace s) + 2 * i)) <= D) ->
    (forall i, (i <= k)%nat -> Z.of_N (latency E (calls s + i)) <= L) ->
    clock s - start_time + Z.of_nat (S k) * (1500 + D + L) <= 120000 ->
    (k < fuel)%nat ->
    exists s',
      poll E fuel ctx m thread_id start_time r s = (Val r', s') /\
      same_store s s' /\
      calls s' = (calls s + S k)%nat /\
      length (trace s') = (length (trace s) + 2 * S k)%nat /\
      count is_retrieve (trace s') = (count is_retrieve (trace s) + S k)%nat /\
      count is_cancel (trace s') = count is_cancel (trace s) /\
      sent (trace s') = sent (trace s) /\
      clock s + Z.of_nat (S k) * 1500 <= clock s'
      <= clock s + Z.of_nat (S k) * (1500 + D + L).
Proof.
  induction k as [|k IH]; intros fuel r r' s Hr Hwait Hend Hfinal Hnap Hlat
    Hclock Hfuel; (destruct fuel as [|fuel]; [lia|]);
    destruct (polled_facts E thread_id r s) as (Hstore & Hcalls & Htime & Htrace);
    pose proof (Hlat 0%nat ltac:(lia)) as Hl0;
    pose proof (Hnap 0%nat ltac:(lia)) as Hn0;
    rewrite Nat.add_0_r in Hl0; rewrite Nat.mul_0_r, Nat.add_0_r in Hn0.
  - rewrite Nat.add_0_r in Hend.
    rewrite (poll_in_time E ctx m thread_id start_time fuel r r' s Hr Hend)
      by lia.
    rewrite poll_stop by done.
    eexists. split; [reflexivity|]. rewrite Hcalls, Htime, Htrace.
    rewrite !count_snoc, !sent_app, !length_app. cbn.
    rewrite !app_nil_r. repeat split; try apply Hstore; lia.
  - destruct (Hwait 0%nat ltac:(lia)) as (r0 & Hret0 & Hr0).
    rewrite Nat.add_0_r in Hret0.
    rewrite Nat2Z.inj_succ, Z.mul_succ_l in Hclock.
    assert (0 <= Z.of_nat (S k) * (1500 + D + L)) by nia.
    rewrite (poll_in_time E ctx m thread_id start_time fuel r r0 s Hr Hret0)
      by lia.
    assert (Hlen : length (trace (polled E thread_id r s))
                   = (length (trace s) + 2)%nat)
      by (rewrite Htrace, !length_app; simpl; lia).
    destruct (IH fuel r0 r' (polled E thread_id r s) Hr0)
      as (s' & -> & Hs & Hc & Hl & Hcr & Hcc & Hsent & Hcl).
    + intros i Hi. rewrite Hcalls.
      replace (S (calls s) + i)%nat with (calls s + S i)%nat by lia.
      apply Hwait. lia.
    + rewrite Hcalls.
      by replace (S (calls s) + k)%nat with (calls s + S k)%nat by lia.
    + done.
    + intros i Hi. rewrite Hlen.
      replace (length (trace s) + 2 + 2 * i)%nat
        with (length (trace s) + 2 * S i)%nat by lia.
      apply Hnap. lia.
    + intros i Hi. rewrite Hcalls.
      replace (S (calls s) + i)%nat with (calls s + S i)%nat by lia.
      apply Hlat. lia.
    + rewrite Htime. lia.
    + lia.
    + exists s'. split; [reflexivity|].
      rewrite Hcalls in Hc. rewrite Htime in Hcl. rewrite Hlen in Hl.
      rewrite Htrace in *.
      rewrite !count_snoc in *. rewrite !sent_app in *. cbn in *.
      rewrite !app_nil_r in *.
      rewrite (Nat2Z.inj_succ (S k)), !Z.mul_succ_l.
      repeat split; try lia; try done.
      * eapply same_store_trans; [exact Hstore|exact Hs].
      * destruct Hs as (? & ? & ?). destruct Hstore as (? & ? & ?). congruence.
      * destruct Hs as (? & ? & ?). destruct Hstore as (? & ? & ?). congruence.
Qed.

(** The run is in progress at two polls and completed at the third, with
    requests of 100 ms and sleeps that overrun by 20 ms: the loop returns
    within 4.86 seconds. *)
Lemma poll_returns_first_final_status_witness :
  exists s',
    poll (completes_at 2) 81 DM (dm_from 7 "hi") "thread_1" 0
         (mkRun "run_1" "queued" None) idle
    = (Val (mkRun "run_1" "completed" None), s') /\
    calls s' = 3%nat /\ 4500 <= clock s' <= 4860.
Proof.
  destruct (poll_returns_first_final_status (completes_at 2) DM
              (dm_from 7 "hi") "thread_1" 0 20 100 2 81
              (mkRun "run_1" "queued" None) (mkRun "run_1" "completed" None)
              idle)
    as (s' & Hrun & _ & Hcalls & _ & _ & _ & _ & Hclock).
  - reflexivity.
  - intros i Hi. exists (mkRun "run_1" "in_progress" None).
    destruct i as [|[|i]]; [split; reflexivity | split; reflexivity | lia].
  - reflexivity.
  - reflexivity.
  - intros i _. simpl. lia.
  - intros i _. simpl. lia.
  - simpl. lia.
  - lia.
  - exists s'. split; [exact Hrun|]. split; [exact Hcalls|].
    exact Hclock.
Defined.

(** X8. The deadline is looked at before the state of the run: when the
    poll that crosses the 120 s brings a run that has just completed, the
    reply is not fetched; the loop asks to cancel that run, sends the
    apology for the delay and ends the handler with the Timeout outcome. *)
Theorem completion_after_deadline_is_dropped E ctx m thread_id start_time
    (fuel : nat) (r r' : run) (s : state) :
  in_flight (status r) = true ->
  runs_retrieve E (calls s) = Returns r' ->
  120000 < clock s + 1500 + Z.of_N (latency E (calls s)) - start_time ->
  exists s',
    poll E (S fuel) ctx m thread_id start_time r s = (Done Timeout, s') /\
    same_store s s' /\
    trace s'
    = (trace s ++ [EvSleep 1500;
                   EvRunsRetrieve thread_id (run_id r);
                   timed_out_warning ctx;
                   EvRunsCancel thread_id (run_id r');
                   cancel_log (runs_cancel E (S (calls s)));
                   EvSend (took_too_long ctx m)])%list.
Proof.
  intros Hr Hret Hclock. rewrite poll_step, Hr, Hret.
  destruct (polled_facts E thread_id r s) as (Hstore & Hcalls & Htime & Htrace).
  destruct (Z.ltb_spec 120000 (clock (polled E thread_id r s) - start_time));
    [|lia].
  destruct (timed_out_spec E ctx m thread_id r' (polled E thread_id r s))
    as (s' & -> & Hs & _ & _ & Ht).
  exists s'. split; [reflexivity|]. split.
  - eapply same_store_trans; [exact Hstore|exact Hs].
  - rewrite Ht, Htrace, Hcalls. by rewrite <- !app_assoc.
Qed.

(** After 119 s of waiting the next poll, 1.6 s later, finds the run
    completed: the user is told that the request took too long. *)
Lemma completion_after_deadline_is_dropped_witness :
  exists s',
    poll (completes_at 0) 1 DM (dm_from 7 "hi") "thread_1" 0
         (mkRun "run_1" "in_progress" None) waiting_long
    = (Done Timeout, s') /\
    sent (trace s')
    = ["Sorry, the request took too long to process. Please try again."] /\
    count is_cancel (trace s') = 1%nat.
Proof.
  destruct (completion_after_deadline_is_dropped (completes_at 0) DM
              (dm_from 7 "hi") "thread_1" 0 0
              (mkRun "run_1" "in_progress" None)
              (mkRun "run_1" "completed" None) waiting_long)
    as (s' & Hrun & _ & Htrace).
  - reflexivity.
  - reflexivity.
  - simpl. lia.
  - exists s'. split; [exact Hrun|]. rewrite Htrace. split; reflexivity.
Defined.

(** ** What the reply is made of *)

Lemma scanned_incl (rid : string) (msgs : list message) (msg : message) :
  In msg (scanned rid msgs) -> In msg msgs.
Proof.
  induction msgs as [|x older IH]; [done|]. simpl.
  destruct (boundary rid x); simpl; intros [->|H]; auto. done.
Qed.

(** X9. Every segment of the reply is the text of a [text] block of an
    assistant message that the remote API lists for this very run: nothing
    a user wrote, and nothing of another run, is ever relayed. *)
Theorem reply_comes_from_this_run (rid : string) (data : list message)
    (segment : string) :
  In segment (collect rid data) ->
  exists msg block,
    In msg data /\ role msg = "assistant" /\ msg_run_id msg = Some rid /\
    In block (content msg) /\ block_type block = "text" /\
    text_value block = segment.
Proof.
  unfold collect. rewrite scan_scanned. simpl.
  rewrite in_flat_map. intros (msg & Hmsg & Hseg).
  apply filter_In in Hmsg as [Hin Hmatch].
  apply scanned_incl, in_rev in Hin.
  unfold matching, same_run in Hmatch.
  apply andb_true_iff in Hmatch as [Hrun Hrole].
  apply String.eqb_eq in Hrole.
  destruct (msg_run_id msg) as [r|] eqn:Hr; [|done].
  apply String.eqb_eq in Hrun as ->.
  unfold text_blocks in Hseg. apply in_map_iff in Hseg as (b & Hb & Hin').
  apply filter_In in Hin' as [Hin' Htype]. apply String.eqb_eq in Htype.
  by exists msg, b.
Qed.

(** The answer "hello" of run_1 is a block of the last message listed. *)
Lemma reply_comes_from_this_run_witness :
  exists msg block,
    In msg [mkMessage "user" None [mkBlock "text" "hi"];
            mkMessage "assistant" (Some "run_1") [mkBlock "text" "hello"]] /\
    role msg = "assistant" /\ msg_run_id msg = Some "run_1" /\
    In block (content msg) /\ block_type block = "text" /\
    text_value block = "hello".
Proof.
  apply (reply_comes_from_this_run "run_1"
           [mkMessage "user" None [mkBlock "text" "hi"];
            mkMessage "assistant" (Some "run_1") [mkBlock "text" "hello"]]
           "hello").
  vm_compute. left. reflexivity.
Defined.

Lemma scanned_boundary (rid : string) (newer older : list message)
    (b : message) :
  boundary rid b = true ->
  scanned rid (newer ++ b :: older) = scanned rid (newer ++ [b]).
Proof.
  intros Hb. induction newer as [|x newer IH]; simpl.
  - by rewrite Hb.
  - destruct (boundary rid x); [done|]. by rewrite IH.
Qed.

(** X10. The scan stops at the newest user message that is not of this run
    (every message a user posts is one): what the thread holds before that
    message has no influence on the reply. *)
Theorem history_before_last_user_message_is_ignored (rid : string)
    (older newer : list message) (b : message) :
  role b = "user" -> msg_run_id b <> Some rid ->
  collect rid (older ++ b :: newer) = collect rid (b :: newer).
Proof.
  intros Hrole Hrun.
  assert (Hb : boundary rid b = true).
  { unfold boundary, same_run. rewrite Hrole. simpl.
    destruct (msg_run_id b) as [r|]; [|done].
    apply negb_true_iff, String.eqb_neq. congruence. }
  unfold collect. rewrite !scan_scanned. simpl.
  rewrite rev_app_distr. simpl. rewrite <- app_assoc. simpl.
  by rewrite (scanned_boundary rid (rev newer) (rev older) b Hb).
Qed.

(** The thread of the scenario [answers_hello]: the earlier exchange does
    not count. *)
Lemma history_before_last_user_message_is_ignored_witness :
  collect "run_1"
    ([mkMessage "user" None [mkBlock "text" "earlier question"];
      mkMessage "assistant" (Some "run_0") [mkBlock "text" "earlier answer"]]
     ++ mkMessage "user" None [mkBlock "text" "hi"]
        :: [mkMessage "assistant" (Some "run_1") [mkBlock "text" "hello"]])%list
  = collect "run_1"
      [mkMessage "user" None [mkBlock "text" "hi"];
       mkMessage "assistant" (Some "run_1") [mkBlock "text" "hello"]].
Proof.
  apply (history_before_last_user_message_is_ignored "run_1"
           [mkMessage "user" None [mkBlock "text" "earlier question"];
            mkMessage "assistant" (Some "run_0")
              [mkBlock "text" "earlier answer"]]
           [mkMessage "assistant" (Some "run_1") [mkBlock "text" "hello"]]
           (mkMessage "user" None [mkBlock "text" "hi"]));
    [reflexivity | discriminate].
Defined.

(** ** The reply within the size limit of a message *)

(** X11. Whatever its length, the reply is delivered whole and in messages
    of at most 2000 characters, counted as [len] counts them: the texts
    sent one after the other make up the prefix followed by the reply.  In a
    server channel this needs the mention and its space to fit into one
    message. *)
Theorem reply_fits_message_limit E (ctx : context) (m : inbound)
    (full_response : string) (s : state) :
  (Py.len (prefix ctx m) <= 2000)%nat ->
  exists s' texts,
    send_response E ctx m full_response s = (Val tt, s') /\
    calls s' = calls s /\
    sent (trace s') = (sent (trace s) ++ texts)%list /\
    Forall (fun t => (Py.len t <= 2000)%nat) texts /\
    String.concat "" texts = prefix ctx m +:+ full_response.
Proof.
  intros Hprefix.
  assert (Hparts : Forall (fun t => (Py.len t <= 2000)%nat)
                     (parts full_response)).
  { pose proof (Chunks.parts_of_bounded 1990 full_response) as Hb.
    unfold parts. rewrite Forall_forall in *. intros t Ht.
    specialize (Hb t Ht). simpl in Hb. lia. }
  assert (Hconcat : String.concat "" (parts full_response) = full_response)
    by (apply Chunks.concat_parts_of; lia).
  unfold send_response. destruct ctx; cbn [prefix] in *.
  - destruct (Nat.leb_spec (Py.len full_response) 2000).
    + unfold_prog. eexists _, [full_response]. split; [reflexivity|].
      split; [reflexivity|].
      split; [cbn [trace emit]; rewrite sent_app; reflexivity|].
      split; [constructor; [lia|constructor]|reflexivity].
    + destruct (send_parts_spec E (parts full_response) s)
        as (s' & -> & _ & Hcalls & Htrace).
      exists s', (parts full_response). split; [reflexivity|].
      split; [exact Hcalls|].
      split; [by rewrite Htrace, sent_app, sent_parts|].
      split; [exact Hparts|exact Hconcat].
  - destruct (Nat.leb_spec
                (Py.len ((author_mention m +:+ " ") +:+ full_response))
                2000).
    + unfold_prog.
      eexists _, [(author_mention m +:+ " ") +:+ full_response].
      split; [reflexivity|]. split; [reflexivity|].
      split; [cbn [trace emit]; rewrite sent_app; reflexivity|].
      split; [constructor; [lia|constructor]|reflexivity].
    + unfold_prog. cbv beta iota zeta.
      destruct (send_parts_spec E (parts full_response)
                  (emit (EvSend (author_mention m +:+ " ")) s))
        as (s' & -> & _ & Hcalls & Htrace).
      exists s', ((author_mention m +:+ " ") :: parts full_response).
      split; [reflexivity|]. split; [exact Hcalls|].
      split.
      { rewrite Htrace, sent_app, sent_parts. cbn [trace emit].
        by rewrite sent_app, <- app_assoc. }
      split; [constructor; [lia|exact Hparts]|].
      by rewrite Chunks.concat_cons, Hconcat.
Qed.

(** A reply of 5000 characters in a server channel: the mention, then three
    parts. *)
Lemma reply_fits_message_limit_witness :
  exists s' texts,
    send_response healthy Guild (mention_from 7 "<@99> hi") (text_of_length 5000) idle
    = (Val tt, s') /\
    sent (trace s') = texts /\
    Forall (fun t => (Py.len t <= 2000)%nat) texts /\
    String.concat "" texts = "<@7> " +:+ text_of_length 5000.
Proof.
  destruct (reply_fits_message_limit healthy Guild (mention_from 7 "<@99> hi")
              (text_of_length 5000) idle)
    as (s' & texts & Hrun & _ & Hsent & Hall & Hconcat);
    [vm_compute; lia|].
  exists s', texts. split; [exact Hrun|]. split; [exact Hsent|].
  split; [exact Hall|exact Hconcat].
Defined.

(** ** A file with a key that is no integer *)

Lemma int_keys_bad_key (members : list (string * string)) (k v : string) :
  In (k, v) members -> Py.int k = None ->
  forall acc, int_keys members acc = inl ValueError.
Proof.
  intros Hin Hk. induction members as [|[k' v'] rest IH]; [done|].
  intros acc. simpl. destruct Hin as [[= -> ->]|Hin].
  - by rewrite Hk.
  - destruct (Py.int k'); [by apply IH|done].
Qed.

(** X12. Loading is all or nothing: one key of the file that [int] does not
    accept (a name, a number with a letter or with U+001C in it) makes [load_threads] drop every entry of the file, the valid ones
    too; it logs an error and the process starts with no thread at all. *)
Theorem one_bad_key_loses_every_thread (members : list (string * string))
    (k v : string) (s : state) :
  disk s = Json (JObject members) ->
  In (k, v) members -> Py.int k = None ->
  exists s',
    load_threads s = (Val tt, s') /\
    user_threads s' = ∅ /\
    disk s' = disk s /\
    trace s'
    = (trace s
       ++ [EvLog ERROR "An unexpected error occurred loading threads: {e}"])%list.
Proof.
  intros Hdisk Hin Hk. unfold load_threads. unfold_prog.
  rewrite Hdisk. cbn [read_threads].
  rewrite (int_keys_bad_key members k v Hin Hk). cbv beta iota zeta.
  eexists. split; [reflexivity|]. done.
Qed.

(** The thread of user 7 is lost with the entry of the key "bob". *)
Lemma one_bad_key_loses_every_thread_witness :
  exists s',
    load_threads
      (mkState ∅ (Json (JObject [("7", "thread_1"); ("bob", "thread_2")]))
               0 0 0 [])
    = (Val tt, s') /\
    user_threads s' !! 7 = None.
Proof.
  destruct (one_bad_key_loses_every_thread
              [("7", "thread_1"); ("bob", "thread_2")] "bob" "thread_2"
              (mkState ∅ (Json (JObject [("7", "thread_1"); ("bob", "thread_2")]))
                       0 0 0 []))
    as (s' & Hrun & Hthreads & _);
    [reflexivity | right; left; reflexivity | reflexivity |].
  exists s'. split; [exact Hrun|]. by rewrite Hthreads.
Defined.

(** [int] refuses a key that starts with U+001C and takes one that starts
    with a no-break space. *)
Example keys_with_white_space :
  recovered (Json (JObject [("7", "thread_1");
                            (file_separator +:+ "8", "thread_2")])) = ∅ /\
  recovered (Json (JObject [(no_break_space +:+ "8", "thread_2")])) !! 8
  = Some "thread_2".
Proof. vm_compute. split; reflexivity. Qed.

(** ** The text of a mention *)

Module Mention.

Lemma prefix_first (p0 c : ascii) (pr r : string) :
  c <> p0 -> String.prefix (String p0 pr) (String c r) = false.
Proof. intros Hc. simpl. by destruct (ascii_dec p0 c) as [->|]. Qed.

Lemma prefix_cons (a b : ascii) (p s : string) :
  String.prefix (String a p) (String b s)
  = if Ascii.eqb a b then String.prefix p s else false.
Proof.
  cbn [String.prefix]. destruct (ascii_dec a b) as [->|Hn].
  - by rewrite Ascii.eqb_refl.
  - by apply Ascii.eqb_neq in Hn as ->.
Qed.

Lemma prefix_self (pat s : string) : String.prefix pat (pat +:+ s) = true.
Proof.
  induction pat as [|c pat IH]; [by destruct s|].
  rewrite Chunks.append_cons. simpl. by destruct (ascii_dec c c).
Qed.

Lemma remove_from_miss (pat : string) (c : ascii) (r : string) :
  String.prefix pat (String c r) = false ->
  Py.remove_from 0 pat (String c r) = String c (Py.remove_from 0 pat r).
Proof. intros H. cbn [Py.remove_from]. by rewrite H. Qed.

Lemma no_angle_app (s t : string) :
  no_angle (s +:+ t) = no_angle s && no_angle t.
Proof.
  induction s as [|c s IH]; [done|].
  rewrite Chunks.append_cons. simpl. by rewrite IH, andb_assoc.
Qed.

Lemma remove_from_clean (pr s : string) :
  no_angle s = true -> Py.remove_from 0 (String "<" pr) s = s.
Proof.
  induction s as [|c s IH]; [done|]. simpl no_angle.
  intros [Hc Hs]%andb_prop. apply negb_true_iff, Ascii.eqb_neq in Hc.
  rewrite remove_from_miss by (by apply prefix_first). by rewrite IH.
Qed.

Lemma remove_from_skip (pat x s : string) :
  Py.remove_from (String.length x) pat (x +:+ s) = Py.remove_from 0 pat s.
Proof.
  induction x as [|c x IH]; [done|].
  rewrite Chunks.append_cons. cbn [String.length Py.remove_from]. exact IH.
Qed.

Lemma remove_from_hit (p0 : ascii) (pr s : string) :
  Py.remove_from 0 (String p0 pr) (String p0 pr +:+ s)
  = Py.remove_from 0 (String p0 pr) s.
Proof.
  pose proof (prefix_self (String p0 pr) s) as Hp.
  rewrite Chunks.append_cons in *. cbn [Py.remove_from]. rewrite Hp.
  replace (String.length (String p0 pr) - 1)%nat with (String.length pr)
    by (simpl; lia).
  apply remove_from_skip.
Qed.

(** One occurrence of a pattern that starts with [<], in a text that has no
    other [<]. *)
Lemma remove_one (pr a b : string) :
  no_angle a = true -> no_angle b = true ->
  Py.remove_all (String "<" pr) (a +:+ String "<" pr +:+ b) = a +:+ b.
Proof.
  intros Ha Hb. unfold Py.remove_all.
  induction a as [|c a IH].
  - change ("" +:+ String "<" pr +:+ b) with (String "<" pr +:+ b).
    rewrite remove_from_hit. by apply remove_from_clean.
  - simpl no_angle in Ha. apply andb_prop in Ha as [Hc Ha].
    apply negb_true_iff, Ascii.eqb_neq in Hc.
    rewrite !(Chunks.append_cons c a).
    rewrite remove_from_miss by (by apply prefix_first). by rewrite IH.
Qed.

Lemma digit_plain (c : ascii) :
  Py.is_digit c = true -> c <> "!"%char /\ Ascii.eqb c "<" = false.
Proof.
  destruct c as [[|] [|] [|] [|] [|] [|] [|] [|]]; vm_compute; try done.
Qed.

Lemma digits_no_angle (s : string) : digits_only s = true -> no_angle s = true.
Proof.
  induction s as [|c s IH]; [done|]. simpl.
  intros [Hc Hs]%andb_prop. destruct (digit_plain c Hc) as [_ ->]. simpl. auto.
Qed.

(** [str(k)] starts with a digit or a minus sign and holds no [<]. *)
Lemma str_plain (k : Z) :
  exists d r, Py.str k = String d r /\ d <> "!"%char /\
              no_angle (Py.str k) = true.
Proof.
  destruct k as [|p|p].
  - by exists "0"%char, "".
  - rewrite PyFacts.str_pos.
    pose proof (PyFacts.string_of_uint_digits (Pos.to_uint p)) as Hd.
    pose proof (PyFacts.string_of_uint_nonempty (Pos.to_uint p)
                  (Unsigned.to_uint_nonnil p)) as Hne.
    destruct (NilEmpty.string_of_uint (Pos.to_uint p)) as [|d r] eqn:Hs;
      [done|].
    exists d, r. split; [done|]. split; [|by apply digits_no_angle].
    simpl in Hd. apply andb_prop in Hd as [Hd _]. by apply digit_plain.
  - rewrite PyFacts.str_neg.
    pose proof (PyFacts.string_of_uint_digits (Pos.to_uint p)) as Hd.
    eexists _, _. split; [reflexivity|]. split; [done|].
    simpl. by apply digits_no_angle.
Qed.

(** The pattern with [!] finds nothing in a text that holds the mention
    without it. *)
Lemma remove_other (id a b : string) (d : ascii) (r : string) :
  id = String d r -> d <> "!"%char -> no_angle id = true ->
  no_angle a = true -> no_angle b = true ->
  Py.remove_all ("<@!" +:+ id +:+ ">") (a +:+ ("<@" +:+ id +:+ ">") +:+ b)
  = a +:+ ("<@" +:+ id +:+ ">") +:+ b.
Proof.
  intros Hid Hd Hclean Ha Hb.
  change ("<@!" +:+ id +:+ ">")
    with (String "<" (String "@" (String "!" (id +:+ ">")))).
  change ("<@" +:+ id +:+ ">") with (String "<" (String "@" (id +:+ ">"))).
  unfold Py.remove_all.
  induction a as [|c a IH].
  - change ("" +:+ ?x) with x. rewrite !Chunks.append_cons.
    rewrite remove_from_miss.
    2:{ subst id. rewrite !Chunks.append_cons.
        assert (Hx : Ascii.eqb "!" d = false)
          by (apply Ascii.eqb_neq; congruence).
        by rewrite 3!prefix_cons, Hx. }
    f_equal. apply remove_from_clean.
    change (String "@" (id +:+ ">") +:+ b) with (String "@" ((id +:+ ">") +:+ b)).
    simpl. by rewrite !no_angle_app, Hclean, Hb.
  - simpl no_angle in Ha. apply andb_prop in Ha as [Hc Ha].
    apply negb_true_iff, Ascii.eqb_neq in Hc.
    rewrite !Chunks.append_cons.
    rewrite remove_from_miss by (by apply prefix_first).
    f_equal. rewrite !Chunks.append_cons in IH. by apply IH.
Qed.

End Mention.

(** X13. The mention of the bot is taken out of the text in both of the
    forms Discord writes it, with and without [!], and the rest is stripped:
    for a text that holds one mention and no other [<], the assistant is
    given what stands before and after the mention, without the white space
    around (that of [str.strip()]: the no-break space and the other blanks
    of Unicode too). *)
Theorem mention_is_removed (bot_id : Z) (m : inbound) (nick : bool)
    (before after : string) :
  msg_content m = before +:+ mention nick bot_id +:+ after ->
  no_angle before = true -> no_angle after = true ->
  actual_content_of bot_id m = Py.strip (before +:+ after).
Proof.
  intros Hcontent Ha Hb. unfold actual_content_of. rewrite Hcontent.
  destruct (Mention.str_plain bot_id) as (d & r & Hid & Hd & Hclean).
  unfold mention. destruct nick.
  - change ("<@!" +:+ Py.str bot_id +:+ ">")
      with (String "<" (String "@" (String "!" (Py.str bot_id +:+ ">")))).
    rewrite Mention.remove_one by done.
    change ("<@" +:+ Py.str bot_id +:+ ">")
      with (String "<" (String "@" (Py.str bot_id +:+ ">"))).
    unfold Py.remove_all. rewrite Mention.remove_from_clean; [done|].
    by rewrite Mention.no_angle_app, Ha, Hb.
  - rewrite (Mention.remove_other (Py.str bot_id) before after d r) by done.
    change ("<@" +:+ Py.str bot_id +:+ ">")
      with (String "<" (String "@" (Py.str bot_id +:+ ">"))).
    by rewrite Mention.remove_one.
Qed.

(** A mention written with [!] in the middle of a sentence. *)
Lemma mention_is_removed_witness :
  actual_content_of 99 (mention_from 7 " hey <@!99> what is up? ")
  = "hey  what is up?".
Proof.
  apply (mention_is_removed 99 (mention_from 7 " hey <@!99> what is up? ")
           true " hey " " what is up? "); reflexivity.
Defined.

(** A mention followed by a no-break space leaves no text: the user is
    asked what is needed. *)
Example mention_and_no_break_space :
  let m := mention_from 7 ("<@99>" +:+ no_break_space) in
  actual_content_of 99 m = "" /\
  (on_message answers_hello "asst_1" 99 81 m idle).1 = Val Prompted.
Proof. vm_compute. split; reflexivity. Qed.

(** ** Starting the process *)

Lemma prefix_nonempty (p : ascii) (ps s : string) :
  String.prefix (String p ps) s = true -> String.eqb s "" = false.
Proof. by destruct s. Qed.

Lemma load_threads_returns (s : state) :
  load_threads s = (Val tt, (load_threads s).2).
Proof. by destruct (load_threads_spec s) as (s1 & -> & _). Qed.

(** The two ways the script can go. *)
Lemma main_spec E fuel (c : Main.config)
    (w : Main.services) (s0 : state) :
  match Main.main E fuel c w s0 with
  | (e, records, s) =>
      if Main.checks_pass c w then
        e = Main.EndOfScript /\
        In (Main.Info Main.starting_message) records /\
        exists assistant,
          Main.ASSISTANT_ID c = Some assistant /\
          s = Main.run E assistant (Main.bot_user w) fuel
                (Main.incoming_events w)
                (load_threads (set_threads ∅ s0)).2
      else
        e <> Main.EndOfScript /\
        ~ In (Main.Info Main.starting_message) records /\
        s = set_threads ∅ s0
  end.
Proof.
  unfold Main.main, Main.checks_pass, Main.well_configured.
  destruct (Main.OPENAI_API_KEY c) as [key|]; [|by intuition].
  destruct (String.prefix "sk-proj-" key) eqn:Hkey; cbn [negb orb andb].
  2:{ destruct (Main.DISCORD_BOT_TOKEN c), (Main.ASSISTANT_ID c);
        cbn; by intuition. }
  rewrite (prefix_nonempty _ _ _ Hkey).
  destruct (Main.openai_client w) as [e1|].
  { destruct (Main.DISCORD_BOT_TOKEN c), (Main.ASSISTANT_ID c);
      rewrite ?andb_false_r; cbn; by intuition. }
  destruct (Main.DISCORD_BOT_TOKEN c) as [token|]; [|cbn; by intuition].
  destruct (String.prefix "M" token) eqn:Htoken; cbn [negb orb andb].
  2:{ destruct (Main.ASSISTANT_ID c); cbn; by intuition. }
  rewrite (prefix_nonempty _ _ _ Htoken). cbn [orb].
  destruct (Nat.ltb_spec (Py.len token) 50) as [Hlen|Hlen].
  { destruct (Nat.leb_spec 50 (Py.len token)); [lia|].
    destruct (Main.ASSISTANT_ID c); cbn; by intuition. }
  destruct (Nat.leb_spec 50 (Py.len token)); [|lia].
  destruct (Main.ASSISTANT_ID c) as [assistant|]; [|cbn; by intuition].
  destruct (String.prefix "asst_" assistant); cbn [negb andb];
    [|cbn; by intuition].
  rewrite load_threads_returns.
  destruct (Main.assistants_retrieve w) as [[]|]; cbn;
    try (by intuition).
  destruct (Main.client_run w) as [[]|];
    (split; [done|]); (split; [cbn; tauto|]); by exists assistant.
Qed.

(** X14. The Discord client is started, and events are handled, only when
    every test of the start has passed: the key starts with [sk-proj-], the
    token starts with [M] and has at least 50 characters, the assistant
    identifier starts with [asst_], the OpenAI client could be built and the
    assistant was found.  Then the events are handled from the state
    [load_threads] leaves, and the script runs to its end whatever
    [discord_client.run] raises.  In every other case the process ends
    before, without having loaded or handled anything. *)
Theorem client_starts_only_after_every_check E fuel (c : Main.config)
    (w : Main.services) (s0 : state) :
  match Main.main E fuel c w s0 with
  | (e, records, s) =>
      if Main.checks_pass c w then
        e = Main.EndOfScript /\
        In (Main.Info Main.starting_message) records /\
        exists assistant,
          Main.ASSISTANT_ID c = Some assistant /\
          s = Main.run E assistant (Main.bot_user w) fuel
                (Main.incoming_events w)
                (load_threads (set_threads ∅ s0)).2
      else
        e <> Main.EndOfScript /\
        ~ In (Main.Info Main.starting_message) records /\
        s = set_threads ∅ s0
  end.
Proof. apply main_spec. Qed.

(** X15. A variable that is not set is never reported as such: the process
    stops before the Discord client is started and without having touched
    anything, either with an [AttributeError] nothing catches and nothing
    logged, or at an earlier test with a message that is not the one about
    the unset variable. *)
Theorem unset_variable_is_not_diagnosed E fuel (c : Main.config)
    (w : Main.services) (s0 : state) (e : Main.ending)
    (records : list Main.record) (s : state) :
  Main.main E fuel c w s0 = (e, records, s) ->
  Main.OPENAI_API_KEY c = None \/ Main.DISCORD_BOT_TOKEN c = None
  \/ Main.ASSISTANT_ID c = None ->
  s = set_threads ∅ s0 /\
  ((e = Main.Uncaught Main.AttributeError /\ records = []) \/
   (e = Main.SystemExit /\
    exists text,
      records = [Main.Critical text] /\
      (Main.OPENAI_API_KEY c = None -> text <> Main.key_message) /\
      (Main.DISCORD_BOT_TOKEN c = None -> text <> Main.token_message) /\
      (Main.ASSISTANT_ID c = None -> text <> Main.assistant_message))).
Proof.
  unfold Main.main. intros Hmain Hunset.
  destruct (Main.OPENAI_API_KEY c) as [key|] eqn:Hk.
  2:{ injection Hmain as <- <- <-. split; [done|]. by left. }
  destruct (negb (String.prefix "sk-proj-" key) || String.eqb key "").
  { injection Hmain as <- <- <-. split; [done|]. right. split; [done|].
    eexists. split; [reflexivity|]. repeat split; intros H; first [discriminate H | by vm_compute]. }
  destruct (Main.openai_client w).
  { injection Hmain as <- <- <-. split; [done|]. right. split; [done|].
    eexists. split; [reflexivity|]. repeat split; intros H; first [discriminate H | by vm_compute]. }
  destruct (Main.DISCORD_BOT_TOKEN c) as [token|] eqn:Ht.
  2:{ injection Hmain as <- <- <-. split; [done|]. by left. }
  destruct (negb (String.prefix "M" token) || String.eqb token ""
            || (Py.len token <? 50)%nat).
  { injection Hmain as <- <- <-. split; [done|]. right. split; [done|].
    eexists. split; [reflexivity|]. repeat split; intros H; first [discriminate H | by vm_compute]. }
  destruct (Main.ASSISTANT_ID c) as [assistant|] eqn:Ha.
  2:{ injection Hmain as <- <- <-. split; [done|]. by left. }
  by destruct Hunset as [?|[?|?]].
Qed.

(** Nothing is set: the process dies at line 59. *)
Lemma unset_variable_is_not_diagnosed_witness :
  Main.main healthy 81 unset (online []) idle
  = (Main.Uncaught Main.AttributeError, [], idle).
Proof.
  destruct (Main.main healthy 81 unset (online []) idle) as [[e records] s]
    eqn:Hmain.
  destruct (unset_variable_is_not_diagnosed healthy 81 unset (online []) idle
              e records s Hmain) as (-> & [[-> ->]|(-> & text & _)]).
  - left. reflexivity.
  - reflexivity.
  - exfalso. vm_compute in Hmain. discriminate Hmain.
Defined.

(** ** Stopping and starting again *)

Lemma in_sync_run E assistant bot_id fuel (events : list Main.incoming) :
  (forall n, disk_write E n = WriteOk) ->
  forall s, in_sync s -> in_sync (Main.run E assistant bot_id fuel events s).
Proof.
  intros Hdisk. unfold Main.run.
  induction events as [|ev events IH]; intros s Hs; simpl; [done|].
  apply IH. destruct ev as [|m]; simpl.
  - exact Hs.
  - by apply in_sync_on_message.
Qed.

(** X16. On a disk that takes every write the threads outlive the process:
    when the script is started again on the file a first run has left, it
    begins with exactly the threads the first run ended with, whatever was
    handled in between. *)
Theorem threads_survive_a_restart E E' fuel fuel' (c c' : Main.config)
    (w w' : Main.services) (s0 : state) :
  Main.checks_pass c w = true -> Main.checks_pass c' w' = true ->
  (forall n, disk_write E n = WriteOk) ->
  Main.incoming_events w' = [] ->
  let s1 := (Main.main E fuel c w s0).2 in
  let s2 := (Main.main E' fuel' c' w' s1).2 in
  user_threads s2 = user_threads s1 /\ disk s2 = disk s1.
Proof.
  intros Hc Hc' Hdisk Hnone s1 s2.
  pose proof (main_spec E fuel c w s0) as H1.
  pose proof (main_spec E' fuel' c' w' s1) as H2.
  fold s1 in H2. subst s2.
  destruct (Main.main E' fuel' c' w' s1) as [[e2 r2] s2].
  rewrite Hc' in H2. destruct H2 as (_ & _ & a2 & _ & ->).
  rewrite Hnone. cbn [Main.run foldl snd].
  assert (Hsync : in_sync s1).
  { subst s1. destruct (Main.main E fuel c w s0) as [[e1 r1] s1].
    rewrite Hc in H1. destruct H1 as (_ & _ & a1 & _ & ->). cbn [snd].
    apply in_sync_run; [done|].
    destruct (load_threads_spec (set_threads ∅ s0)) as (s' & -> & Hu & Hd & _).
    unfold in_sync, recovered. cbn [snd]. by rewrite Hd, Hu. }
  destruct (load_threads_spec (set_threads ∅ s1)) as (s' & -> & Hu & Hd & _).
  cbn [snd]. split; [|exact Hd]. rewrite Hu. exact Hsync.
Qed.

(** A first run answers user 7; the second one knows the thread. *)
Lemma threads_survive_a_restart_witness :
  let s1 :=
    (Main.main answers_hello 81 configured
       (online [Main.Ready; Main.Message (dm_from 7 "hi")]) idle).2 in
  let s2 := (Main.main unreachable 81 configured (online []) s1).2 in
  user_threads s1 !! 7 = Some "thread_1" /\
  user_threads s2 = user_threads s1.
Proof.
  split; [vm_compute; reflexivity|].
  apply (threads_survive_a_restart answers_hello unreachable 81 81
           configured configured
           (online [Main.Ready; Main.Message (dm_from 7 "hi")]) (online [])
           idle); reflexivity.
Defined.

(** ** A write of the file that fails *)

(** X17. A failed save is only logged: [save_threads] returns, memory keeps
    the dictionary and the handler goes on.  The file is not written
    atomically: when [open] fails a restart finds the former content, and
    when the write breaks off after [open] has emptied the file, a restart
    finds no thread at all. *)
Theorem failed_save_is_only_logged E (s : state) (m0 : gmap Z string) :
  disk_write E (saves s) <> WriteOk ->
  exists s1,
    save_threads E s = (Val tt, s1) /\
    user_threads s1 = user_threads s /\
    trace s1
    = (trace s ++ [EvWriteFile;
                   EvLog ERROR "Error saving threads to {THREAD_DATA_FILE}: {e}"])%list /\
    user_threads (load_threads (set_threads m0 s1)).2
    = match disk_write E (saves s) with
      | DumpFails => ∅
      | _ => recovered (disk s)
      end.
Proof.
  intros Hw. unfold save_threads, write_file. unfold_prog.
  destruct (disk_write E (saves s)) eqn:Hd; [done| |];
    eexists; (split; [reflexivity|]); (split; [reflexivity|]);
    (split; [cbn; by rewrite <- app_assoc|]).
  - match goal with
    | |- context [load_threads ?x] =>
        destruct (load_threads_spec x) as (s2 & -> & Hu & _)
    end.
    cbn [snd]. rewrite Hu. reflexivity.
  - match goal with
    | |- context [load_threads ?x] =>
        destruct (load_threads_spec x) as (s2 & -> & Hu & _)
    end.
    cbn [snd]. rewrite Hu. reflexivity.
Qed.

(** The write breaks off: the two users are known until the process stops,
    and to no later one. *)
Lemma failed_save_is_only_logged_witness :
  exists s1,
    save_threads broken_disk two_users = (Val tt, s1) /\
    user_threads s1 = user_threads two_users /\
    user_threads (load_threads (set_threads ∅ s1)).2 = ∅.
Proof.
  destruct (failed_save_is_only_logged broken_disk two_users ∅)
    as (s1 & Hrun & Hmem & _ & Hload); [discriminate|].
  exists s1. split; [exact Hrun|]. split; [exact Hmem|exact Hload].
Defined.

(** ** A remote error while the text is posted *)

Lemma report_error_spec (ctx : context) (m : inbound) (e : exn) (s : state) :
  exists s' lvl text,
    report_error ctx m e s = (Val (classify e), s') /\
    same_store s s' /\ calls s' = calls s /\
    trace s'
    = (trace s ++ [EvLog lvl text;
                   EvSend (prefix ctx m +:+ apology ctx e)])%list.
Proof.
  unfold report_error, classify, apology.
  destruct e; cbn [is_api_error]; unfold_prog; cbv beta iota zeta;
    (eexists _, _, _; split; [reflexivity|]);
    (split; [done|]); (split; [done|]);
    unfold emit; cbn [trace]; by rewrite <- app_assoc.
Qed.

(** X18. When the user has a thread and posting the text to it fails, no
    run is started: that request is the only one made, the Session Store is
    left as it was, and the user gets exactly one message, chosen by the
    kind of the error: the one for high demand for a rate limit, the one for
    the AI service for any other API error, the one for an unexpected error
    otherwise. *)
Theorem failed_post_is_reported E ASSISTANT_ID bot_id fuel (m : inbound)
    (s : state) (tid : string) (e : exn) :
  processed bot_id m = true ->
  user_threads s !! author_id m = Some tid -> tid <> "" ->
  messages_create E (calls s) = Raises e ->
  exists s',
    on_message E ASSISTANT_ID bot_id fuel m s = (Val (classify e), s') /\
    same_store s s' /\
    calls s' = S (calls s) /\
    In (EvMessagesCreate tid (text_of bot_id m)) (trace s') /\
    sent (trace s')
    = (sent (trace s)
       ++ [prefix (context_of m) m +:+ apology (context_of m) e])%list.
Proof.
  intros Hp Hl Hne He.
  rewrite (on_message_assist E ASSISTANT_ID bot_id fuel m s Hp).
  unfold assist, try_except, modify. unfold mbind, M_bind, bind.
  rewrite (resolve_truthy E (context_of m) m
             (emit EvTyping (emit (received m) s)) tid Hl Hne).
  unfold execute, start_run. unfold mbind, M_bind, bind.
  set (s1 := emit EvTyping (emit (received m) s)).
  set (post := EvMessagesCreate tid (text_of bot_id m)).
  assert (Hpost : request E post (messages_create E) s1
                  = (Exc e, charge E post s1)).
  { unfold request. change (calls s1) with (calls s). by rewrite He. }
  rewrite Hpost.
  destruct (report_error_spec (context_of m) m e (charge E post s1))
    as (s' & lvl & text & -> & Hstore & Hcalls & Htrace).
  exists s'. split; [reflexivity|].
  assert (Hrec : sent [received m] = [])
    by (unfold received; destruct (in_guild m); done).
  split; [|split; [|split]].
  - eapply same_store_trans; [|exact Hstore]. done.
  - by rewrite Hcalls.
  - rewrite Htrace. cbn [trace charge]. rewrite !in_app_iff. cbn. tauto.
  - rewrite Htrace. cbn [trace charge]. unfold s1, emit. cbn [trace].
    rewrite !sent_app, Hrec. cbn. by rewrite !app_nil_r.
Qed.

(** User 7 has a thread; the post is refused for excess of requests. *)
Lemma failed_post_is_reported_witness :
  exists s',
    on_message rate_limited "asst_1" 99 81 (dm_from 7 "hi") has_thread
    = (Val RateLimited, s') /\
    calls s' = 1%nat /\
    sent (trace s')
    = ["I'm experiencing high demand right now. Please wait a moment and try again."].
Proof.
  destruct (failed_post_is_reported rate_limited "asst_1" 99 81
              (dm_from 7 "hi") has_thread "thread_1" RateLimitError)
    as (s' & Hrun & _ & Hcalls & _ & Hsent);
    [reflexivity | reflexivity | discriminate | reflexivity |].
  exists s'. split; [exact Hrun|]. split; [exact Hcalls|exact Hsent].
Defined.
